(** * CustomRPC Manager: supervisor, command channel and command handler

    A shallow embedding of

    - [customrpc/core/rpc_manager.py]  (class [RPCManager]),
    - [customrpc/utils/ipc.py]         (classes [IPCServer], [IPCClient]),
    - [customrpcmanager/core/profile_manager.py] (class [ProfileManager]),
    - [customrpc/cli/cli_controller.py] (class [CLIController]),
    - [customrpc/main.py]              (class [CustomRPCApp]),

    Python values are a small inductive type, methods are computations in
    a state-and-exception monad over the state of the running process, and
    everything outside the repository (pypresence, sockets, Qt widgets) is
    an oracle: each external call is recorded in a trace and answered by
    the next outcome of a script. *)

From Stdlib Require Import String Ascii List ZArith Bool Lia Permutation.
From Stdlib Require Import DecimalString.
From Stdlib Require Import Strings.Byte.
Import ListNotations.
Local Open Scope string_scope.

(* ================================================================== *)
(** * Python values *)
(* ================================================================== *)

(** The values [json.loads] produces, which are also the values the
    program stores in its dicts.  [PNone] is Python's [None] (JSON null);
    numbers are integers (no floats); a [str] is a sequence of code points
    below 256.  A dict keeps its insertion order, as Python's does; a well
    formed one has no repeated key. *)
#[local] Set Warnings "-register-all".
Inductive PyVal : Type :=
| PNone
| PBool (b : bool)
| PInt (n : Z)
| PStr (s : string)
| PList (l : list PyVal)
| PDict (d : list (string * PyVal)).

Definition dict := list (string * PyVal).
Definition bytes := list Byte.byte.

(** Characters that cannot be written inside a literal. *)
Definition LF : ascii := "010"%char.
Definition DQUOTE : ascii := "034"%char.
Definition SQUOTE : ascii := "039"%char.
Definition BACKSLASH : ascii := "092"%char.
Definition nl : string := String LF "".

(** [bool(v)]: Python's truth value. *)
Definition truthy (v : PyVal) : bool :=
  match v with
  | PNone => false
  | PBool b => b
  | PInt n => negb (Z.eqb n 0)
  | PStr s => negb (String.eqb s "")
  | PList l => match l with [] => false | _ :: _ => true end
  | PDict d => match d with [] => false | _ :: _ => true end
  end.

(** [v is None] *)
Definition is_None (v : PyVal) : bool :=
  match v with PNone => true | _ => false end.

(** [type(v).__name__] *)
Definition type_name (v : PyVal) : string :=
  match v with
  | PNone => "NoneType"
  | PBool _ => "bool"
  | PInt _ => "int"
  | PStr _ => "str"
  | PList _ => "list"
  | PDict _ => "dict"
  end.

(** ** Dicts *)

Fixpoint dict_get (d : dict) (k : string) : option PyVal :=
  match d with
  | [] => None
  | (k', v) :: d' => if String.eqb k k' then Some v else dict_get d' k
  end.

(** [k in d] *)
Definition dict_mem (d : dict) (k : string) : bool :=
  match dict_get d k with Some _ => true | None => false end.

(** [d[k] = v]: an existing key keeps its place, a new one goes last. *)
Fixpoint dict_set (d : dict) (k : string) (v : PyVal) : dict :=
  match d with
  | [] => [(k, v)]
  | (k', v') :: d' =>
      if String.eqb k k' then (k', v) :: d' else (k', v') :: dict_set d' k v
  end.

(** [d.get(k, default)] on a dict *)
Definition dict_get_default (d : dict) (k : string) (default : PyVal) : PyVal :=
  match dict_get d k with Some v => v | None => default end.

Definition keys (d : dict) : list string := map fst d.

(** ** Equality and order *)

Definition as_number (v : PyVal) : option Z :=
  match v with
  | PBool b => Some (if b then 1%Z else 0%Z)
  | PInt n => Some n
  | _ => None
  end.

(** [a == b].  [bool] is a subclass of [int] ([True == 1]); two dicts are
    equal when they have as many keys and every key of the one is bound to
    an equal value in the other. *)
Fixpoint py_eq (a b : PyVal) {struct a} : bool :=
  match a with
  | PNone => is_None b
  | PBool x =>
      match as_number b with
      | Some n => Z.eqb (if x then 1 else 0) n
      | None => false
      end
  | PInt x =>
      match as_number b with Some n => Z.eqb x n | None => false end
  | PStr s => match b with PStr t => String.eqb s t | _ => false end
  | PList l =>
      match b with
      | PList m =>
          (fix all2 (l m : list PyVal) {struct l} : bool :=
             match l, m with
             | [], [] => true
             | x :: l', y :: m' => py_eq x y && all2 l' m'
             | _, _ => false
             end) l m
      | _ => false
      end
  | PDict d =>
      match b with
      | PDict e =>
          Nat.eqb (length d) (length e) &&
          (fix all (d : list (string * PyVal)) {struct d} : bool :=
             match d with
             | [] => true
             | (k, v) :: d' =>
                 match dict_get e k with
                 | Some w => py_eq v w
                 | None => false
                 end && all d'
             end) d
      | _ => false
      end
  end.

(* ================================================================== *)
(** * Exceptions and results *)
(* ================================================================== *)

(** The exception classes the code tells apart, all below [Exception];
    [OtherError] stands for every other class (OSError, timeouts, ...). *)
Inductive ExnClass : Type :=
| InvalidID
| InvalidPipe
| JSONDecodeError
| UnicodeDecodeError
| BlockingIOError
| TypeError
| AttributeError
| OtherError.

Record Exn : Type := mkExn { exn_class : ExnClass; exn_msg : string }.

(** [str(e)] *)
Definition str_exn (e : Exn) : string := exn_msg e.

Definition is_class (c : ExnClass) (e : Exn) : bool :=
  match c, exn_class e with
  | InvalidID, InvalidID
  | InvalidPipe, InvalidPipe
  | JSONDecodeError, JSONDecodeError
  | UnicodeDecodeError, UnicodeDecodeError
  | BlockingIOError, BlockingIOError
  | TypeError, TypeError
  | AttributeError, AttributeError
  | OtherError, OtherError => true
  | _, _ => false
  end.

Arguments is_class : simpl never.

(** A Python expression either has a value or raises. *)
Inductive Res (A : Type) : Type :=
| Ret (a : A)
| Raise (e : Exn).
Arguments Ret {A} a.
Arguments Raise {A} e.

Definition rbind {A B : Type} (r : Res A) (k : A -> Res B) : Res B :=
  match r with Ret a => k a | Raise e => Raise e end.

(** [a < b]; raises [TypeError] where Python does. *)
Definition lt_TypeError (a b : PyVal) : Exn :=
  mkExn TypeError
    ("'<' not supported between instances of '" ++ type_name a ++ "' and '"
       ++ type_name b ++ "'").

Fixpoint py_lt (a b : PyVal) {struct a} : Res bool :=
  match a with
  | PNone | PDict _ => Raise (lt_TypeError a b)
  | PBool _ | PInt _ =>
      match as_number a, as_number b with
      | Some x, Some y => Ret (Z.ltb x y)
      | _, _ => Raise (lt_TypeError a b)
      end
  | PStr s =>
      match b with
      | PStr t => Ret (String.ltb s t)
      | _ => Raise (lt_TypeError a b)
      end
  | PList l =>
      match b with
      | PList m =>
          (fix lex (l m : list PyVal) {struct l} : Res bool :=
             match l, m with
             | [], [] => Ret false
             | [], _ :: _ => Ret true
             | _ :: _, [] => Ret false
             | x :: l', y :: m' => if py_eq x y then lex l' m' else py_lt x y
             end) l m
      | _ => Raise (lt_TypeError a b)
      end
  end.

(** [sorted(l)].  Python's sort is stable; this is the stable insertion
    sort, which returns the same list as any other stable sort whenever
    the elements are pairwise comparable (always the case for a list of
    [str]).  The first comparison that raises aborts the sort. *)
Fixpoint insert_sorted (x : PyVal) (l : list PyVal) : Res (list PyVal) :=
  match l with
  | [] => Ret [x]
  | y :: l' =>
      rbind (py_lt x y) (fun b =>
        if b then Ret (x :: y :: l')
        else rbind (insert_sorted x l') (fun r => Ret (y :: r)))
  end.

Definition py_sorted (l : list PyVal) : Res (list PyVal) :=
  fold_left (fun acc x => rbind acc (insert_sorted x)) l (Ret []).

(** ** [str()] and [repr()] *)

Definition code (c : ascii) : N := N_of_ascii c.

Definition hex_digit (n : N) : ascii :=
  if (n <? 10)%N then ascii_of_N (48 + n) else ascii_of_N (87 + n).

(** [\xhh] *)
Definition hex_escape (c : ascii) : string :=
  String BACKSLASH (String "x"
    (String (hex_digit (code c / 16)) (String (hex_digit (code c mod 16)) ""))).

(** [str.isprintable] of one character *)
Definition isprintable (c : ascii) : bool :=
  let n := code c in
  ((32 <=? n) && (n <? 127) || (161 <=? n) && negb (n =? 173))%N.

Fixpoint contains_char (c : ascii) (s : string) : bool :=
  match s with
  | "" => false
  | String c' s' => Ascii.eqb c c' || contains_char c s'
  end.

Definition repr_char (quote c : ascii) : string :=
  let n := code c in
  if Ascii.eqb c quote || Ascii.eqb c BACKSLASH then String BACKSLASH (String c "")
  else if (n =? 9)%N then String BACKSLASH "t"
  else if (n =? 10)%N then String BACKSLASH "n"
  else if (n =? 13)%N then String BACKSLASH "r"
  else if isprintable c then String c ""
  else hex_escape c.

(** [repr(s)] of a str: single quotes unless the text has a single quote
    and no double quote. *)
Definition repr_str (s : string) : string :=
  let quote :=
    if contains_char SQUOTE s && negb (contains_char DQUOTE s)
    then DQUOTE else SQUOTE in
  String quote
    (String.concat "" (map (repr_char quote) (list_ascii_of_string s))
       ++ String quote "").

Definition str_Z (n : Z) : string := NilZero.string_of_int (Z.to_int n).
Definition str_nat (n : nat) : string := NilZero.string_of_uint (Nat.to_uint n).

Fixpoint py_repr (v : PyVal) : string :=
  match v with
  | PNone => "None"
  | PBool b => if b then "True" else "False"
  | PInt n => str_Z n
  | PStr s => repr_str s
  | PList l => "[" ++ String.concat ", " (map py_repr l) ++ "]"
  | PDict d =>
      "{" ++ String.concat ", "
               (map (fun kv => repr_str (fst kv) ++ ": " ++ py_repr (snd kv)) d)
          ++ "}"
  end.

(** [str(v)], which is what an f-string field prints. *)
Definition py_str (v : PyVal) : string :=
  match v with PStr s => s | _ => py_repr v end.

(** ** [str] methods *)

(** [c.isalnum()] for one character (code points below 256). *)
Definition isalnum_char (c : ascii) : bool :=
  let n := code c in
  ((48 <=? n) && (n <=? 57) || (65 <=? n) && (n <=? 90)
   || (97 <=? n) && (n <=? 122)
   || (n =? 170) || (n =? 178) || (n =? 179) || (n =? 181) || (n =? 185)
   || (n =? 186) || (188 <=? n) && (n <=? 190)
   || (192 <=? n) && (n <=? 214) || (216 <=? n) && (n <=? 246)
   || (248 <=? n))%N.

(** [s.isalnum()]: not empty and every character alphanumeric. *)
Definition isalnum (s : string) : bool :=
  negb (String.eqb s "") && forallb isalnum_char (list_ascii_of_string s).

Definition isspace_char (c : ascii) : bool :=
  let n := code c in
  ((9 <=? n) && (n <=? 13) || (28 <=? n) && (n <=? 32)
   || (n =? 133) || (n =? 160))%N.

Fixpoint lstrip (s : string) : string :=
  match s with
  | "" => ""
  | String c s' => if isspace_char c then lstrip s' else s
  end.

Fixpoint rstrip (s : string) : string :=
  match s with
  | "" => ""
  | String c s' =>
      match rstrip s' with
      | "" => if isspace_char c then "" else String c ""
      | r => String c r
      end
  end.

(** [s.strip()] *)
Definition strip (s : string) : string := rstrip (lstrip s).

(** [s.endswith(suffix)] *)
Definition endswith (s suffix : string) : bool :=
  (String.length suffix <=? String.length s)%nat
  && String.eqb
       (substring (String.length s - String.length suffix) (String.length suffix) s)
       suffix.

(** [for c in v]: the elements a [for] loop or a generator visits. *)
Definition py_iter (v : PyVal) : Res (list PyVal) :=
  match v with
  | PStr s => Ret (map (fun c => PStr (String c "")) (list_ascii_of_string s))
  | PList l => Ret l
  | PDict d => Ret (map (fun kv => PStr (fst kv)) d)
  | _ => Raise (mkExn TypeError ("'" ++ type_name v ++ "' object is not iterable"))
  end.

(** [v.get(k)] / [v.get(k, default)] on an arbitrary value: only a dict
    has the method. *)
Definition no_attribute (v : PyVal) (attr : string) : Exn :=
  mkExn AttributeError
    ("'" ++ type_name v ++ "' object has no attribute '" ++ attr ++ "'").

Definition py_get_default (v : PyVal) (k : string) (default : PyVal) : Res PyVal :=
  match v with
  | PDict d => Ret (dict_get_default d k default)
  | _ => Raise (no_attribute v "get")
  end.

Definition py_get (v : PyVal) (k : string) : Res PyVal := py_get_default v k PNone.

(* ================================================================== *)
(** * The world outside the repository *)
(* ================================================================== *)

(** A [pypresence.Presence] object: the application id it was built with
    and a serial number that tells one object from another. *)
Record Presence : Type := mkPresence { presence_serial : nat; presence_id : PyVal }.

(** Calls that leave the repository. *)
Inductive Call : Type :=
(* pypresence *)
| Presence_init (client_id : PyVal)              (* Presence(client_id) *)
| Presence_connect (c : Presence)                (* client.connect() *)
| Presence_update (c : Presence) (kwargs : dict) (* client.update with kwargs as keyword arguments *)
| Presence_clear (c : Presence)                  (* client.clear() *)
| Presence_close (c : Presence)                  (* client.close() *)
(* the listening socket and an accepted connection *)
| Listener_accept                                (* self.socket.accept() *)
| Conn_recv (bufsize : nat)                      (* conn.recv(n) *)
| Conn_sendall (data : bytes)                    (* conn.sendall(data) *)
| Conn_close                                     (* leaving [with conn:] *)
(* the client's socket *)
| Socket_new                                     (* socket.socket(...) *)
| Socket_settimeout (seconds : Z)
| Socket_connect (port : Z)                      (* s.connect(('127.0.0.1', port)) *)
| Socket_sendall (data : bytes)
| Socket_recv (bufsize : nat)
| Socket_close                                   (* leaving [with socket...:] *)
(* Qt *)
| Tray_update_status (connected : bool)
| Tray_show_message (title message : string)
| Window_update_connection_status (connected : bool) (status_text : string)
| Combo_setCurrentText (text : PyVal)
| Window_load_selected_profile
| QTimer_singleShot (msec : Z) (slot : string).

(** What a call does: return (with the bytes read, for a [recv]) or raise. *)
Inductive Outcome : Type :=
| Ok (data : bytes)
| Err (e : Exn).

(** [script]: the outcomes of the calls still to come, in order (a call
    past the end of the script succeeds and reads nothing).
    [trace]: the calls made so far with their outcomes, oldest first. *)
Record World : Type := mkWorld {
  script : list Outcome;
  trace : list (Call * Outcome)
}.

(* ================================================================== *)
(** * The state of the process *)
(* ================================================================== *)

(** [class RPCStatus] *)
Inductive RPCStatus : Type := DISCONNECTED | CONNECTING | CONNECTED | ERROR.

Definition status_eqb (a b : RPCStatus) : bool :=
  match a, b with
  | DISCONNECTED, DISCONNECTED | CONNECTING, CONNECTING
  | CONNECTED, CONNECTED | ERROR, ERROR => true
  | _, _ => false
  end.

(** A [threading.Thread] that was started. *)
Record Thread : Type := mkThread { is_alive : bool }.

(** The fields of an [RPCManager] ([__init__] builds [RPCManager_init]).
    [_reconnect_event] is the flag of the [threading.Event]. *)
Record RPCManager : Type := mkRPCManager {
  client : option Presence;
  client_id : PyVal;
  status : RPCStatus;
  current_activity : PyVal;
  _reconnect_thread : option Thread;
  _reconnect_event : bool;
  _should_reconnect : bool
}.

Definition RPCManager_init : RPCManager :=
  {| client := None; client_id := PNone; status := DISCONNECTED;
     current_activity := PNone; _reconnect_thread := None;
     _reconnect_event := false; _should_reconnect := false |}.

(** What opening and [json.load]-ing a file gives. *)
Inductive FileBody : Type :=
| Unreadable (e : Exn)
| Doc (v : PyVal).

(** The entries of [profiles_dir], by file name, in the order the
    directory is listed. *)
Definition Dir := list (string * FileBody).

(** What the code can read from the main window: [rpc_form.get_data()]
    and [profile_combo.currentText()]. *)
Record MainWindow : Type := mkMainWindow {
  rpc_form_data : dict;
  profile_combo_text : string
}.

(** [sys.stdout]: the terminal, or an [io.StringIO] with its content. *)
Inductive Stream : Type :=
| Terminal
| StringIO (value : string).

(** The process: the [CustomRPCApp] with its collaborators, [sys.stdout],
    and the world it talks to. *)
Record Process : Type := mkProcess {
  env : World;
  rpc : RPCManager;
  profiles_dir : Dir;
  config : dict;
  main_window : option MainWindow;
  sys_stdout : Stream;
  terminal : string
}.

Definition set_env (w : World) (p : Process) : Process :=
  {| env := w; rpc := rpc p; profiles_dir := profiles_dir p; config := config p;
     main_window := main_window p; sys_stdout := sys_stdout p; terminal := terminal p |}.
Definition set_rpc (m : RPCManager) (p : Process) : Process :=
  {| env := env p; rpc := m; profiles_dir := profiles_dir p; config := config p;
     main_window := main_window p; sys_stdout := sys_stdout p; terminal := terminal p |}.
Definition set_config (c : dict) (p : Process) : Process :=
  {| env := env p; rpc := rpc p; profiles_dir := profiles_dir p; config := c;
     main_window := main_window p; sys_stdout := sys_stdout p; terminal := terminal p |}.
Definition set_sys_stdout (s : Stream) (p : Process) : Process :=
  {| env := env p; rpc := rpc p; profiles_dir := profiles_dir p; config := config p;
     main_window := main_window p; sys_stdout := s; terminal := terminal p |}.
Definition set_terminal (t : string) (p : Process) : Process :=
  {| env := env p; rpc := rpc p; profiles_dir := profiles_dir p; config := config p;
     main_window := main_window p; sys_stdout := sys_stdout p; terminal := t |}.

Definition with_client (c : option Presence) (m : RPCManager) : RPCManager :=
  {| client := c; client_id := client_id m; status := status m;
     current_activity := current_activity m;
     _reconnect_thread := _reconnect_thread m;
     _reconnect_event := _reconnect_event m;
     _should_reconnect := _should_reconnect m |}.
Definition with_client_id (i : PyVal) (m : RPCManager) : RPCManager :=
  {| client := client m; client_id := i; status := status m;
     current_activity := current_activity m;
     _reconnect_thread := _reconnect_thread m;
     _reconnect_event := _reconnect_event m;
     _should_reconnect := _should_reconnect m |}.
Definition with_status (s : RPCStatus) (m : RPCManager) : RPCManager :=
  {| client := client m; client_id := client_id m; status := s;
     current_activity := current_activity m;
     _reconnect_thread := _reconnect_thread m;
     _reconnect_event := _reconnect_event m;
     _should_reconnect := _should_reconnect m |}.
Definition with_current_activity (a : PyVal) (m : RPCManager) : RPCManager :=
  {| client := client m; client_id := client_id m; status := status m;
     current_activity := a;
     _reconnect_thread := _reconnect_thread m;
     _reconnect_event := _reconnect_event m;
     _should_reconnect := _should_reconnect m |}.
Definition with_reconnect_thread (t : option Thread) (m : RPCManager) : RPCManager :=
  {| client := client m; client_id := client_id m; status := status m;
     current_activity := current_activity m;
     _reconnect_thread := t;
     _reconnect_event := _reconnect_event m;
     _should_reconnect := _should_reconnect m |}.
Definition with_reconnect_event (b : bool) (m : RPCManager) : RPCManager :=
  {| client := client m; client_id := client_id m; status := status m;
     current_activity := current_activity m;
     _reconnect_thread := _reconnect_thread m;
     _reconnect_event := b;
     _should_reconnect := _should_reconnect m |}.
Definition with_should_reconnect (b : bool) (m : RPCManager) : RPCManager :=
  {| client := client m; client_id := client_id m; status := status m;
     current_activity := current_activity m;
     _reconnect_thread := _reconnect_thread m;
     _reconnect_event := _reconnect_event m;
     _should_reconnect := b |}.

(* ================================================================== *)
(** * Computations: state and exceptions *)
(* ================================================================== *)

(** A method body: run from a process state, it returns or raises, and
    leaves a new state either way (an exception does not undo writes). *)
Definition M (A : Type) : Type := Process -> Res A * Process.

Definition ret {A : Type} (a : A) : M A := fun p => (Ret a, p).
Definition raise {A : Type} (e : Exn) : M A := fun p => (Raise e, p).

Definition bind {A B : Type} (m : M A) (k : A -> M B) : M B :=
  fun p =>
    match m p with
    | (Ret a, p') => k a p'
    | (Raise e, p') => (Raise e, p')
    end.

Declare Scope py_scope.
Delimit Scope py_scope with py.
Notation "x <- m ;; k" := (bind m (fun x => k))
  (at level 61, m at next level, right associativity) : py_scope.
Notation "m ;; k" := (bind m (fun _ => k))
  (at level 61, right associativity) : py_scope.
Local Open Scope py_scope.

(** A pure expression that may raise, inside a method. *)
Definition lift {A : Type} (r : Res A) : M A := fun p => (r, p).

(** [try: body  except Exception as e: handler e] *)
Definition try_except {A : Type} (body : M A) (handler : Exn -> M A) : M A :=
  fun p =>
    match body p with
    | (Ret a, p') => (Ret a, p')
    | (Raise e, p') => handler e p'
    end.

(** [try: body  finally: cleanup]; also the exit of a [with] block. *)
Definition try_finally {A : Type} (body : M A) (cleanup : M unit) : M A :=
  fun p =>
    match body p with
    | (r, p') =>
        match cleanup p' with
        | (Ret _, p'') => (r, p'')
        | (Raise e, p'') => (Raise e, p'')
        end
    end.

Definition get : M Process := fun p => (Ret p, p).
Definition modify (f : Process -> Process) : M unit := fun p => (Ret tt, f p).
Definition modify_rpc (f : RPCManager -> RPCManager) : M unit :=
  modify (fun p => set_rpc (f (rpc p)) p).

Definition when (b : bool) (m : M unit) : M unit := if b then m else ret tt.

(** An external call: answered by the head of the script, recorded in the
    trace. *)
Definition next_outcome (w : World) : Outcome := hd (Ok []) (script w).

Definition record_call (c : Call) (w : World) : World :=
  {| script := tl (script w); trace := trace w ++ [(c, next_outcome w)] |}.

Definition ext (c : Call) : M bytes :=
  fun p =>
    (match next_outcome (env p) with Ok data => Ret data | Err e => Raise e end,
     set_env (record_call c (env p)) p).

(** [print(s)] *)
Definition print (s : string) : M unit :=
  modify (fun p =>
    match sys_stdout p with
    | Terminal => set_terminal (terminal p ++ s ++ nl) p
    | StringIO v => set_sys_stdout (StringIO (v ++ s ++ nl)) p
    end).

(* ================================================================== *)
(** * [class RPCManager]  (customrpc/core/rpc_manager.py) *)
(* ================================================================== *)

(** Calls to [self.logger] are left out throughout: the handlers of the
    logger were bound to the log file and to the terminal when the logger
    was built, so logging reaches neither the state below nor a
    [StringIO] installed later as [sys.stdout]. *)

Definition is_some {A : Type} (o : option A) : bool :=
  match o with Some _ => true | None => false end.

(** [Presence(client_id)] *)
Definition new_Presence (cid : PyVal) : M Presence :=
  p <- get ;;
  ext (Presence_init cid) ;;
  ret (mkPresence (length (trace (env p))) cid).

(** [def disconnect(self) -> None] *)
Definition disconnect : M unit :=
  modify_rpc (with_should_reconnect false) ;;
  p <- get ;;
  match client (rpc p) with
  | Some c =>
      try_finally
        (try_except (ext (Presence_close c) ;; ret tt) (fun _ => ret tt))
        (modify_rpc (fun m =>
           with_current_activity PNone (with_status DISCONNECTED (with_client None m))))
  | None => ret tt
  end ;;
  (* Stop reconnect thread *)
  p' <- get ;;
  when (is_some (_reconnect_thread (rpc p')))
    (modify_rpc (with_reconnect_event true)).

(** [Thread(target=self._auto_reconnect_loop, daemon=True)] and [start()],
    after [self._reconnect_event.clear()], unless a thread is alive. *)
Definition start_reconnect_thread : M unit :=
  p <- get ;;
  when (match _reconnect_thread (rpc p) with
        | None => true
        | Some t => negb (is_alive t)
        end)
    (modify_rpc (with_reconnect_event false) ;;
     modify_rpc (with_reconnect_thread (Some (mkThread true)))).

(** [def connect(self, client_id: str) -> bool] *)
Definition connect (cid : PyVal) : M bool :=
  p <- get ;;
  if status_eqb (status (rpc p)) CONNECTED && py_eq (client_id (rpc p)) cid
  then ret true
  else
    (* Disconnect existing connection *)
    when (is_some (client (rpc p))) disconnect ;;
    modify_rpc (with_status CONNECTING) ;;
    modify_rpc (with_client_id cid) ;;
    try_except
      (c <- new_Presence cid ;;
       modify_rpc (with_client (Some c)) ;;
       ext (Presence_connect c) ;;
       modify_rpc (with_status CONNECTED) ;;
       (* Start auto-reconnect thread *)
       modify_rpc (with_should_reconnect true) ;;
       start_reconnect_thread ;;
       ret true)
      (fun e =>
         match exn_class e with
         | InvalidID => modify_rpc (with_status ERROR) ;; ret false
         | InvalidPipe => modify_rpc (with_status ERROR) ;; ret false
         | _ => modify_rpc (with_status ERROR) ;; ret false
         end).

(** [{k: v for k, v in activity.items() if v is not None}] *)
Definition without_None (d : dict) : dict :=
  filter (fun kv => negb (is_None (snd kv))) d.

Definition items_without_None (activity : PyVal) : Res dict :=
  match activity with
  | PDict d => Ret (without_None d)
  | _ => Raise (no_attribute activity "items")
  end.

(** [def update_activity(self, activity, log_args=True) -> bool]
    ([log_args] is not used by the body). *)
Definition update_activity (activity : PyVal) : M bool :=
  p <- get ;;
  match client (rpc p) with
  | Some c =>
      if negb (status_eqb (status (rpc p)) CONNECTED) then ret false
      else
        try_except
          ((* Prepare activity data (remove None values) *)
           rpc_data <- lift (items_without_None activity) ;;
           (* Update presence *)
           ext (Presence_update c rpc_data) ;;
           modify_rpc (with_current_activity activity) ;;
           ret true)
          (fun e => ret false)
  | None => ret false
  end.

(** [def clear_activity(self) -> bool] *)
Definition clear_activity : M bool :=
  p <- get ;;
  match client (rpc p) with
  | Some c =>
      if negb (status_eqb (status (rpc p)) CONNECTED) then ret false
      else
        try_except
          (ext (Presence_clear c) ;;
           modify_rpc (with_current_activity PNone) ;;
           ret true)
          (fun e => ret false)
  | None => ret false
  end.

(** One pass through the body of the [while] of [_auto_reconnect_loop],
    up to the wait: the connection check of one tick. *)
Definition _auto_reconnect_check : M unit :=
  p <- get ;;
  (* Check connection status *)
  when (status_eqb (status (rpc p)) CONNECTED && is_some (client (rpc p)))
    (try_except
       ((* Try to update with current activity to check connection *)
        when (truthy (current_activity (rpc p)))
          (update_activity (current_activity (rpc p)) ;; ret tt))
       (fun e =>
          modify_rpc (with_status DISCONNECTED) ;;
          (* Try to reconnect *)
          p1 <- get ;;
          when (truthy (client_id (rpc p1)))
            (connect (client_id (rpc p1)) ;;
             (* Restore activity if reconnected *)
             p2 <- get ;;
             when (status_eqb (status (rpc p2)) CONNECTED
                   && truthy (current_activity (rpc p2)))
               (update_activity (current_activity (rpc p2)) ;; ret tt)))).

(** [def _auto_reconnect_loop(self) -> None], for at most [fuel] ticks.
    [self._reconnect_event.wait(timeout=10)] answers with the flag of the
    event as the tick left it.  The result tells whether the loop ended
    within the fuel. *)
Fixpoint _auto_reconnect_loop (fuel : nat) : M bool :=
  match fuel with
  | O => ret false
  | S n =>
      p <- get ;;
      if _should_reconnect (rpc p) then
        _auto_reconnect_check ;;
        (* Wait before next check (with early exit on event) *)
        p' <- get ;;
        if _reconnect_event (rpc p') then
          modify_rpc (with_reconnect_thread None) ;; (* clear the thread *)
          ret true
        else _auto_reconnect_loop n
      else
        modify_rpc (fun m =>
          match _reconnect_thread m with
          | Some _ => with_reconnect_thread (Some (mkThread false)) m
          | None => m
          end) ;;
        ret true
  end.

(** [def get_status(self) -> str] and [def is_connected(self) -> bool] *)
Definition get_status : M RPCStatus := p <- get ;; ret (status (rpc p)).
Definition is_connected : M bool :=
  p <- get ;; ret (status_eqb (status (rpc p)) CONNECTED).

(* ================================================================== *)
(** * [class IPCServer], [class IPCClient]  (customrpc/utils/ipc.py) *)
(* ================================================================== *)

(** Python's [json] module and the UTF-8 codec, as an interface:
    [loads data] is [json.loads(data.decode('utf-8'))], which raises
    [UnicodeDecodeError] or [JSONDecodeError] on bad input, and
    [dumps v] is [json.dumps(v).encode('utf-8')], which cannot fail on
    the values of [PyVal]. *)
Class JsonCodec : Type := {
  loads : bytes -> Res PyVal;
  dumps : PyVal -> bytes
}.

(** [recv(n)] hands over at most [n] of the bytes that arrived. *)
Definition at_most (n : nat) (data : bytes) : bytes := firstn n data.
Arguments at_most : simpl never.

(** [b'OK'] *)
Definition b_OK : bytes := ["O"%byte; "K"%byte].

Fixpoint bytes_eqb (a b : bytes) : bool :=
  match a, b with
  | [], [] => true
  | x :: a', y :: b' => Byte.eqb x y && bytes_eqb a' b'
  | _, _ => false
  end.

Definition nonempty {A : Type} (l : list A) : bool :=
  match l with [] => false | _ :: _ => true end.

(** The two dict displays of [send_command]. *)
Definition success_response : PyVal := PDict [("success", PBool true)].
Definition failure_response (error : string) : PyVal :=
  PDict [("success", PBool false); ("error", PStr error)].

Section IPC.
Context {codec : JsonCodec}.

(** [def accept_connection(self) -> Optional[Dict[str, Any]]].
    [response_callback] is the attribute of the server: [None] or the
    function that answers a command. *)
Definition accept_connection (response_callback : option (PyVal -> M PyVal))
  : M PyVal :=
  try_except
    (ext Listener_accept ;;
     try_finally
       (data <- ext (Conn_recv 4096) ;;
        let data := at_most 4096 data in
        if nonempty data then
          command <- lift (loads data) ;;
          (* If callback is set, get response and send it *)
          match response_callback with
          | Some callback =>
              response <- callback command ;;
              ext (Conn_sendall (dumps response)) ;; ret tt
          | None =>
              (* Send simple acknowledgment *)
              ext (Conn_sendall b_OK) ;; ret tt
          end ;;
          ret command
        else ret PNone)
       (ext Conn_close ;; ret tt))
    (fun e =>
       if is_class BlockingIOError e
       then (* No connection available in non-blocking mode *) ret PNone
       else ret PNone).

(** [def send_command(self, command) -> Dict[str, Any]], with
    [self.port]. *)
Definition send_command (port : Z) (command : PyVal) : M PyVal :=
  try_except
    (ext Socket_new ;;
     try_finally
       (ext (Socket_settimeout 5) ;;
        ext (Socket_connect port) ;;
        ext (Socket_sendall (dumps command)) ;;
        (* Receive response *)
        response_data <- ext (Socket_recv 4096) ;;
        let response_data := at_most 4096 response_data in
        if nonempty response_data then
          try_except
            ((* Try to parse as JSON (new protocol) *)
             lift (loads response_data))
            (fun e =>
               if is_class JSONDecodeError e then
                 (* Legacy "OK" response *)
                 if bytes_eqb response_data b_OK then ret success_response
                 else ret (failure_response "Invalid response")
               else raise e)
        else ret (failure_response "No response"))
       (ext Socket_close ;; ret tt))
    (fun e => ret (failure_response (str_exn e))).
End IPC.

(* ================================================================== *)
(** * [class ProfileManager]  (customrpcmanager/core/profile_manager.py) *)
(* ================================================================== *)

Fixpoint dir_lookup (d : Dir) (name : string) : option FileBody :=
  match d with
  | [] => None
  | (n, body) :: d' => if String.eqb name n then Some body else dir_lookup d' name
  end.

(** [c.isalnum() or c in (' ', '-', '_')] for an element [c] of the name *)
Definition keep_in_name (c : PyVal) : Res bool :=
  match c with
  | PStr s => Ret (isalnum s || existsb (String.eqb s) [" "; "-"; "_"])
  | _ => Raise (no_attribute c "isalnum")
  end.

(** ["".join(c for c in ... if ...)] *)
Fixpoint join_kept (l : list PyVal) : Res string :=
  match l with
  | [] => Ret ""
  | c :: l' =>
      rbind (keep_in_name c) (fun keep =>
      rbind (join_kept l') (fun rest =>
        Ret (if keep then py_str c ++ rest else rest)))
  end.

(** [def _get_profile_path(self, profile_name: str) -> Path]: the name of
    the file inside [profiles_dir]. *)
Definition _get_profile_path (profile_name : PyVal) : Res string :=
  (* Sanitize profile name for filesystem *)
  rbind (py_iter profile_name) (fun chars =>
  rbind (join_kept chars) (fun joined =>
    let safe_name := strip joined in
    Ret (safe_name ++ ".json"))).

(** [def load_profile(self, profile_name: str) -> Optional[Dict]] *)
Definition load_profile (profile_name : PyVal) : M PyVal :=
  profile_path <- lift (_get_profile_path profile_name) ;;
  p <- get ;;
  match dir_lookup (profiles_dir p) profile_path with
  | None => ret PNone
  | Some (Doc profile_data) => ret profile_data
  | Some (Unreadable e) => ret PNone
  end.

(** [path.stem]: the name up to its last dot, when that dot is neither
    the first nor the last character. *)
Fixpoint rfind_dot (s : string) (i : nat) : option nat :=
  match s with
  | "" => None
  | String c s' =>
      match rfind_dot s' (S i) with
      | Some j => Some j
      | None => if Ascii.eqb c "." then Some i else None
      end
  end.

Definition stem (name : string) : string :=
  match rfind_dot name 0 with
  | Some i =>
      if (0 <? i)%nat && (i <? String.length name - 1)%nat
      then substring 0 i name else name
  | None => name
  end.

(** The body of the [for path in self.profiles_dir.glob("*.json")] loop:
    the names collected from the files, in the order of the listing. *)
Fixpoint collect_names (d : Dir) : list PyVal :=
  match d with
  | [] => []
  | (name, body) :: d' =>
      if endswith name ".json" then
        match body with
        | Doc data =>
            match py_get_default data "name" (PStr (stem name)) with
            | Ret n => n :: collect_names d'
            | Raise e => collect_names d'
            end
        | Unreadable e => collect_names d'
        end
      else collect_names d'
  end.

(** [def list_profiles(self) -> List[str]] *)
Definition list_profiles : M (list PyVal) :=
  p <- get ;;
  try_except
    (lift (py_sorted (collect_names (profiles_dir p))))
    (fun e => ret []).

(** [ConfigManager.set]: [self.config[key] = value]; saving the file
    swallows its own errors. *)
Definition config_set (key : string) (value : PyVal) : M unit :=
  modify (fun p => set_config (dict_set (config p) key value) p).

(* ================================================================== *)
(** * [class CLIController]  (customrpc/cli/cli_controller.py) *)
(* ================================================================== *)

(** [for i, profile in enumerate(profiles, i): print(f"  {i}. {profile}")] *)
Fixpoint print_numbered (i : nat) (profiles : list PyVal) : M unit :=
  match profiles with
  | [] => ret tt
  | profile :: rest =>
      print ("  " ++ str_nat i ++ ". " ++ py_str profile) ;;
      print_numbered (S i) rest
  end.

(** [def execute_list_profiles(self) -> int] *)
Definition execute_list_profiles : M Z :=
  profiles <- list_profiles ;;
  if negb (nonempty profiles) then
    print "No profiles found." ;;
    ret 0%Z
  else
    print "Available profiles:" ;;
    print_numbered 1 profiles ;;
    ret 0%Z.

(** [def execute_load_profile(self, profile_name: str) -> int] *)
Definition execute_load_profile (profile_name : PyVal) : M Z :=
  profile <- load_profile profile_name ;;
  if negb (truthy profile) then
    print ("Error: Profile '" ++ py_str profile_name ++ "' not found.") ;;
    ret 1%Z
  else
    print ("Loaded profile '" ++ py_str profile_name ++ "'") ;;
    config_set "last_profile" profile_name ;;
    ret 0%Z.

(* ================================================================== *)
(** * [class CustomRPCApp]  (customrpc/main.py) *)
(* ================================================================== *)

(** [if data.get(src): activity[dst] = data[src]] *)
Definition copy_if_truthy (data : dict) (src dst : string) (activity : dict) : dict :=
  if truthy (dict_get_default data src PNone)
  then dict_set activity dst (dict_get_default data src PNone)
  else activity.

(** [def _build_activity(self, data: dict) -> dict] *)
Definition _build_activity (data : dict) : dict :=
  let activity := [] in
  let activity := copy_if_truthy data "name" "name" activity in
  let activity := copy_if_truthy data "details" "details" activity in
  let activity := copy_if_truthy data "state" "state" activity in
  let activity := copy_if_truthy data "start_timestamp" "start" activity in
  let activity := copy_if_truthy data "end_timestamp" "end" activity in
  let activity := copy_if_truthy data "large_image_key" "large_image" activity in
  let activity := copy_if_truthy data "large_image_text" "large_text" activity in
  let activity := copy_if_truthy data "small_image_key" "small_image" activity in
  let activity := copy_if_truthy data "small_image_text" "small_text" activity in
  let activity :=
    if truthy (dict_get_default data "party_size" PNone)
       && truthy (dict_get_default data "party_max" PNone)
    then dict_set activity "party_size"
           (PList [dict_get_default data "party_size" PNone;
                   dict_get_default data "party_max" PNone])
    else activity in
  let buttons := dict_get_default data "buttons" (PList []) in
  let activity :=
    if truthy buttons then dict_set activity "buttons" buttons else activity in
  let activity :=
    if negb (is_None (dict_get_default data "instance" PNone))
    then dict_set activity "instance" (dict_get_default data "instance" PNone)
    else activity in
  activity.

(** [def _handle_connect(self)] *)
Definition _handle_connect : M unit :=
  p <- get ;;
  match main_window p with
  | None => ret tt
  | Some window =>
      (* Get form data *)
      let data := rpc_form_data window in
      let app_id := dict_get_default data "app_id" PNone in
      if negb (truthy app_id) then ret tt
      else
        connected <- connect app_id ;;
        if connected then
          (* Update activity *)
          let activity := _build_activity data in
          update_activity (PDict activity) ;;
          (* Update UI *)
          let profile_name := profile_combo_text window in
          ext (Window_update_connection_status true ("Connected - " ++ profile_name)) ;;
          ext (Tray_update_status true) ;;
          ext (Tray_show_message "CustomRPC" "Connected to Discord") ;;
          ret tt
        else
          ext (Window_update_connection_status false "Connection Failed") ;;
          ext (Tray_update_status false) ;;
          ret tt
  end.

(** [def _handle_disconnect(self)] *)
Definition _handle_disconnect : M unit :=
  disconnect ;;
  p <- get ;;
  when (is_some (main_window p))
    (ext (Window_update_connection_status false "") ;; ret tt) ;;
  ext (Tray_update_status false) ;;
  ext (Tray_show_message "CustomRPC" "Disconnected from Discord") ;;
  ret tt.

Definition action_is (action : PyVal) (name : string) : bool :=
  py_eq action (PStr name).

(** [def _process_ipc_command(self, command: dict) -> str] *)
Definition _process_ipc_command (command : PyVal) : M string :=
  action <- lift (py_get command "action") ;;
  if action_is action "list_profiles" then
    (* Capture output from list_profiles *)
    execute_list_profiles ;;
    ret ""
  else if action_is action "quit" then
    (* Use QTimer to quit after response is sent *)
    ext (QTimer_singleShot 100 "_quit_application") ;;
    ret ("Quitting application..." ++ nl)
  else if action_is action "disconnect" then
    _handle_disconnect ;;
    ext (Tray_show_message "CustomRPC" "Disconnected via CLI") ;;
    ret ("Disconnected from Discord RPC" ++ nl)
  else if action_is action "connect" then
    profile_name <- lift (py_get command "profile") ;;
    if truthy profile_name then
      (* Load profile and connect *)
      profile <- load_profile profile_name ;;
      if truthy profile then
        app_id <- lift (py_get profile "app_id") ;;
        connected <- (if truthy app_id then connect app_id else ret false) ;;
        if connected then
          match profile with
          | PDict data =>
              let activity := _build_activity data in
              update_activity (PDict activity) ;;
              ext (Tray_update_status true) ;;
              ext (Tray_show_message "CustomRPC"
                     ("Connected with profile: " ++ py_str profile_name)) ;;
              p <- get ;;
              when (is_some (main_window p))
                (ext (Window_update_connection_status true
                        ("Connected - " ++ py_str profile_name)) ;; ret tt) ;;
              ret ("Connected to Discord RPC with profile: "
                     ++ py_str profile_name ++ nl)
          | _ => raise (no_attribute profile "get")
          end
        else ret ("Failed to connect to Discord RPC" ++ nl)
      else ret ("Profile '" ++ py_str profile_name ++ "' not found" ++ nl)
    else
      (* Connect with current settings if main_window exists *)
      p <- get ;;
      if is_some (main_window p) then
        _handle_connect ;;
        ret ("Connected to Discord RPC" ++ nl)
      else ret ("Cannot connect without profile in headless mode" ++ nl)
  else if action_is action "load_profile" then
    profile_name <- lift (py_get command "profile") ;;
    if truthy profile_name then
      exit_code <- execute_load_profile profile_name ;;
      if Z.eqb exit_code 0 then
        p <- get ;;
        when (is_some (main_window p))
          ((* Update UI if window exists *)
           profiles <- list_profiles ;;
           when (existsb (fun name => py_eq name profile_name) profiles)
             (ext (Combo_setCurrentText profile_name) ;;
              ext Window_load_selected_profile ;; ret tt)) ;;
        ret ""
      else ret ("Failed to load profile '" ++ py_str profile_name ++ "'" ++ nl)
    else ret ""
  else ret "".

(** [sys.stdout.getvalue()] *)
Definition getvalue : M string :=
  p <- get ;;
  match sys_stdout p with
  | StringIO value => ret value
  | Terminal =>
      raise (mkExn AttributeError
               "'_io.TextIOWrapper' object has no attribute 'getvalue'")
  end.

(** [def _handle_ipc_command(self, command: dict) -> dict] *)
Definition _handle_ipc_command (command : PyVal) : M PyVal :=
  (* Capture stdout *)
  p <- get ;;
  let old_stdout := sys_stdout p in
  modify (set_sys_stdout (StringIO "")) ;;
  try_finally
    (try_except
       (output <- _process_ipc_command command ;;
        captured <- getvalue ;;
        (* Combine explicitly returned output with captured stdout *)
        let full_output :=
          if negb (String.eqb output "") then output ++ captured else captured in
        ret (PDict [("success", PBool true); ("output", PStr full_output)]))
       (fun e =>
          captured <- getvalue ;;
          ret (PDict [("success", PBool false); ("error", PStr (str_exn e));
                      ("output", PStr captured)])))
    (modify (set_sys_stdout old_stdout)).

(* ================================================================== *)
(** * A reference codec *)
(* ================================================================== *)

(** An instance of [JsonCodec] that computes: Python's [json] on ASCII
    input with integer numbers and escapes of code points below 256.  Input outside
    that fragment (other bytes, floats, higher escapes) is reported as a
    decoding error, and the text of a [JSONDecodeError] is not reproduced
    (no code of the repository reads it). *)

Definition is_ws (c : ascii) : bool :=
  let n := code c in ((n =? 32) || (n =? 9) || (n =? 10) || (n =? 13))%N.

Fixpoint skip_ws (s : list ascii) : list ascii :=
  match s with
  | c :: r => if is_ws c then skip_ws r else s
  | [] => []
  end.

(** [expect lit s]: [s] without its prefix [lit]. *)
Fixpoint expect (lit s : list ascii) : option (list ascii) :=
  match lit, s with
  | [], _ => Some s
  | a :: lit', c :: r => if Ascii.eqb a c then expect lit' r else None
  | _ :: _, [] => None
  end.

Definition is_digit (c : ascii) : bool := ((48 <=? code c) && (code c <=? 57))%N.

Fixpoint parse_digits (s : list ascii) (acc : Z) : Z * list ascii :=
  match s with
  | c :: r =>
      if is_digit c then parse_digits r (10 * acc + Z.of_N (code c - 48))
      else (acc, s)
  | [] => (acc, [])
  end.

(** An optional minus sign, then 0 or a digit string without a leading
    zero; not followed by a fraction or an exponent. *)
Definition parse_int (s : list ascii) : option (Z * list ascii) :=
  let (neg, s1) :=
    match s with
    | c :: r => if Ascii.eqb c "-" then (true, r) else (false, s)
    | [] => (false, s)
    end in
  match s1 with
  | c :: r =>
      if is_digit c then
        let (n, rest) :=
          if Ascii.eqb c "0" then (0%Z, r) else parse_digits s1 0 in
        match rest with
        | d :: _ =>
            if Ascii.eqb d "." || Ascii.eqb d "e" || Ascii.eqb d "E" then None
            else Some (if neg then (- n)%Z else n, rest)
        | [] => Some (if neg then (- n)%Z else n, rest)
        end
      else None
  | [] => None
  end.

Definition hex_value (c : ascii) : option N :=
  let n := code c in
  if ((48 <=? n) && (n <=? 57))%N then Some (n - 48)%N
  else if ((97 <=? n) && (n <=? 102))%N then Some (n - 87)%N
  else if ((65 <=? n) && (n <=? 70))%N then Some (n - 55)%N
  else None.

Definition simple_escape (c : ascii) : option ascii :=
  if Ascii.eqb c DQUOTE then Some DQUOTE
  else if Ascii.eqb c BACKSLASH then Some BACKSLASH
  else if Ascii.eqb c "/" then Some "/"%char
  else if Ascii.eqb c "b" then Some "008"%char
  else if Ascii.eqb c "f" then Some "012"%char
  else if Ascii.eqb c "n" then Some "010"%char
  else if Ascii.eqb c "r" then Some "013"%char
  else if Ascii.eqb c "t" then Some "009"%char
  else None.

(** The text of a string, after its opening quote. *)
Fixpoint parse_string (s : list ascii) : option (string * list ascii) :=
  match s with
  | [] => None
  | c :: r =>
      if Ascii.eqb c DQUOTE then Some ("", r)
      else if Ascii.eqb c BACKSLASH then
        match r with
        | e :: r' =>
            if Ascii.eqb e "u" then
              match r' with
              | h1 :: h2 :: h3 :: h4 :: r'' =>
                  match hex_value h1, hex_value h2, hex_value h3, hex_value h4 with
                  | Some 0%N, Some 0%N, Some a, Some b =>
                      match parse_string r'' with
                      | Some (t, rest) =>
                          Some (String (ascii_of_N (16 * a + b)) t, rest)
                      | None => None
                      end
                  | _, _, _, _ => None
                  end
              | _ => None
              end
            else
              match simple_escape e with
              | Some x =>
                  match parse_string r' with
                  | Some (t, rest) => Some (String x t, rest)
                  | None => None
                  end
              | None => None
              end
        | [] => None
        end
      else if (code c <? 32)%N then None
      else
        match parse_string r with
        | Some (t, rest) => Some (String c t, rest)
        | None => None
        end
  end.

Fixpoint parse_value (fuel : nat) (s : list ascii) : option (PyVal * list ascii) :=
  match fuel with
  | O => None
  | S f =>
      match s with
      | [] => None
      | c :: r =>
          if Ascii.eqb c DQUOTE then
            match parse_string r with
            | Some (t, rest) => Some (PStr t, rest)
            | None => None
            end
          else if Ascii.eqb c "[" then
            match skip_ws r with
            | c' :: r' =>
                if Ascii.eqb c' "]" then Some (PList [], r')
                else
                  match parse_elements f (c' :: r') with
                  | Some (l, rest) => Some (PList l, rest)
                  | None => None
                  end
            | [] => None
            end
          else if Ascii.eqb c "{" then
            match skip_ws r with
            | c' :: r' =>
                if Ascii.eqb c' "}" then Some (PDict [], r')
                else
                  match parse_members f (c' :: r') [] with
                  | Some (d, rest) => Some (PDict d, rest)
                  | None => None
                  end
            | [] => None
            end
          else if Ascii.eqb c "n" then
            option_map (pair PNone) (expect (list_ascii_of_string "ull") r)
          else if Ascii.eqb c "t" then
            option_map (pair (PBool true)) (expect (list_ascii_of_string "rue") r)
          else if Ascii.eqb c "f" then
            option_map (pair (PBool false)) (expect (list_ascii_of_string "alse") r)
          else
            match parse_int s with
            | Some (n, rest) => Some (PInt n, rest)
            | None => None
            end
      end
  end

(** The elements of an array, up to its closing bracket. *)
with parse_elements (fuel : nat) (s : list ascii) : option (list PyVal * list ascii) :=
  match fuel with
  | O => None
  | S f =>
      match parse_value f s with
      | Some (v, rest) =>
          match skip_ws rest with
          | c :: r =>
              if Ascii.eqb c "]" then Some ([v], r)
              else if Ascii.eqb c "," then
                match parse_elements f (skip_ws r) with
                | Some (l, rest') => Some (v :: l, rest')
                | None => None
                end
              else None
          | [] => None
          end
      | None => None
      end
  end

(** The members of an object, up to its closing brace; a repeated key
    keeps its place and takes the later value. *)
with parse_members (fuel : nat) (s : list ascii) (acc : dict)
  : option (dict * list ascii) :=
  match fuel with
  | O => None
  | S f =>
      match s with
      | c :: r =>
          if Ascii.eqb c DQUOTE then
            match parse_string r with
            | Some (k, rest) =>
                match skip_ws rest with
                | c1 :: r1 =>
                    if Ascii.eqb c1 ":" then
                      match parse_value f (skip_ws r1) with
                      | Some (v, rest') =>
                          let acc' := dict_set acc k v in
                          match skip_ws rest' with
                          | c2 :: r2 =>
                              if Ascii.eqb c2 "}" then Some (acc', r2)
                              else if Ascii.eqb c2 "," then
                                parse_members f (skip_ws r2) acc'
                              else None
                          | [] => None
                          end
                      | None => None
                      end
                    else None
                | [] => None
                end
            | None => None
            end
          else None
      | [] => None
      end
  end.

Definition is_ascii_byte (b : Byte.byte) : bool := (Byte.to_N b <? 128)%N.

Definition ref_loads (data : bytes) : Res PyVal :=
  if negb (forallb is_ascii_byte data) then
    Raise (mkExn UnicodeDecodeError "'utf-8' codec can't decode byte")
  else
    let s := skip_ws (map ascii_of_byte data) in
    match parse_value (2 * length s + 2) s with
    | Some (v, rest) =>
        match skip_ws rest with
        | [] => Ret v
        | _ :: _ => Raise (mkExn JSONDecodeError "Extra data")
        end
    | None => Raise (mkExn JSONDecodeError "Expecting value")
    end.

(** [\u00hh] *)
Definition u_escape (c : ascii) : string :=
  String BACKSLASH ("u00" ++
    String (hex_digit (code c / 16)) (String (hex_digit (code c mod 16)) "")).

Definition dumps_char (c : ascii) : string :=
  let n := code c in
  if Ascii.eqb c DQUOTE || Ascii.eqb c BACKSLASH then String BACKSLASH (String c "")
  else if (n =? 10)%N then String BACKSLASH "n"
  else if (n =? 13)%N then String BACKSLASH "r"
  else if (n =? 9)%N then String BACKSLASH "t"
  else if (n =? 8)%N then String BACKSLASH "b"
  else if (n =? 12)%N then String BACKSLASH "f"
  else if ((32 <=? n) && (n <=? 126))%N then String c ""
  else u_escape c.

Definition dumps_str (s : string) : string :=
  String DQUOTE
    (String.concat "" (map dumps_char (list_ascii_of_string s)) ++ String DQUOTE "").

Fixpoint dumps_text (v : PyVal) : string :=
  match v with
  | PNone => "null"
  | PBool b => if b then "true" else "false"
  | PInt n => str_Z n
  | PStr s => dumps_str s
  | PList l => "[" ++ String.concat ", " (map dumps_text l) ++ "]"
  | PDict d =>
      "{" ++ String.concat ", "
               (map (fun kv => dumps_str (fst kv) ++ ": " ++ dumps_text (snd kv)) d)
          ++ "}"
  end.

Definition ref_dumps (v : PyVal) : bytes := list_byte_of_string (dumps_text v).

Definition ref_codec : JsonCodec := {| loads := ref_loads; dumps := ref_dumps |}.

(* ================================================================== *)
(** * The command line  (customrpc/cli/cli_parser.py, customrpc/main.py) *)
(* ================================================================== *)

(** The [argparse.Namespace] that [CLIParser.parse] returns: [--profile]
    is a [str] or [None], the other options are flags. *)
Module Args.
Record t : Type := mk {
  profile : option string;
  connect : bool;
  disconnect : bool;
  quit : bool;
  list_profiles : bool;
  minimized : bool;
  debug : bool
}.
End Args.

(** [args.profile] as a Python value *)
Definition profile_arg (args : Args.t) : PyVal :=
  match Args.profile args with
  | Some name => PStr name
  | None => PNone
  end.

(** The second component of [CLIParser.parse]:
    [any([args.profile and args.connect, args.disconnect, args.quit,
    args.list_profiles])] *)
Definition headless (args : Args.t) : bool :=
  truthy (if truthy (profile_arg args) then PBool (Args.connect args)
          else profile_arg args)
  || Args.disconnect args || Args.quit args || Args.list_profiles args.

(** [def _build_command_from_args(self, args) -> dict] *)
Definition _build_command_from_args (args : Args.t) : dict :=
  let command := [] in
  if Args.list_profiles args then dict_set command "action" (PStr "list_profiles")
  else if Args.quit args then dict_set command "action" (PStr "quit")
  else if Args.disconnect args then dict_set command "action" (PStr "disconnect")
  else if Args.connect args then
    let command := dict_set command "action" (PStr "connect") in
    if truthy (profile_arg args)
    then dict_set command "profile" (profile_arg args)
    else command
  else if truthy (profile_arg args) then
    let command := dict_set command "action" (PStr "load_profile") in
    dict_set command "profile" (profile_arg args)
  else command.

(** [print(s, end='')] *)
Definition print_end (s end_ : string) : M unit :=
  modify (fun p =>
    match sys_stdout p with
    | Terminal => set_terminal (terminal p ++ s ++ end_) p
    | StringIO v => set_sys_stdout (StringIO (v ++ s ++ end_)) p
    end).

Section SecondInstance.
Context {codec : JsonCodec}.

(** The part of [def run(self)] that runs when [acquire_lock()] returned
    [False]: [args] and [is_headless] come from [CLIParser.parse], [port]
    is what [self.instance_manager.get_port()] returns. The result is the
    exit status. *)
Definition run_without_lock (args : Args.t) (is_headless : bool)
  (port : option Z) : M Z :=
  (* If we have CLI commands, send them to the running instance *)
  if is_headless then
    match port with
    | Some port_number =>
        if negb (Z.eqb port_number 0) then
          (* Build command from CLI args *)
          let command := _build_command_from_args args in
          if nonempty command then
            response <- send_command port_number (PDict command) ;;
            success <- lift (py_get response "success") ;;
            if truthy success then
              (* Print output if available *)
              match response with
              | PDict d =>
                  when (dict_mem d "output")
                    (print_end (py_str (dict_get_default d "output" PNone)) "") ;;
                  ret 0%Z
              | _ => raise (no_attribute response "get")
              end
            else
              error <- lift (py_get_default response "error" (PStr "Unknown error")) ;;
              ret 1%Z
          else ret 1%Z
        else ret 1%Z
    | None => ret 1%Z
    end
  else
    (* no cli commands, exit *)
    ret 0%Z.
End SecondInstance.

(* ================================================================== *)
(** * [class ProfileManager], the operations that write *)
(* ================================================================== *)

(** The answers of the world to these operations are arguments: the text
    of [datetime.now().isoformat()] at each call, and what happens when a
    file is written or removed. *)

(** Writing a file with [open(path, 'w')] and [json.dump]: it works, or
    [open] raises and nothing changes, or the write raises after the file
    was opened and truncated. *)
Inductive WriteOutcome : Type :=
| Written
| OpenFailed (e : Exn)
| WriteFailed (e : Exn).

Definition set_profiles_dir (d : Dir) (p : Process) : Process :=
  {| env := env p; rpc := rpc p; profiles_dir := d; config := config p;
     main_window := main_window p; sys_stdout := sys_stdout p; terminal := terminal p |}.

(** The directory after a file was written: an existing entry keeps its
    place, a new one goes last. *)
Fixpoint dir_write (d : Dir) (name : string) (body : FileBody) : Dir :=
  match d with
  | [] => [(name, body)]
  | (n, b) :: d' =>
      if String.eqb name n then (n, body) :: d' else (n, b) :: dir_write d' name body
  end.

(** The directory after [unlink]. *)
Definition dir_remove (d : Dir) (name : string) : Dir :=
  filter (fun entry => negb (String.eqb name (fst entry))) d.

(** What is left of a file whose writing failed half way: text that
    [json.load] rejects. *)
Definition truncated_file : FileBody :=
  Unreadable (mkExn JSONDecodeError "Expecting value").

(** [with open(path, 'w', encoding='utf-8') as f: json.dump(data, f, indent=2)] *)
Definition write_json (io : WriteOutcome) (path : string) (data : PyVal) : M unit :=
  match io with
  | Written =>
      modify (fun p => set_profiles_dir (dir_write (profiles_dir p) path (Doc data)) p)
  | OpenFailed e => raise e
  | WriteFailed e =>
      modify (fun p => set_profiles_dir (dir_write (profiles_dir p) path truncated_file) p) ;;
      raise e
  end.

(** [path.unlink()] *)
Definition unlink (error : option Exn) (path : string) : M unit :=
  match error with
  | None => modify (fun p => set_profiles_dir (dir_remove (profiles_dir p) path) p)
  | Some e => raise e
  end.

(** [path.exists()] *)
Definition path_exists (path : string) : M bool :=
  p <- get ;; ret (is_some (dir_lookup (profiles_dir p) path)).

(** [v[k] = x] *)
Definition set_item (v : PyVal) (k : string) (x : PyVal) : Res PyVal :=
  match v with
  | PDict d => Ret (PDict (dict_set d k x))
  | _ =>
      Raise (mkExn TypeError
               ("'" ++ type_name v ++ "' object does not support item assignment"))
  end.

(** [def create_profile(self, profile_name, profile_data) -> bool];
    [now1], [now2] are the two readings of the clock. *)
Definition create_profile (now1 now2 : string) (io : WriteOutcome)
  (profile_name profile_data : PyVal) : M bool :=
  profile_path <- lift (_get_profile_path profile_name) ;;
  found <- path_exists profile_path ;;
  if found then ret false
  else
    try_except
      ((* Add metadata *)
       data <- lift (set_item profile_data "name" profile_name) ;;
       data <- lift (set_item data "created_at" (PStr now1)) ;;
       data <- lift (set_item data "updated_at" (PStr now2)) ;;
       write_json io profile_path data ;;
       ret true)
      (fun e => ret false).

(** [def update_profile(self, profile_name, profile_data) -> bool] *)
Definition update_profile (now1 now2 : string) (io : WriteOutcome)
  (profile_name profile_data : PyVal) : M bool :=
  profile_path <- lift (_get_profile_path profile_name) ;;
  found <- path_exists profile_path ;;
  if negb found then ret false
  else
    try_except
      ((* Preserve creation time, update modification time *)
       existing <- load_profile profile_name ;;
       data <- lift (set_item profile_data "name" profile_name) ;;
       created <- lift (py_get_default existing "created_at" (PStr now1)) ;;
       data <- lift (set_item data "created_at" created) ;;
       data <- lift (set_item data "updated_at" (PStr now2)) ;;
       write_json io profile_path data ;;
       ret true)
      (fun e => ret false).

(** [def delete_profile(self, profile_name) -> bool] *)
Definition delete_profile (unlink_error : option Exn) (profile_name : PyVal)
  : M bool :=
  profile_path <- lift (_get_profile_path profile_name) ;;
  found <- path_exists profile_path ;;
  if negb found then ret false
  else
    try_except
      (unlink unlink_error profile_path ;; ret true)
      (fun e => ret false).

(** [def rename_profile(self, old_name, new_name) -> bool] *)
Definition rename_profile (io : WriteOutcome) (unlink_error : option Exn)
  (old_name new_name : PyVal) : M bool :=
  old_path <- lift (_get_profile_path old_name) ;;
  new_path <- lift (_get_profile_path new_name) ;;
  old_found <- path_exists old_path ;;
  if negb old_found then ret false
  else
    new_found <- path_exists new_path ;;
    if new_found then ret false
    else
      try_except
        ((* Load, update name, and save to new location *)
         profile_data <- load_profile old_name ;;
         if truthy profile_data then
           data <- lift (set_item profile_data "name" new_name) ;;
           write_json io new_path data ;;
           unlink unlink_error old_path ;;
           ret true
         else ret false)
        (fun e => ret false).

(** [def duplicate_profile(self, source_name, new_name) -> bool] *)
Definition duplicate_profile (now1 now2 : string) (io : WriteOutcome)
  (source_name new_name : PyVal) : M bool :=
  source_data <- load_profile source_name ;;
  if negb (truthy source_data) then ret false
  else
    (* Create new profile with same data *)
    create_profile now1 now2 io new_name source_data.

(** [def import_profile(self, import_path, profile_name=None) -> bool];
    [content] is what reading [import_path] gives and [import_stem] is
    [import_path.stem]. *)
Definition import_profile (now1 now2 : string) (io : WriteOutcome)
  (content : FileBody) (import_stem : string) (profile_name : PyVal) : M bool :=
  try_except
    (profile_data <-
       match content with
       | Doc v => ret v
       | Unreadable e => raise e
       end ;;
     (* Use provided name or name from file *)
     name <- (if truthy profile_name then ret profile_name
              else lift (py_get_default profile_data "name" (PStr import_stem))) ;;
     (* Check if profile already exists *)
     path <- lift (_get_profile_path name) ;;
     found <- path_exists path ;;
     if found then ret false
     else create_profile now1 now2 io name profile_data)
    (fun e => ret false).

(* ================================================================== *)
(** * [class CLIController], the rest *)
(* ================================================================== *)

(** [a > b]; raises [TypeError] where Python does. *)
Definition gt_TypeError (a b : PyVal) : Exn :=
  mkExn TypeError
    ("'>' not supported between instances of '" ++ type_name a ++ "' and '"
       ++ type_name b ++ "'").

Fixpoint py_gt (a b : PyVal) {struct a} : Res bool :=
  match a with
  | PNone | PDict _ => Raise (gt_TypeError a b)
  | PBool _ | PInt _ =>
      match as_number a, as_number b with
      | Some x, Some y => Ret (Z.gtb x y)
      | _, _ => Raise (gt_TypeError a b)
      end
  | PStr s =>
      match b with
      | PStr t => Ret (String.ltb t s)
      | _ => Raise (gt_TypeError a b)
      end
  | PList l =>
      match b with
      | PList m =>
          (fix lex (l m : list PyVal) {struct l} : Res bool :=
             match l, m with
             | [], [] => Ret false
             | [], _ :: _ => Ret false
             | _ :: _, [] => Ret true
             | x :: l', y :: m' => if py_eq x y then lex l' m' else py_gt x y
             end) l m
      | _ => Raise (gt_TypeError a b)
      end
  end.

(** [CLIController._build_activity(self, profile)]; it differs from the
    one of [CustomRPCApp] in the party fields. *)
Definition cli_build_activity (profile : dict) : Res dict :=
  let activity := [] in
  (* Text fields *)
  let activity := copy_if_truthy profile "name" "name" activity in
  let activity := copy_if_truthy profile "details" "details" activity in
  let activity := copy_if_truthy profile "state" "state" activity in
  (* Timestamps *)
  let activity := copy_if_truthy profile "start_timestamp" "start" activity in
  let activity := copy_if_truthy profile "end_timestamp" "end" activity in
  (* Images *)
  let activity := copy_if_truthy profile "large_image_key" "large_image" activity in
  let activity := copy_if_truthy profile "large_image_text" "large_text" activity in
  let activity := copy_if_truthy profile "small_image_key" "small_image" activity in
  let activity := copy_if_truthy profile "small_image_text" "small_text" activity in
  (* Party *)
  rbind
    (if truthy (dict_get_default profile "party_size" PNone)
        || truthy (dict_get_default profile "party_max" PNone)
     then
       let party_size := dict_get_default profile "party_size" (PInt 0) in
       let party_max := dict_get_default profile "party_max" (PInt 0) in
       rbind (py_gt party_size (PInt 0)) (fun size_positive =>
       rbind (if size_positive then py_gt party_max (PInt 0) else Ret false)
         (fun both_positive =>
            Ret (if both_positive
                 then dict_set activity "party_size" (PList [party_size; party_max])
                 else activity)))
     else Ret activity)
    (fun activity =>
       (* Buttons *)
       let buttons := dict_get_default profile "buttons" (PList []) in
       let activity :=
         if truthy buttons then dict_set activity "buttons" buttons else activity in
       (* Instance *)
       let activity :=
         if negb (is_None (dict_get_default profile "instance" PNone))
         then dict_set activity "instance" (dict_get_default profile "instance" PNone)
         else activity in
       Ret activity).

(** [self.config.get(key)] *)
Definition config_get (key : string) : M PyVal :=
  p <- get ;; ret (dict_get_default (config p) key PNone).

(** [def execute_connect(self, profile_name=None) -> int] *)
Definition execute_connect (profile_name : PyVal) : M Z :=
  (* Load profile if specified *)
  loaded <-
    (if truthy profile_name then
       profile <- load_profile profile_name ;;
       if negb (truthy profile) then
         print ("Error: Profile '" ++ py_str profile_name ++ "' not found.") ;;
         ret None
       else ret (Some profile)
     else
       (* Try to load last used profile *)
       last_profile <- config_get "last_profile" ;;
       if negb (truthy last_profile) then
         print "Error: No profile specified and no last profile found." ;;
         ret None
       else
         profile <- load_profile last_profile ;;
         if negb (truthy profile) then
           print ("Error: Last profile '" ++ py_str last_profile ++ "' not found.") ;;
           ret None
         else ret (Some profile)) ;;
  match loaded with
  | None => ret 1%Z
  | Some profile =>
      (* Connect to RPC *)
      app_id <- lift (py_get profile "app_id") ;;
      if negb (truthy app_id) then
        print "Error: Profile missing Application ID." ;;
        ret 1%Z
      else
        connected <- connect app_id ;;
        if connected then
          (* Update activity with profile data *)
          activity <-
            match profile with
            | PDict data => lift (cli_build_activity data)
            | _ => raise (no_attribute profile "get")
            end ;;
          updated <- update_activity (PDict activity) ;;
          if updated then
            name <- lift (py_get profile "name") ;;
            print ("Connected to Discord RPC with profile: " ++ py_str name) ;;
            ret 0%Z
          else
            print "Error: Failed to update activity." ;;
            ret 1%Z
        else
          print "Error: Failed to connect to Discord RPC." ;;
          ret 1%Z
  end.

(** [def execute_disconnect(self) -> int] *)
Definition execute_disconnect : M Z :=
  disconnect ;;
  print "Disconnected from Discord RPC." ;;
  ret 0%Z.

Section SendToRunning.
Context {codec : JsonCodec}.

(** [def send_to_running_instance(self, command) -> bool];
    [ipc_client] is the attribute: [None] or a client with its port. *)
Definition send_to_running_instance (ipc_client : option Z) (command : PyVal)
  : M PyVal :=
  match ipc_client with
  | Some port => send_command port command
  | None => ret (PBool false)
  end.
End SendToRunning.

(* ================================================================== *)
(** * [class SingleInstanceManager], the port and pid files *)
(* ================================================================== *)

From Stdlib Require DecimalPos.

(** The whitespace [int()] skips at both ends of its argument. *)
Definition int_space (c : ascii) : bool :=
  let n := code c in
  ((9 <=? n) && (n <=? 13) || (n =? 32) || (n =? 133) || (n =? 160))%N.

Fixpoint lstrip_int (s : list ascii) : list ascii :=
  match s with
  | c :: r => if int_space c then lstrip_int r else s
  | [] => []
  end.

Definition strip_int (s : list ascii) : list ascii :=
  rev (lstrip_int (rev (lstrip_int s))).

(** Where the scan of the digits stands: nothing read yet, after a
    digit, after an underscore. *)
Inductive DigitScan : Type := AtStart | AfterDigit | AfterUnderscore.

(** Decimal digits with single underscores between them: the value and
    the number of digits. *)
Fixpoint scan_digits (s : list ascii) (value : Z) (count : N) (at_ : DigitScan)
  : option (Z * N) :=
  match s with
  | [] =>
      match at_ with
      | AfterDigit => Some (value, count)
      | _ => None
      end
  | c :: r =>
      if is_digit c then
        scan_digits r (10 * value + Z.of_N (code c - 48)) (N.succ count) AfterDigit
      else if Ascii.eqb c "_" then
        match at_ with
        | AfterDigit => scan_digits r value count AfterUnderscore
        | _ => None
        end
      else None
  end.

(** The most digits [int()] converts (CPython 3.11 and later). *)
Definition max_str_digits : N := 4300.

Definition invalid_literal (s : string) : Exn :=
  mkExn OtherError ("invalid literal for int() with base 10: " ++ repr_str s).

(** [int(s)] in base 10. *)
Definition py_int (s : string) : Res Z :=
  let body := strip_int (list_ascii_of_string s) in
  let (negative, digits) :=
    match body with
    | c :: r =>
        if Ascii.eqb c "-" then (true, r)
        else if Ascii.eqb c "+" then (false, r)
        else (false, body)
    | [] => (false, body)
    end in
  match scan_digits digits 0 0 AtStart with
  | Some (value, count) =>
      if (max_str_digits <? count)%N then
        Raise (mkExn OtherError
                 "Exceeds the limit (4300 digits) for integer string conversion")
      else Ret (if negative then (- value)%Z else value)
  | None => Raise (invalid_literal s)
  end.

(** A small text file as the code meets it: missing, or there with a
    text that [read_text()] returns, or there and unreadable. *)
Definition TextFile : Type := option (Res string).

(** [def get_port(self) -> Optional[int]], from the state of
    [self.port_file]. *)
Definition get_port (port_file : TextFile) : option Z :=
  match port_file with
  | Some content =>
      match rbind content (fun text => py_int (strip text)) with
      | Ret port => Some port
      | Raise e => None
      end
  | None => None
  end.

(** [def save_port(self, port: int) -> None]: the state of
    [self.port_file] afterwards.  A write that fails after the file was
    opened leaves it empty. *)
Definition save_port (io : WriteOutcome) (port : Z) (port_file : TextFile)
  : TextFile :=
  match io with
  | Written => Some (Ret (str_Z port))
  | OpenFailed e => port_file
  | WriteFailed e => Some (Ret "")
  end.

(** [def get_pid(self) -> Optional[int]], from the state of
    [self.lock_file]. *)
Definition get_pid (lock_file : TextFile) : option Z :=
  match lock_file with
  | Some content =>
      match
        rbind content (fun text =>
          let pid_str := strip text in
          if negb (String.eqb pid_str "") then rbind (py_int pid_str) (fun n => Ret (Some n))
          else Ret None)
      with
      | Ret pid => pid
      | Raise e => None
      end
  | None => None
  end.

(* ================================================================== *)
(** * Concrete states, used to run the code *)
(* ================================================================== *)

(** A world in which the calls to come have the given outcomes. *)
Definition world_of (outcomes : list Outcome) : World :=
  {| script := outcomes; trace := [] |}.

(** The owner process right after start-up: nothing connected, no
    window, output going to the terminal. *)
Definition process_of (w : World) (m : RPCManager) (d : Dir) : Process :=
  {| env := w; rpc := m; profiles_dir := d; config := [];
     main_window := None; sys_stdout := Terminal; terminal := "" |}.

Definition some_client : Presence := mkPresence 0 (PStr "123456789012345678").

(** A supervisor after [connect("123456789012345678")] and a publish. *)
Definition connected_manager (activity : PyVal) : RPCManager :=
  {| client := Some some_client;
     client_id := PStr "123456789012345678";
     status := CONNECTED;
     current_activity := activity;
     _reconnect_thread := Some (mkThread true);
     _reconnect_event := false;
     _should_reconnect := true |}.

Definition sample_activity : dict :=
  [("details", PStr "Playing"); ("state", PNone); ("start", PInt 1700000000)].

Definition pipe_closed : Exn := mkExn OtherError "[Errno 32] Broken pipe".

(** What a trace shows was written to the accepted connection. *)
Fixpoint sent (t : list (Call * Outcome)) : list bytes :=
  match t with
  | [] => []
  | (Conn_sendall data, _) :: t' => data :: sent t'
  | _ :: t' => sent t'
  end.

(** The exceptions a trace shows were raised by external calls. *)
Fixpoint raised (t : list (Call * Outcome)) : list Exn :=
  match t with
  | [] => []
  | (_, Err e) :: t' => e :: raised t'
  | (_, Ok _) :: t' => raised t'
  end.

(** A request that is not JSON, and a server about to receive it. *)
Definition malformed_request : bytes := list_byte_of_string "{not json".

Definition server_with_request (request : bytes) : Process :=
  process_of (world_of [Ok []; Ok request]) RPCManager_init [].

(** A client whose peer answers with [reply]. *)
Definition client_with_reply (reply : bytes) : Process :=
  process_of (world_of [Ok []; Ok []; Ok []; Ok []; Ok reply]) RPCManager_init [].

Definition list_profiles_command : PyVal := PDict [("action", PStr "list_profiles")].

(** A Response: a dict with a boolean [success]; it reports a failure
    when [success] is false and an [error] text comes with it. *)
Definition is_Response (r : PyVal) : bool :=
  match r with
  | PDict d =>
      match dict_get d "success" with
      | Some (PBool _) => true
      | _ => false
      end
  | _ => false
  end.

Definition reports_failure (r : PyVal) : bool :=
  match r with
  | PDict d =>
      match dict_get d "success", dict_get d "error" with
      | Some (PBool false), Some (PStr _) => true
      | _, _ => false
      end
  | _ => false
  end.

(** The five actions of the command protocol. *)
Definition named_actions : list string :=
  ["connect"; "disconnect"; "quit"; "list_profiles"; "load_profile"].

(** A profile as [create_profile] writes it. *)
Definition profile_doc (name app_id : string) : FileBody :=
  Doc (PDict [("app_id", PStr app_id); ("details", PStr "In a match");
              ("name", PStr name)]).

(** A store holding the profiles Work and Gaming, listed in that order. *)
Definition Gaming_and_Work : Dir :=
  [("Work.json", profile_doc "Work" "222222222222222222");
   ("Gaming.json", profile_doc "Gaming" "111111111111111111")].

Definition owner_with_profiles (d : Dir) : Process :=
  process_of (world_of []) RPCManager_init d.

Definition connect_Gaming_command : PyVal :=
  PDict [("action", PStr "connect"); ("profile", PStr "Gaming")].

Definition unknown_command : PyVal := PDict [("action", PStr "restart")].

(** [sys.stdout] is a [StringIO]: output is being captured. *)
Definition capturing (p : Process) : Prop :=
  exists value, sys_stdout p = StringIO value.

(** A computation that leaves a capture in place, whatever it prints. *)
Definition keeps_capture {A : Type} (m : M A) : Prop :=
  forall p, capturing p -> capturing (snd (m p)).

(** No entry of the dict is bound to [None]. *)
Definition no_None (d : dict) : Prop := forall k v, In (k, v) d -> v <> PNone.

(** The commands a second invocation can send. *)
Definition protocol_commands : list PyVal :=
  [PDict [("action", PStr "list_profiles")];
   PDict [("action", PStr "quit")];
   PDict [("action", PStr "disconnect")];
   PDict [("action", PStr "connect")];
   PDict [("action", PStr "connect"); ("profile", PStr "Gaming")];
   PDict [("action", PStr "load_profile"); ("profile", PStr "Gaming")]].

(* ================================================================== *)
(** * Further vocabulary *)
(* ================================================================== *)

From Stdlib Require Import Sorted.

(** The state in which the callback of the server runs: after the accept
    and the [recv]. *)
Definition after_request (p : Process) : Process :=
  set_env (record_call (Conn_recv 4096) (record_call Listener_accept (env p))) p.

(** The text that [execute_list_profiles] prints for a list of names:
    one line if there is none, else a header and a numbered line each. *)
Fixpoint numbered_lines (i : nat) (profiles : list PyVal) : string :=
  match profiles with
  | [] => ""
  | profile :: rest =>
      ("  " ++ str_nat i ++ ". " ++ py_str profile) ++ nl
        ++ numbered_lines (S i) rest
  end.

Definition listing (profiles : list PyVal) : string :=
  match profiles with
  | [] => "No profiles found." ++ nl
  | _ :: _ => "Available profiles:" ++ nl ++ numbered_lines 1 profiles
  end.

(** The names [list_profiles] returns for a directory. *)
Definition listed_names (d : Dir) : list PyVal :=
  match py_sorted (collect_names d) with
  | Ret names => names
  | Raise e => []
  end.

(** The stable insertion sort on strings, in the order of [<] on [str]. *)
Fixpoint insert_str (x : string) (l : list string) : list string :=
  match l with
  | [] => [x]
  | y :: l' => if String.ltb x y then x :: y :: l' else y :: insert_str x l'
  end.

Definition sort_str (l : list string) : list string :=
  fold_left (fun acc x => insert_str x acc) l [].

(** [a <= b] on [str]: not [b < a]. *)
Definition str_le (a b : string) : Prop := String.ltb b a = false.

(** The process after [text] was written to [sys.stdout]. *)
Definition emit (text : string) (p : Process) : Process :=
  match sys_stdout p with
  | Terminal => set_terminal (terminal p ++ text) p
  | StringIO v => set_sys_stdout (StringIO (v ++ text)) p
  end.

(** The characters [_get_profile_path] lets through. *)
Definition name_char (c : ascii) : bool :=
  isalnum_char c || Ascii.eqb c " " || Ascii.eqb c "-" || Ascii.eqb c "_".

(** A profile document with its metadata, as [create_profile] writes it. *)
Definition with_metadata (data : dict) (name : PyVal) (created updated : PyVal)
  : dict :=
  dict_set (dict_set (dict_set data "name" name) "created_at" created)
    "updated_at" updated.

(** A party field as a profile without party has it, or with a count:
    absent, or an [int] that is not negative. *)
Definition count_or_absent (profile : dict) (key : string) : bool :=
  match dict_get profile key with
  | None => true
  | Some (PInt n) => (0 <=? n)%Z
  | Some _ => false
  end.

(* ================================================================== *)
(** * Basic facts *)
(* ================================================================== *)

Lemma status_eqb_eq (a b : RPCStatus) : status_eqb a b = true <-> a = b.
Proof. destruct a, b; simpl; split; intro H; congruence. Qed.

Lemma status_eqb_refl (a : RPCStatus) : status_eqb a a = true.
Proof. now apply status_eqb_eq. Qed.

Lemma status_eqb_neq (a b : RPCStatus) : a <> b -> status_eqb a b = false.
Proof.
  intro H. destruct (status_eqb a b) eqn:E; [|reflexivity].
  apply status_eqb_eq in E. contradiction.
Qed.

Lemma set_rpc_same (p : Process) : set_rpc (rpc p) p = p.
Proof. now destruct p. Qed.

Lemma in_without_None (d : dict) (k : string) (v : PyVal) :
  In (k, v) (without_None d) <-> In (k, v) d /\ v <> PNone.
Proof.
  unfold without_None. rewrite filter_In. simpl.
  destruct v; simpl; intuition congruence.
Qed.

Lemma dict_get_not_key (d : dict) (k : string) :
  ~ In k (keys d) -> dict_get d k = None.
Proof.
  induction d as [|[k' v'] d IH]; simpl; intro H; [reflexivity|].
  destruct (String.eqb_spec k k') as [->|N].
  - exfalso. apply H. now left.
  - apply IH. intro. apply H. now right.
Qed.

Lemma keys_without_None_incl (d : dict) (k : string) :
  In k (keys (without_None d)) -> In k (keys d).
Proof.
  unfold keys. rewrite !in_map_iff. intros [[k' v] [E H]].
  exists (k', v). split; [assumption|]. now apply in_without_None in H.
Qed.

Lemma dict_get_without_None (d : dict) (k : string) :
  NoDup (keys d) ->
  dict_get (without_None d) k =
  match dict_get d k with
  | Some PNone => None
  | found => found
  end.
Proof.
  induction d as [|[k' v'] d IH]; simpl; intro ND; [reflexivity|].
  inversion ND as [|? ? Hnotin ND']; subst.
  destruct (String.eqb_spec k k') as [->|N].
  - destruct v'; simpl; rewrite ?String.eqb_refl; try reflexivity.
    apply dict_get_not_key. intro H. apply Hnotin.
    now apply keys_without_None_incl.
  - destruct (is_None v'); simpl.
    + now apply IH.
    + destruct (String.eqb_spec k k'); [contradiction|]. now apply IH.
Qed.

(** Running a computation symbolically. *)
Ltac unfold_monad :=
  unfold try_except, try_finally, bind, ext, lift, ret, raise, get,
    modify, modify_rpc, when, next_outcome.
Ltac run := repeat (progress (unfold_monad; simpl)).


Ltac split_on_class :=
  repeat match goal with
         | |- context [is_class ?c ?e] => destruct (is_class c e) eqn:?
         end.

(* ================================================================== *)
(** * The supervisor *)
(* ================================================================== *)

(** [update_activity] without a client, or in a status other than
    [CONNECTED], fails and touches nothing. *)
Lemma update_activity_not_connected (activity : PyVal) (p : Process) :
  client (rpc p) = None \/ status (rpc p) <> CONNECTED ->
  update_activity activity p = (Ret false, p).
Proof.
  intros H. unfold update_activity, bind, get.
  destruct (client (rpc p)) as [c|] eqn:Ec; [|reflexivity].
  destruct H as [H|H]; [discriminate|].
  now rewrite (status_eqb_neq _ _ H).
Qed.

(** What [update_activity] does once the guard is passed, with a dict. *)
Lemma update_activity_connected (d : dict) (p : Process) (c : Presence) :
  client (rpc p) = Some c ->
  status (rpc p) = CONNECTED ->
  update_activity (PDict d) p =
  let p1 := set_env (record_call (Presence_update c (without_None d)) (env p)) p in
  match next_outcome (env p) with
  | Ok _ => (Ret true, set_rpc (with_current_activity (PDict d) (rpc p1)) p1)
  | Err _ => (Ret false, p1)
  end.
Proof.
  intros Hc Hs. unfold update_activity, bind, get.
  rewrite Hc, Hs. simpl.
  unfold try_except, bind, lift, ext. simpl.
  destruct (next_outcome (env p)); reflexivity.
Qed.

(** With a payload that is not a dict, [activity.items()] raises inside
    the [try] and nothing is sent. *)
Lemma update_activity_not_a_dict (activity : PyVal) (p : Process) (c : Presence) :
  client (rpc p) = Some c ->
  status (rpc p) = CONNECTED ->
  (forall d, activity <> PDict d) ->
  update_activity activity p = (Ret false, p).
Proof.
  intros Hc Hs Hd. unfold update_activity, bind, get.
  rewrite Hc, Hs. simpl.
  destruct activity; try reflexivity. now elim (Hd d).
Qed.

(** [update_activity] never raises. *)
Lemma update_activity_returns (activity : PyVal) (p : Process) :
  exists b p', update_activity activity p = (Ret b, p').
Proof.
  destruct (client (rpc p)) as [c|] eqn:Ec.
  - destruct (status_eqb (status (rpc p)) CONNECTED) eqn:Es.
    + apply status_eqb_eq in Es.
      destruct activity;
        try (eexists; eexists;
             apply (update_activity_not_a_dict _ p c Ec Es); congruence).
      rewrite (update_activity_connected d p c Ec Es). simpl.
      destruct (next_outcome (env p)); eauto.
    + eexists; eexists. apply update_activity_not_connected. right.
      intro H. rewrite H in Es. discriminate.
  - eexists; eexists. apply update_activity_not_connected. now left.
Qed.

(** C8.  Publishing fails, with the state and the trace of external calls
    untouched, unless the supervisor is [CONNECTED] and has a client; and
    when publishing succeeds, the payload passed is the one remembered in
    [current_activity]. *)
Theorem update_activity_guard_and_memory (activity : PyVal) (p : Process) :
  (client (rpc p) = None \/ status (rpc p) <> CONNECTED ->
   update_activity activity p = (Ret false, p))
  /\
  (forall p', update_activity activity p = (Ret true, p') ->
     current_activity (rpc p') = activity
     /\ status (rpc p) = CONNECTED
     /\ exists c, client (rpc p) = Some c).
Proof.
  split; [apply update_activity_not_connected|].
  intros p' H.
  destruct (client (rpc p)) as [c|] eqn:Ec.
  - destruct (status_eqb (status (rpc p)) CONNECTED) eqn:Es.
    + apply status_eqb_eq in Es.
      destruct activity;
        try (rewrite (update_activity_not_a_dict _ p c Ec Es) in H
               by congruence; discriminate).
      rewrite (update_activity_connected d p c Ec Es) in H. simpl in H.
      destruct (next_outcome (env p)); inversion H; subst; simpl; eauto.
    + rewrite update_activity_not_connected in H; [discriminate|].
      right. intro E. rewrite E in Es. discriminate.
  - rewrite update_activity_not_connected in H; [discriminate|now left].
Qed.

Lemma update_activity_guard_and_memory_witness :
  update_activity (PDict sample_activity)
    (process_of (world_of []) RPCManager_init []) =
  (Ret false, process_of (world_of []) RPCManager_init [])
  /\
  current_activity
    (rpc (snd (update_activity (PDict sample_activity)
                 (process_of (world_of []) (connected_manager PNone) []))))
  = PDict sample_activity.
Proof.
  split.
  - apply (proj1 (update_activity_guard_and_memory _ _)). left. reflexivity.
  - apply (proj2 (update_activity_guard_and_memory (PDict sample_activity)
                    (process_of (world_of []) (connected_manager PNone) [])) _).
    reflexivity.
Defined.

(** C9.  When a payload (a dict, its keys distinct) is published, the
    keyword arguments handed to the external [update] are the entries of
    the payload whose value is not [None], in the payload's order: a key
    is sent exactly when the payload binds it to a value other than
    [None], with that value, and no [None] is ever sent. *)
Theorem update_activity_sends_fields_without_None
  (d : dict) (p : Process) (c : Presence) :
  client (rpc p) = Some c ->
  status (rpc p) = CONNECTED ->
  NoDup (keys d) ->
  exists kwargs,
    trace (env (snd (update_activity (PDict d) p)))
    = (trace (env p) ++ [(Presence_update c kwargs, next_outcome (env p))])%list
    /\ kwargs = without_None d
    /\ (forall k v, In (k, v) kwargs <-> In (k, v) d /\ v <> PNone)
    /\ (forall k, dict_get kwargs k =
                  match dict_get d k with
                  | Some PNone => None
                  | found => found
                  end)
    /\ (forall k, dict_get kwargs k <> Some PNone).
Proof.
  intros Hc Hs ND. exists (without_None d).
  rewrite (update_activity_connected d p c Hc Hs). simpl.
  split; [unfold record_call; destruct (next_outcome (env p)); reflexivity|].
  split; [reflexivity|].
  split; [intros; apply in_without_None|].
  split; [intros; now apply dict_get_without_None|].
  intros k. rewrite (dict_get_without_None d k ND).
  destruct (dict_get d k) as [[]|]; congruence.
Qed.

Lemma update_activity_sends_fields_without_None_witness :
  exists kwargs,
    trace (env (snd (update_activity (PDict sample_activity)
                       (process_of (world_of []) (connected_manager PNone) []))))
    = [(Presence_update some_client kwargs, Ok [])]
    /\ kwargs = [("details", PStr "Playing"); ("start", PInt 1700000000)].
Proof.
  destruct (update_activity_sends_fields_without_None sample_activity
              (process_of (world_of []) (connected_manager PNone) [])
              some_client eq_refl eq_refl) as [kwargs [Ht [Hk _]]].
  - repeat constructor; simpl; intuition discriminate.
  - exists kwargs. split; [exact Ht|exact Hk].
Defined.

(** C10.  When the supervisor is [CONNECTED] with a client and the
    external [update] raises, [update_activity] returns [False] and the
    supervisor is left as it was: [status], [current_activity] and every
    other field keep their values. *)
Theorem update_activity_failure_keeps_state
  (d : dict) (p : Process) (c : Presence) (e : Exn) :
  client (rpc p) = Some c ->
  status (rpc p) = CONNECTED ->
  next_outcome (env p) = Err e ->
  exists p',
    update_activity (PDict d) p = (Ret false, p')
    /\ rpc p' = rpc p
    /\ status (rpc p') = status (rpc p)
    /\ current_activity (rpc p') = current_activity (rpc p)
    /\ trace (env p') =
       (trace (env p) ++ [(Presence_update c (without_None d), Err e)])%list.
Proof.
  intros Hc Hs Ho.
  rewrite (update_activity_connected d p c Hc Hs). simpl. rewrite Ho.
  eexists. split; [reflexivity|]. simpl. unfold record_call. simpl.
  rewrite Ho. repeat split.
Qed.

Lemma update_activity_failure_keeps_state_witness :
  exists p',
    update_activity (PDict sample_activity)
      (process_of (world_of [Err pipe_closed])
         (connected_manager (PDict [("details", PStr "Old")])) [])
    = (Ret false, p')
    /\ status (rpc p') = CONNECTED
    /\ current_activity (rpc p') = PDict [("details", PStr "Old")].
Proof.
  destruct (update_activity_failure_keeps_state sample_activity
              (process_of (world_of [Err pipe_closed])
                 (connected_manager (PDict [("details", PStr "Old")])) [])
              some_client pipe_closed eq_refl eq_refl eq_refl)
    as [p' [H [_ [Hs [Ha _]]]]].
  exists p'. split; [exact H|]. split; [exact Hs|exact Ha].
Defined.

(** C1 (the code departs from the claim here).  On a tick with the
    supervisor [CONNECTED], a client and a non-empty remembered payload,
    a probe whose external [update] raises changes nothing: the exception
    is absorbed inside [update_activity], so the [except] branch of the
    loop never runs.  The supervisor keeps its [CONNECTED] status and its
    client, no reconnection is attempted, and the only external call of
    the tick is the failed [update]: the payload is not republished. *)
Theorem reconnect_check_ignores_failed_probe
  (d : dict) (p : Process) (c : Presence) (e : Exn) :
  status (rpc p) = CONNECTED ->
  client (rpc p) = Some c ->
  current_activity (rpc p) = PDict d ->
  d <> [] ->
  next_outcome (env p) = Err e ->
  exists p',
    _auto_reconnect_check p = (Ret tt, p')
    /\ rpc p' = rpc p
    /\ status (rpc p') = CONNECTED
    /\ trace (env p') =
       (trace (env p) ++ [(Presence_update c (without_None d), Err e)])%list.
Proof.
  intros Hs Hc Ha Hd Ho.
  pose proof (update_activity_connected d p c Hc Hs) as Hu.
  cbv zeta in Hu. rewrite Ho in Hu.
  unfold _auto_reconnect_check, bind, get.
  rewrite Hs, Hc, Ha. simpl.
  assert (Ht : truthy (PDict d) = true) by (destruct d; [congruence|reflexivity]).
  simpl in Ht. rewrite Ht.
  unfold when, try_except, bind. rewrite Hu.
  eexists. split; [reflexivity|]. simpl. unfold record_call. rewrite Ho.
  repeat split. assumption.
Qed.

Lemma reconnect_check_ignores_failed_probe_witness :
  exists p',
    _auto_reconnect_check
      (process_of (world_of [Err pipe_closed])
         (connected_manager (PDict sample_activity)) [])
    = (Ret tt, p')
    /\ status (rpc p') = CONNECTED
    /\ trace (env p') =
       [(Presence_update some_client
           [("details", PStr "Playing"); ("start", PInt 1700000000)],
         Err pipe_closed)].
Proof.
  destruct (reconnect_check_ignores_failed_probe sample_activity
              (process_of (world_of [Err pipe_closed])
                 (connected_manager (PDict sample_activity)) [])
              some_client pipe_closed eq_refl eq_refl eq_refl)
    as [p' [H [_ [Hs Ht]]]].
  - discriminate.
  - reflexivity.
  - exists p'. split; [exact H|]. split; [exact Hs|exact Ht].
Defined.

(* ================================================================== *)
(** * The command channel *)
(* ================================================================== *)

Lemma sent_app (t u : list (Call * Outcome)) :
  sent (t ++ u) = (sent t ++ sent u)%list.
Proof.
  induction t as [|[c o] t IH]; simpl; [reflexivity|].
  destruct c; simpl; now rewrite IH.
Qed.

Lemma raised_app (t u : list (Call * Outcome)) :
  raised (t ++ u) = (raised t ++ raised u)%list.
Proof.
  induction t as [|[c [d|e]] t IH]; simpl; now rewrite ?IH.
Qed.

Lemma nonempty_true {A : Type} (l : list A) : l <> [] -> nonempty l = true.
Proof. destruct l; [congruence|reflexivity]. Qed.

Section Channel.
Context {codec : JsonCodec}.

(** C3, as the code has it.  When the request of an accepted connection
    does not decode, the server writes nothing to the connection: it
    closes it and [accept_connection] returns [None].  The calls of the
    run are the accept, the [recv] and the close. *)
Theorem accept_connection_undecodable_request
  (callback : option (PyVal -> M PyVal)) (p : Process)
  (a data : bytes) (rest : list Outcome) (e : Exn) :
  script (env p) = Ok a :: Ok data :: rest ->
  at_most 4096 data <> [] ->
  loads (at_most 4096 data) = Raise e ->
  exists p',
    accept_connection callback p = (Ret PNone, p')
    /\ trace (env p') =
       (trace (env p) ++
          [(Listener_accept, Ok a); (Conn_recv 4096, Ok data);
           (Conn_close, hd (Ok []) rest)])%list
    /\ sent (trace (env p')) = sent (trace (env p)).
Proof.
  intros Hs Hne Hl.
  destruct p as [[sc tr] m dir cfg mw out term]. simpl in *. subst sc.
  unfold accept_connection. run.
  rewrite (nonempty_true _ Hne), Hl. run.
  destruct (hd (Ok []) rest) as [d'|e'] eqn:Eh; run;
    split_on_class; run;
    (eexists; split; [reflexivity|]; unfold record_call, next_outcome; simpl;
     rewrite <- !app_assoc; simpl; rewrite ?Eh;
     split; [reflexivity|]; rewrite sent_app; simpl; apply app_nil_r).
Qed.

Lemma nonempty_false {A : Type} (l : list A) : nonempty l = false -> l = [].
Proof. destruct l; [reflexivity|discriminate]. Qed.

Lemma nonempty_true_inv {A : Type} (l : list A) : nonempty l = true -> l <> [].
Proof. destruct l; [discriminate|congruence]. Qed.

Lemma bytes_eqb_eq (a b : bytes) : bytes_eqb a b = true <-> a = b.
Proof.
  revert b. induction a as [|x a IH]; intros [|y b]; simpl;
    try (split; [discriminate|congruence]); [tauto|].
  rewrite andb_true_iff, IH. split.
  - intros [H ->]. now rewrite (Byte.byte_dec_bl _ _ H).
  - intros H. inversion H; subst. split; [now apply Byte.byte_dec_lb|reflexivity].
Qed.

Lemma bytes_eqb_neq (a b : bytes) : bytes_eqb a b = false <-> a <> b.
Proof.
  rewrite <- bytes_eqb_eq. destruct (bytes_eqb a b); split; congruence.
Qed.

(** The next outcome of the script, by cases, then the reply. *)
Ltac next_call :=
  match goal with
  | |- context [hd (Ok []) ?s] => is_var s; destruct s as [|[?|?] ?]; run
  end.

Ltac case_reply :=
  match goal with
  | |- context [nonempty (at_most ?n ?a)] =>
      destruct (nonempty (at_most n a)) eqn:?
  | |- context [match loads ?d with _ => _ end] => destruct (loads d) eqn:?
  | |- context [is_class ?c ?e] => destruct (is_class c e) eqn:?
  | |- context [bytes_eqb ?a ?b] => destruct (bytes_eqb a b) eqn:?
  end; run.

Ltac reply_facts :=
  repeat match goal with
         | H : nonempty _ = false |- _ => apply nonempty_false in H
         | H : nonempty _ = true |- _ => apply nonempty_true_inv in H
         | H : bytes_eqb _ _ = true |- _ => apply bytes_eqb_eq in H
         | H : bytes_eqb _ _ = false |- _ => apply bytes_eqb_neq in H
         end.

Ltac describe_reply :=
  reply_facts;
  first
    [ solve [left; split; [assumption || reflexivity|reflexivity]]
    | solve [right; left; split; assumption]
    | solve [right; right; split; [assumption|];
             eexists; split; [eassumption|];
             first [ left; repeat split; assumption
                   | right; left; repeat split; assumption
                   | right; right; repeat split; assumption ]] ].

Ltac finish_send :=
  do 3 eexists; split; [reflexivity|];
  unfold record_call, next_outcome; simpl; rewrite <- ?app_assoc; simpl;
  split; [reflexivity|]; simpl;
  split;
  [ first [ intros Hr; congruence
          | intros _; eexists; split; cycle 1; [reflexivity|simpl; auto] ]
  | first [ intros Hr; discriminate
          | intros _; eexists; split; [simpl; auto 10|describe_reply] ] ].

(** Every path of [send_command].  It always returns a value and
    never raises.  When an external call of the exchange raised, the
    value is the failure Response [{'success': False, 'error': str(e)}]
    for an exception [e] that was raised.  When none did, the reply
    decides: no bytes give the failure ['No response']; bytes that
    decode are returned as decoded, whatever they decode to; bytes that
    fail to decode as JSON give [{'success': True}] if they are [OK]
    and the failure ['Invalid response'] otherwise; any other decoding
    error gives the failure carrying its text. *)
Theorem send_command_always_returns
  (port : Z) (command : PyVal) (p : Process) :
  exists r p' calls,
    send_command port command p = (Ret r, p')
    /\ trace (env p') = (trace (env p) ++ calls)%list
    /\ (raised calls <> [] ->
          exists e, In e (raised calls) /\ r = failure_response (str_exn e))
    /\ (raised calls = [] ->
          exists reply,
            In (Socket_recv 4096, Ok reply) calls
            /\ let data := at_most 4096 reply in
               (data = [] /\ r = failure_response "No response")
               \/ (data <> [] /\ loads data = Ret r)
               \/ (data <> [] /\ exists e,
                     loads data = Raise e
                     /\ ((is_class JSONDecodeError e = true /\ data = b_OK
                          /\ r = success_response)
                         \/ (is_class JSONDecodeError e = true /\ data <> b_OK
                             /\ r = failure_response "Invalid response")
                         \/ (is_class JSONDecodeError e = false
                             /\ r = failure_response (str_exn e))))).
Proof.
  destruct p as [[sc tr] m dir cfg mw out term].
  unfold send_command. run.
  repeat first [next_call | case_reply]; finish_send.
Qed.

(** C7.  When the exchange goes through and the bytes received are the
    two bytes [OK] (which [json] does not decode), [send_command]
    returns the dict [{'success': True}], which has no other field. *)
Theorem send_command_legacy_acknowledgment
  (port : Z) (command : PyVal) (p : Process)
  (a1 a2 a3 a4 a6 : bytes) (rest : list Outcome) (e : Exn) :
  loads b_OK = Raise e ->
  is_class JSONDecodeError e = true ->
  script (env p) = Ok a1 :: Ok a2 :: Ok a3 :: Ok a4 :: Ok b_OK :: rest ->
  hd (Ok []) rest = Ok a6 ->
  fst (send_command port command p) = Ret (PDict [("success", PBool true)])
  /\ dict_get [("success", PBool true)] "output" = None.
Proof.
  intros Hl Hc Hs Hclose. split; [|reflexivity].
  destruct p as [[sc tr] m dir cfg mw out term]. simpl in Hs. subst sc.
  unfold send_command. run.
  change (at_most 4096 b_OK) with b_OK.
  rewrite Hl. run. rewrite Hc. run. rewrite Hclose. reflexivity.
Qed.
(** C4 fails on the code.  [send_command] returns what the reply decodes
    to without looking at it: when the exchange goes through and the
    reply decodes to a value that is no Response (a list, a number, a
    string, [null], a dict without a boolean [success]), that value is
    the result.  No call of the exchange raised, and the caller gets
    neither a Response nor a failure with an error text. *)
Theorem send_command_returns_decoded_reply_unchecked
  (port : Z) (command r : PyVal) (p : Process)
  (a1 a2 a3 a4 reply a6 : bytes) (rest : list Outcome) :
  script (env p) = Ok a1 :: Ok a2 :: Ok a3 :: Ok a4 :: Ok reply :: rest ->
  hd (Ok []) rest = Ok a6 ->
  at_most 4096 reply <> [] ->
  loads (at_most 4096 reply) = Ret r ->
  is_Response r = false ->
  exists p',
    send_command port command p = (Ret r, p')
    /\ raised (trace (env p')) = raised (trace (env p))
    /\ reports_failure r = false.
Proof.
  intros Hs Hclose Hne Hl Hr.
  destruct p as [[sc tr] m dir cfg mw out term]. simpl in Hs. subst sc.
  unfold send_command. run. rewrite (nonempty_true _ Hne), Hl. run.
  rewrite Hclose. eexists. split; [reflexivity|]. split.
  - unfold record_call, next_outcome. simpl. rewrite Hclose.
    rewrite <- !app_assoc. rewrite raised_app. simpl. apply app_nil_r.
  - destruct r as [| | | | |d]; try reflexivity.
    simpl in Hr |- *.
    destruct (dict_get d "success") as [[|[|]| | | |]|]; try reflexivity;
      discriminate.
Qed.
End Channel.

Lemma send_command_legacy_acknowledgment_witness :
  fst (send_command (codec := ref_codec) 50123 list_profiles_command
         (client_with_reply b_OK))
  = Ret (PDict [("success", PBool true)]).
Proof.
  apply (send_command_legacy_acknowledgment (codec := ref_codec)
           50123 list_profiles_command (client_with_reply b_OK)
           [] [] [] [] [] [] (mkExn JSONDecodeError "Expecting value"));
    reflexivity.
Defined.

Lemma send_command_always_returns_witness :
  exists r p',
    send_command (codec := ref_codec) 50123 list_profiles_command
      (client_with_reply malformed_request) = (Ret r, p').
Proof.
  destruct (send_command_always_returns (codec := ref_codec) 50123
              list_profiles_command (client_with_reply malformed_request))
    as [r [p' [calls [H _]]]].
  exists r, p'. exact H.
Defined.

Lemma accept_connection_undecodable_request_witness :
  exists p',
    accept_connection (codec := ref_codec) (Some _handle_ipc_command)
      (server_with_request malformed_request) = (Ret PNone, p')
    /\ sent (trace (env p')) = [].
Proof.
  destruct (accept_connection_undecodable_request (codec := ref_codec)
              (Some _handle_ipc_command) (server_with_request malformed_request)
              [] malformed_request []
              (mkExn JSONDecodeError "Expecting value")
              eq_refl) as [p' [H [_ Hsent]]].
  - discriminate.
  - reflexivity.
  - exists p'. split; [exact H|exact Hsent].
Defined.

(** C3 fails on the code: a request that is not JSON is answered with
    nothing.  The server closes the connection without a single
    [sendall], and [accept_connection] returns [None]. *)
Lemma accept_connection_drops_malformed_request :
  ref_loads malformed_request = Raise (mkExn JSONDecodeError "Expecting value")
  /\ fst (accept_connection (codec := ref_codec) (Some _handle_ipc_command)
            (server_with_request malformed_request)) = Ret PNone
  /\ trace (env (snd (accept_connection (codec := ref_codec)
                        (Some _handle_ipc_command)
                        (server_with_request malformed_request))))
     = [(Listener_accept, Ok []); (Conn_recv 4096, Ok malformed_request);
        (Conn_close, Ok [])]
  /\ sent (trace (env (snd (accept_connection (codec := ref_codec)
                              (Some _handle_ipc_command)
                              (server_with_request malformed_request)))))
     = [].
Proof. repeat split; vm_compute; reflexivity. Qed.

Lemma send_command_returns_decoded_reply_unchecked_witness :
  exists p',
    send_command (codec := ref_codec) 50123 list_profiles_command
      (client_with_reply (list_byte_of_string "[]"))
    = (Ret (PList []), p')
    /\ is_Response (PList []) = false.
Proof.
  destruct (send_command_returns_decoded_reply_unchecked (codec := ref_codec)
              50123 list_profiles_command (PList [])
              (client_with_reply (list_byte_of_string "[]"))
              [] [] [] [] (list_byte_of_string "[]") [] [])
    as [p' [H _]].
  - reflexivity.
  - reflexivity.
  - vm_compute. discriminate.
  - vm_compute. reflexivity.
  - reflexivity.
  - exists p'. split; [exact H|reflexivity].
Defined.

(* ================================================================== *)
(** * The command handler *)
(* ================================================================== *)

Lemma py_eq_PStr (a : PyVal) (s : string) : py_eq a (PStr s) = true <-> a = PStr s.
Proof.
  destruct a; simpl; try (split; [discriminate|congruence]).
  rewrite String.eqb_eq. split; congruence.
Qed.

Lemma action_is_false (a : PyVal) (name : string) :
  a <> PStr name -> action_is a name = false.
Proof.
  intro H. unfold action_is. destruct (py_eq a (PStr name)) eqn:E; [|reflexivity].
  apply py_eq_PStr in E. contradiction.
Qed.

Lemma restore_stdout (p : Process) (s : Stream) :
  set_sys_stdout (sys_stdout p) (set_sys_stdout s p) = p.
Proof. now destruct p. Qed.

(** C2, as the code has it.  A command dict whose [action] is none of the
    five named actions (or is missing) is answered with the success
    Response [{'success': True, 'output': ''}]: the handler returns, does
    not raise, and leaves the process as it found it. *)
Theorem unknown_action_is_ignored (command : dict) (p : Process) :
  (forall name, In name named_actions ->
                dict_get_default command "action" PNone <> PStr name) ->
  _handle_ipc_command (PDict command) p =
  (Ret (PDict [("success", PBool true); ("output", PStr "")]), p).
Proof.
  intros H.
  unfold _handle_ipc_command, _process_ipc_command, py_get. run.
  rewrite !action_is_false by (apply H; simpl; tauto).
  run. apply f_equal, restore_stdout.
Qed.

Lemma unknown_action_is_ignored_witness :
  _handle_ipc_command (PDict [("action", PStr "restart")])
    (owner_with_profiles Gaming_and_Work)
  = (Ret (PDict [("success", PBool true); ("output", PStr "")]),
     owner_with_profiles Gaming_and_Work).
Proof.
  apply (unknown_action_is_ignored [("action", PStr "restart")]).
  intros name Hin. simpl in Hin.
  repeat (destruct Hin as [<-|Hin]; [discriminate|]). contradiction.
Defined.

(** C2 fails on the code: the unknown action [restart] is answered with
    [success] true and an empty output, not with a failure. *)
Lemma unknown_action_is_answered_with_success :
  ~ In "restart" named_actions
  /\ fst (_handle_ipc_command unknown_command (owner_with_profiles Gaming_and_Work))
     = Ret (PDict [("success", PBool true); ("output", PStr "")])
  /\ reports_failure (PDict [("success", PBool true); ("output", PStr "")]) = false.
Proof.
  split; [|split; reflexivity].
  simpl. intuition discriminate.
Qed.

(** C6.  With no file [Gaming.json] in the profile store, the command
    [{"action": "connect", "profile": "Gaming"}] is answered with the
    success Response whose output is the line [Profile 'Gaming' not
    found]; nothing else happens to the process. *)
Theorem connect_with_missing_profile (p : Process) :
  dir_lookup (profiles_dir p) "Gaming.json" = None ->
  _handle_ipc_command
    (PDict [("action", PStr "connect"); ("profile", PStr "Gaming")]) p
  = (Ret (PDict [("success", PBool true);
                 ("output", PStr ("Profile 'Gaming' not found" ++ nl))]),
     p).
Proof.
  intros H.
  unfold _handle_ipc_command, _process_ipc_command, py_get, load_profile. run.
  rewrite H. run. apply f_equal, restore_stdout.
Qed.

Lemma connect_with_missing_profile_witness :
  _handle_ipc_command connect_Gaming_command
    (owner_with_profiles [("Work.json", profile_doc "Work" "222222222222222222")])
  = (Ret (PDict [("success", PBool true);
                 ("output", PStr ("Profile 'Gaming' not found" ++ nl))]),
     owner_with_profiles [("Work.json", profile_doc "Work" "222222222222222222")]).
Proof.
  apply (connect_with_missing_profile
           (owner_with_profiles
              [("Work.json", profile_doc "Work" "222222222222222222")])).
  reflexivity.
Defined.

Lemma sorted_Gaming_Work (names : list PyVal) :
  Permutation names [PStr "Gaming"; PStr "Work"] ->
  py_sorted names = Ret [PStr "Gaming"; PStr "Work"].
Proof.
  intros H. apply Permutation_sym in H.
  apply Permutation_length_2_inv in H. destruct H as [->| ->]; reflexivity.
Qed.

(** C5, as the code has it.  When the names found in the profile store are
    Gaming and Work, in whatever order the directory lists them, the
    command [{"action": "list_profiles"}] is answered with the success
    Response whose output is a header line followed by the names in
    lexicographic order, numbered from 1. *)
Theorem list_profiles_response (p : Process) :
  Permutation (collect_names (profiles_dir p)) [PStr "Gaming"; PStr "Work"] ->
  _handle_ipc_command (PDict [("action", PStr "list_profiles")]) p
  = (Ret (PDict [("success", PBool true);
                 ("output",
                  PStr ("Available profiles:" ++ nl ++
                        "  1. Gaming" ++ nl ++
                        "  2. Work" ++ nl))]),
     p).
Proof.
  intros H. apply sorted_Gaming_Work in H.
  destruct p as [w m dir cfg mw out term]. simpl in H.
  unfold _handle_ipc_command, _process_ipc_command, py_get,
    execute_list_profiles, list_profiles. run.
  rewrite H. run. unfold print. run. reflexivity.
Qed.

Lemma list_profiles_response_witness :
  fst (_handle_ipc_command list_profiles_command
         (owner_with_profiles Gaming_and_Work))
  = Ret (PDict [("success", PBool true);
                ("output",
                 PStr ("Available profiles:" ++ nl ++
                       "  1. Gaming" ++ nl ++
                       "  2. Work" ++ nl))]).
Proof.
  unfold list_profiles_command.
  rewrite (list_profiles_response (owner_with_profiles Gaming_and_Work)).
  - reflexivity.
  - apply perm_swap.
Defined.

(** C5 fails on the code: with the profiles Gaming and Work the output is
    not the two bare names, one per line. *)
Lemma list_profiles_output_is_not_bare_names :
  fst (_handle_ipc_command list_profiles_command
         (owner_with_profiles Gaming_and_Work))
  <> Ret (PDict [("success", PBool true);
                 ("output", PStr ("Gaming" ++ nl ++ "Work" ++ nl))]).
Proof. vm_compute. discriminate. Qed.

(* ================================================================== *)
(** * The handler always answers *)
(* ================================================================== *)

(** While a command is processed nothing but [print] touches
    [sys.stdout], so the [StringIO] installed by the handler is still
    there when the handler reads it back. *)

Section Capture.
Context {A B : Type}.

Lemma keeps_capture_ret (a : A) : keeps_capture (ret a).
Proof. intros p H. exact H. Qed.

Lemma keeps_capture_raise (e : Exn) : keeps_capture (@raise A e).
Proof. intros p H. exact H. Qed.

Lemma keeps_capture_lift (r : Res A) : keeps_capture (lift r).
Proof. intros p H. exact H. Qed.

Lemma keeps_capture_bind (m : M A) (k : A -> M B) :
  keeps_capture m -> (forall a, keeps_capture (k a)) -> keeps_capture (bind m k).
Proof.
  intros Hm Hk p H. unfold bind. specialize (Hm p H).
  destruct (m p) as [[a|e] p1]; simpl in *; [now apply Hk|assumption].
Qed.

Lemma keeps_capture_try_except (m : M A) (h : Exn -> M A) :
  keeps_capture m -> (forall e, keeps_capture (h e)) ->
  keeps_capture (try_except m h).
Proof.
  intros Hm Hh p H. unfold try_except. specialize (Hm p H).
  destruct (m p) as [[a|e] p1]; simpl in *; [assumption|now apply Hh].
Qed.

Lemma keeps_capture_try_finally (m : M A) (c : M unit) :
  keeps_capture m -> keeps_capture c -> keeps_capture (try_finally m c).
Proof.
  intros Hm Hc p H. unfold try_finally. specialize (Hm p H).
  destruct (m p) as [r p1]; simpl in *. specialize (Hc p1 Hm).
  destruct (c p1) as [[u|e] p2]; simpl in *; assumption.
Qed.
End Capture.

Lemma keeps_capture_get : keeps_capture get.
Proof. intros p H. exact H. Qed.

Lemma keeps_capture_modify (f : Process -> Process) :
  (forall p, sys_stdout (f p) = sys_stdout p) -> keeps_capture (modify f).
Proof. intros Hf p [v H]. exists v. simpl. now rewrite Hf. Qed.

Lemma keeps_capture_modify_rpc (f : RPCManager -> RPCManager) :
  keeps_capture (modify_rpc f).
Proof. apply keeps_capture_modify. reflexivity. Qed.

Lemma keeps_capture_ext (c : Call) : keeps_capture (ext c).
Proof. intros p H. exact H. Qed.

Lemma keeps_capture_print (s : string) : keeps_capture (print s).
Proof.
  intros p [v H]. unfold print, modify. simpl. rewrite H. simpl.
  now exists (v ++ s ++ nl).
Qed.

Lemma keeps_capture_when (b : bool) (m : M unit) :
  keeps_capture m -> keeps_capture (when b m).
Proof. intro H. destruct b; [exact H|apply keeps_capture_ret]. Qed.

Create HintDb capture.
#[local] Hint Resolve keeps_capture_get keeps_capture_modify_rpc
  keeps_capture_ext keeps_capture_print : capture.

(** One step through the syntax of a method body. *)
Ltac capture_step :=
  match goal with
  | |- keeps_capture (bind _ _) => apply keeps_capture_bind; [|intro]
  | |- keeps_capture (ret _) => apply keeps_capture_ret
  | |- keeps_capture (raise _) => apply keeps_capture_raise
  | |- keeps_capture (lift _) => apply keeps_capture_lift
  | |- keeps_capture (try_except _ _) => apply keeps_capture_try_except; [|intro]
  | |- keeps_capture (try_finally _ _) => apply keeps_capture_try_finally
  | |- keeps_capture (when _ _) => apply keeps_capture_when
  | |- keeps_capture (if ?b then _ else _) => destruct b
  | |- keeps_capture (match ?x with _ => _ end) => destruct x
  | |- keeps_capture _ => solve [auto with capture]
  end.
Ltac capture := cbv zeta; repeat capture_step.

Lemma keeps_capture_disconnect : keeps_capture disconnect.
Proof. unfold disconnect. capture. Qed.
#[local] Hint Resolve keeps_capture_disconnect : capture.

Lemma keeps_capture_connect (cid : PyVal) : keeps_capture (connect cid).
Proof. unfold connect, new_Presence, start_reconnect_thread. capture. Qed.
#[local] Hint Resolve keeps_capture_connect : capture.

Lemma keeps_capture_update_activity (a : PyVal) : keeps_capture (update_activity a).
Proof. unfold update_activity. capture. Qed.
#[local] Hint Resolve keeps_capture_update_activity : capture.

Lemma keeps_capture_load_profile (name : PyVal) : keeps_capture (load_profile name).
Proof. unfold load_profile. capture. Qed.
#[local] Hint Resolve keeps_capture_load_profile : capture.

Lemma keeps_capture_list_profiles : keeps_capture list_profiles.
Proof. unfold list_profiles. capture. Qed.
#[local] Hint Resolve keeps_capture_list_profiles : capture.

Lemma keeps_capture_config_set (k : string) (v : PyVal) :
  keeps_capture (config_set k v).
Proof. apply keeps_capture_modify. reflexivity. Qed.
#[local] Hint Resolve keeps_capture_config_set : capture.

Lemma keeps_capture_print_numbered (l : list PyVal) (i : nat) :
  keeps_capture (print_numbered i l).
Proof. revert i. induction l as [|x l IH]; intro i; simpl; capture. Qed.
#[local] Hint Resolve keeps_capture_print_numbered : capture.

Lemma keeps_capture_execute_list_profiles : keeps_capture execute_list_profiles.
Proof. unfold execute_list_profiles. capture. Qed.

Lemma keeps_capture_execute_load_profile (name : PyVal) :
  keeps_capture (execute_load_profile name).
Proof. unfold execute_load_profile. capture. Qed.

Lemma keeps_capture_handle_connect : keeps_capture _handle_connect.
Proof. unfold _handle_connect. capture. Qed.

Lemma keeps_capture_handle_disconnect : keeps_capture _handle_disconnect.
Proof. unfold _handle_disconnect. capture. Qed.
#[local] Hint Resolve keeps_capture_execute_list_profiles
  keeps_capture_execute_load_profile keeps_capture_handle_connect
  keeps_capture_handle_disconnect : capture.

Lemma keeps_capture_process_ipc_command (command : PyVal) :
  keeps_capture (_process_ipc_command command).
Proof. unfold _process_ipc_command. capture. Qed.

(** X1.  Every command, well formed or not, is answered: the handler never
    raises, [sys.stdout] is put back, and what it returns is a Response,
    either [{'success': True, 'output': text}] or the failure
    [{'success': False, 'error': text, 'output': text}], which carries
    its error text. *)
Theorem handle_ipc_command_always_answers (command : PyVal) (p : Process) :
  exists r p',
    _handle_ipc_command command p = (Ret r, p')
    /\ is_Response r = true
    /\ ((exists output,
           r = PDict [("success", PBool true); ("output", PStr output)])
        \/ (exists error output,
              r = PDict [("success", PBool false); ("error", PStr error);
                         ("output", PStr output)]
              /\ reports_failure r = true))
    /\ sys_stdout p' = sys_stdout p.
Proof.
  unfold _handle_ipc_command. run.
  assert (Hc : capturing (set_sys_stdout (StringIO "") p)) by now exists "".
  apply (keeps_capture_process_ipc_command command) in Hc.
  destruct (_process_ipc_command command (set_sys_stdout (StringIO "") p))
    as [[output|e] p1]; simpl in Hc; destruct Hc as [v Hv];
    unfold getvalue; run; rewrite Hv; run;
    do 2 eexists; (split; [reflexivity|]); (split; [reflexivity|]);
    (split; [|reflexivity]).
  - left. eexists. reflexivity.
  - right. do 2 eexists. split; reflexivity.
Qed.

(* ================================================================== *)
(** * Further facts *)
(* ================================================================== *)

(** A tick of the liveness loop never changes the supervisor, whatever
    the probe does: [update_activity] absorbs a failure, and a success
    stores the payload that was already stored. *)
Lemma reconnect_check_leaves_supervisor (p : Process) :
  exists p', _auto_reconnect_check p = (Ret tt, p') /\ rpc p' = rpc p.
Proof.
  unfold _auto_reconnect_check, bind, get, when.
  destruct (status_eqb (status (rpc p)) CONNECTED) eqn:Es; simpl;
    [|eexists; split; reflexivity].
  apply status_eqb_eq in Es.
  destruct (client (rpc p)) as [c|] eqn:Ec; simpl;
    [|eexists; split; reflexivity].
  destruct (truthy (current_activity (rpc p))) eqn:Et;
    [|eexists; split; reflexivity].
  unfold try_except, bind.
  destruct (current_activity (rpc p)) as [| | | | |d] eqn:Ea;
    try (rewrite (update_activity_not_a_dict _ p c Ec Es) by congruence;
         eexists; split; reflexivity).
  rewrite (update_activity_connected d p c Ec Es). simpl.
  destruct (next_outcome (env p)); eexists; (split; [reflexivity|]); simpl;
    [|reflexivity].
  rewrite <- Ea. now destruct (rpc p).
Qed.

(** [disconnect] with a client: the status becomes [DISCONNECTED], the
    client and the remembered payload are dropped, whether or not
    [close] raised. *)
Lemma disconnect_resets (p : Process) (c : Presence) :
  client (rpc p) = Some c ->
  exists p',
    disconnect p = (Ret tt, p')
    /\ status (rpc p') = DISCONNECTED
    /\ client (rpc p') = None
    /\ current_activity (rpc p') = PNone
    /\ _should_reconnect (rpc p') = false.
Proof.
  intros Hc. unfold disconnect. run. rewrite Hc. run.
  destruct (hd (Ok []) (script (env p))); run;
    destruct (_reconnect_thread (rpc p)); run;
    eexists; repeat split.
Qed.

Lemma disconnect_without_client (p : Process) :
  client (rpc p) = None ->
  exists p',
    disconnect p = (Ret tt, p')
    /\ status (rpc p') = status (rpc p)
    /\ client (rpc p') = None
    /\ trace (env p') = trace (env p).
Proof.
  intros Hc. unfold disconnect. run. rewrite Hc. run.
  destruct (_reconnect_thread (rpc p)); run; eexists; repeat split; assumption.
Qed.

(** [disconnect] twice: the second call returns as well, makes no
    external call and leaves the supervisor as the first one left it. *)
Lemma disconnect_twice (p : Process) (c : Presence) :
  client (rpc p) = Some c ->
  exists p1 p2,
    disconnect p = (Ret tt, p1)
    /\ disconnect p1 = (Ret tt, p2)
    /\ rpc p2 = rpc p1
    /\ status (rpc p2) = DISCONNECTED
    /\ trace (env p2) = trace (env p1).
Proof.
  destruct p as [[sc tr] [cl cid st act th ev sr] dir cfg mw out term].
  simpl. intros ->. unfold disconnect. run.
  destruct (hd (Ok []) sc); run; destruct th; run;
    do 2 eexists; repeat split.
Qed.

(** ** [_build_activity] never binds a field to [None] *)

Lemma in_dict_set (d : dict) (k k' : string) (v v' : PyVal) :
  In (k, v) (dict_set d k' v') -> In (k, v) d \/ v = v'.
Proof.
  induction d as [|[k0 v0] d IH]; simpl.
  - intros [H|[]]. right. congruence.
  - destruct (String.eqb k' k0); simpl.
    + intros [H|H]; [right; congruence|left; now right].
    + intros [H|H]; [left; now left|].
      destruct (IH H); [left; now right|now right].
Qed.

Lemma truthy_not_None (v : PyVal) : truthy v = true -> v <> PNone.
Proof. destruct v; simpl; congruence. Qed.

Lemma no_None_set (d : dict) (k : string) (v : PyVal) :
  no_None d -> v <> PNone -> no_None (dict_set d k v).
Proof.
  intros Hd Hv k' v' Hin. apply in_dict_set in Hin.
  destruct Hin as [H| ->]; [now apply (Hd k')|assumption].
Qed.

Lemma no_None_copy (data : dict) (src dst : string) (activity : dict) :
  no_None activity -> no_None (copy_if_truthy data src dst activity).
Proof.
  intros H. unfold copy_if_truthy.
  destruct (truthy (dict_get_default data src PNone)) eqn:E; [|assumption].
  apply no_None_set; [assumption|now apply truthy_not_None].
Qed.

Lemma build_activity_no_None (data : dict) : no_None (_build_activity data).
Proof.
  unfold _build_activity. cbv zeta.
  repeat match goal with
         | |- no_None (if ?b then _ else _) => destruct b eqn:?
         | |- no_None (dict_set _ _ _) => apply no_None_set
         | |- no_None (copy_if_truthy _ _ _ _) => apply no_None_copy
         | |- no_None [] => intros k v []
         end;
    try discriminate;
    try (apply truthy_not_None; assumption);
    match goal with
    | H : negb (is_None ?v) = true |- ?v <> PNone =>
        destruct v; simpl in H; congruence
    end.
Qed.

Lemma without_None_id (d : dict) : no_None d -> without_None d = d.
Proof.
  induction d as [|[k v] d IH]; intro H; simpl; [reflexivity|].
  assert (Hv : v <> PNone) by (apply (H k); now left).
  destruct v; simpl; try congruence;
    (f_equal; apply IH; intros k' v' Hin; apply (H k'); now right).
Qed.

(** Everything [_build_activity] puts in the payload is sent. *)
Lemma built_activity_is_sent_whole (data : dict) :
  without_None (_build_activity data) = _build_activity data.
Proof. apply without_None_id, build_activity_no_None. Qed.

(** ** The reference codec on the protocol's commands *)

Lemma protocol_commands_round_trip :
  Forall (fun c => ref_loads (ref_dumps c) = Ret c) protocol_commands.
Proof. repeat constructor. Qed.

Lemma OK_is_not_JSON :
  exists e, ref_loads b_OK = Raise e /\ is_class JSONDecodeError e = true.
Proof. eexists. split; reflexivity. Qed.

(* ================================================================== *)
(** * More on the supervisor *)
(* ================================================================== *)


(** X2.  [connect] never raises, and its result tells the status it leaves:
    [True] exactly when the supervisor ends [CONNECTED], and [ERROR] is
    the status after every [False]. *)
Theorem connect_result_tells_status (cid : PyVal) (p : Process) :
  exists b p',
    connect cid p = (Ret b, p')
    /\ (b = true <-> status (rpc p') = CONNECTED)
    /\ (b = false -> status (rpc p') = ERROR).
Proof.
  destruct p as [[sc tr] [cl i st act th ev sr] dir cfg mw out term].
  unfold connect, disconnect, new_Presence, start_reconnect_thread. run.
  destruct (status_eqb st CONNECTED && py_eq i cid) eqn:Eg; run.
  - apply andb_true_iff in Eg. destruct Eg as [Es _].
    apply status_eqb_eq in Es. subst st.
    do 2 eexists. split; [reflexivity|]. simpl. split; [tauto|discriminate].
  - destruct cl as [c|]; run;
      repeat match goal with
             | |- context [hd (Ok []) ?s] =>
                 is_var s; destruct s as [|[?|?] ?]; run
             | |- context [match exn_class ?e with _ => _ end] =>
                 destruct (exn_class e); run
             | |- context [is_some ?t] =>
                 is_var t; destruct t as [[[|]]|]; run
             | |- context [match ?t with Some _ => _ | None => _ end] =>
                 is_var t; destruct t as [[[|]]|]; run
             end;
      do 2 eexists; (split; [reflexivity|]); simpl;
      (split; [split; congruence|congruence]).
Qed.

(** X3.  [connect] while a client object exists (and the guard for "already
    connected with this id" does not apply) first closes that client,
    and the remembered payload is gone afterwards, whether or not the new
    connection succeeds. *)
Theorem connect_over_client_forgets_payload
  (cid : PyVal) (p : Process) (c : Presence) :
  client (rpc p) = Some c ->
  status_eqb (status (rpc p)) CONNECTED && py_eq (client_id (rpc p)) cid = false ->
  exists b p' calls,
    connect cid p = (Ret b, p')
    /\ current_activity (rpc p') = PNone
    /\ client_id (rpc p') = cid
    /\ trace (env p') =
       (trace (env p) ++ (Presence_close c, next_outcome (env p)) :: calls)%list.
Proof.
  destruct p as [[sc tr] [cl i st act th ev sr] dir cfg mw out term].
  simpl. intros -> Eg.
  unfold connect, disconnect, new_Presence, start_reconnect_thread. run.
  rewrite Eg. run.
  repeat match goal with
         | |- context [hd (Ok []) ?s] =>
             is_var s; destruct s as [|[?|?] ?]; run
         | |- context [match exn_class ?e with _ => _ end] =>
             destruct (exn_class e); run
         | |- context [is_some ?t] =>
             is_var t; destruct t as [[[|]]|]; run
         | |- context [match ?t with Some _ => _ | None => _ end] =>
             is_var t; destruct t as [[[|]]|]; run
         end;
    do 3 eexists; (split; [reflexivity|]); simpl;
    (split; [reflexivity|]); (split; [reflexivity|]);
    unfold record_call, next_outcome; simpl; rewrite <- ?app_assoc; reflexivity.
Qed.

Lemma connect_over_client_forgets_payload_witness :
  exists b p',
    connect (PStr "999999999999999999")
      (process_of (world_of []) (connected_manager (PDict sample_activity)) [])
    = (Ret b, p')
    /\ current_activity (rpc p') = PNone.
Proof.
  destruct (connect_over_client_forgets_payload (PStr "999999999999999999")
              (process_of (world_of [])
                 (connected_manager (PDict sample_activity)) [])
              some_client eq_refl eq_refl) as [b [p' [calls [H [Ha _]]]]].
  exists b, p'. split; [exact H|exact Ha].
Defined.

(** X4.  [disconnect] never raises.  With a client it calls [close] once and
    leaves the supervisor [DISCONNECTED] without client or payload, even
    when [close] raised; without a client it makes no external call and
    leaves the status as it was (an [ERROR] stays an [ERROR]). *)
Theorem disconnect_outcome (p : Process) :
  exists p',
    disconnect p = (Ret tt, p')
    /\ _should_reconnect (rpc p') = false
    /\ client (rpc p') = None
    /\ match client (rpc p) with
       | Some c =>
           status (rpc p') = DISCONNECTED
           /\ current_activity (rpc p') = PNone
           /\ trace (env p') =
              (trace (env p) ++ [(Presence_close c, next_outcome (env p))])%list
       | None =>
           status (rpc p') = status (rpc p)
           /\ current_activity (rpc p') = current_activity (rpc p)
           /\ trace (env p') = trace (env p)
       end.
Proof.
  destruct p as [[sc tr] [cl i st act th ev sr] dir cfg mw out term].
  unfold disconnect. run.
  destruct cl as [c|]; run;
    repeat match goal with
           | |- context [hd (Ok []) ?s] =>
               is_var s; destruct s as [|[?|?] ?]; run
           | |- context [is_some ?t] => is_var t; destruct t; run
           end;
    eexists; (split; [reflexivity|]); simpl; repeat split.
Qed.

(** X5.  [clear_activity] has the guard of [update_activity]: it fails and
    touches nothing unless the supervisor is [CONNECTED] with a client.
    Past the guard it calls [clear] once; the remembered payload is
    dropped when the call succeeds and kept when it raises. *)
Theorem clear_activity_outcome (p : Process) :
  (client (rpc p) = None \/ status (rpc p) <> CONNECTED ->
   clear_activity p = (Ret false, p))
  /\
  (forall c, client (rpc p) = Some c -> status (rpc p) = CONNECTED ->
     exists b p',
       clear_activity p = (Ret b, p')
       /\ trace (env p') =
          (trace (env p) ++ [(Presence_clear c, next_outcome (env p))])%list
       /\ status (rpc p') = CONNECTED
       /\ match next_outcome (env p) with
          | Ok _ => b = true /\ current_activity (rpc p') = PNone
          | Err _ => b = false /\ rpc p' = rpc p
          end).
Proof.
  split.
  - intros H. unfold clear_activity, bind, get.
    destruct (client (rpc p)) as [c|] eqn:Ec; [|reflexivity].
    destruct H as [H|H]; [discriminate|].
    now rewrite (status_eqb_neq _ _ H).
  - intros c Hc Hs.
    destruct p as [[sc tr] [cl i st act th ev sr] dir cfg mw out term].
    simpl in *. subst cl st. unfold clear_activity. run.
    destruct (hd (Ok []) sc) eqn:E; run;
      do 2 eexists; (split; [reflexivity|]); simpl; unfold next_outcome;
      simpl; rewrite E; repeat split.
Qed.

Lemma clear_activity_outcome_witness :
  clear_activity (process_of (world_of []) RPCManager_init [])
  = (Ret false, process_of (world_of []) RPCManager_init [])
  /\ exists b p',
       clear_activity
         (process_of (world_of []) (connected_manager (PDict sample_activity)) [])
       = (Ret b, p')
       /\ status (rpc p') = CONNECTED.
Proof.
  split.
  - apply (proj1 (clear_activity_outcome _)). left. reflexivity.
  - destruct (proj2 (clear_activity_outcome
                       (process_of (world_of [])
                          (connected_manager (PDict sample_activity)) []))
                some_client eq_refl eq_refl) as [b [p' [H [_ [Hs _]]]]].
    exists b, p'. split; [exact H|exact Hs].
Defined.


(** X7.  The liveness loop does not stop by itself: while [_should_reconnect]
    is set and the event is clear, no number of ticks ends it, whatever
    the external service answers, and the supervisor stays as it is. *)
Theorem reconnect_loop_keeps_running (fuel : nat) (p : Process) :
  _should_reconnect (rpc p) = true ->
  _reconnect_event (rpc p) = false ->
  exists p',
    _auto_reconnect_loop fuel p = (Ret false, p') /\ rpc p' = rpc p.
Proof.
  revert p. induction fuel as [|n IH]; intros p Hs He; simpl.
  - eexists. split; reflexivity.
  - unfold bind at 1. unfold get at 1. rewrite Hs.
    destruct (reconnect_check_leaves_supervisor p) as [p1 [H1 R1]].
    unfold bind at 1. rewrite H1.
    unfold bind at 1. unfold get at 1. rewrite R1, He.
    destruct (IH p1) as [p2 [H2 R2]]; try (rewrite R1; assumption).
    exists p2. split; [exact H2|]. now rewrite R2.
Qed.

Lemma reconnect_loop_keeps_running_witness :
  exists p',
    _auto_reconnect_loop 3
      (process_of (world_of [Err pipe_closed; Ok []; Err pipe_closed])
         (connected_manager (PDict sample_activity)) [])
    = (Ret false, p')
    /\ rpc p' = connected_manager (PDict sample_activity).
Proof.
  apply (reconnect_loop_keeps_running 3
           (process_of (world_of [Err pipe_closed; Ok []; Err pipe_closed])
              (connected_manager (PDict sample_activity)) []));
    reflexivity.
Defined.

(** X8.  After [disconnect] the loop ends at its next turn, without another
    external call. *)
Theorem reconnect_loop_stops_after_disconnect (n : nat) (p : Process) :
  exists p1 p2,
    disconnect p = (Ret tt, p1)
    /\ _auto_reconnect_loop (S n) p1 = (Ret true, p2)
    /\ trace (env p2) = trace (env p1)
    /\ status (rpc p2) = status (rpc p1).
Proof.
  destruct p as [[sc tr] [cl i st act th ev sr] dir cfg mw out term].
  unfold disconnect. simpl. run.
  destruct cl as [c|]; run;
    repeat match goal with
           | |- context [hd (Ok []) ?s] =>
               is_var s; destruct s as [|[?|?] ?]; run
           | |- context [is_some ?t] => is_var t; destruct t; run
           end;
    do 2 eexists; (split; [reflexivity|]); run; repeat split.
Qed.

(* ================================================================== *)
(** * More on the command channel *)
(* ================================================================== *)

Ltac next_outcome_cases :=
  repeat match goal with
         | |- context [hd (Ok []) ?s] =>
             is_var s; destruct s as [|[?|?] ?]; run
         end.

Section ChannelMore.
Context {codec : JsonCodec}.

(** [accept_connection] never raises, whatever the sockets do and
    whatever the callback does, even a callback that raises. *)
Theorem accept_connection_never_raises
  (callback : option (PyVal -> M PyVal)) (p : Process) :
  exists r p', accept_connection callback p = (Ret r, p').
Proof.
  unfold accept_connection, try_except.
  match goal with
  | |- context [match ?body p with _ => _ end] =>
      destruct (body p) as [[r|e] p1]
  end.
  - eauto.
  - destruct (is_class BlockingIOError e); unfold ret; eauto.
Qed.

(** X9.  With no connection pending ([accept] raises, [BlockingIOError] or
    anything else) [accept_connection] returns [None] and does nothing
    more: no [recv], no callback, no close. *)
Theorem accept_connection_nothing_pending
  (callback : option (PyVal -> M PyVal)) (p : Process) (e : Exn) :
  next_outcome (env p) = Err e ->
  accept_connection callback p =
  (Ret PNone, set_env (record_call Listener_accept (env p)) p).
Proof.
  intros H. unfold accept_connection. run.
  unfold next_outcome in H. rewrite H. run.
  destruct (is_class BlockingIOError e); reflexivity.
Qed.

(** X10.  A connection that delivers no bytes is closed without a reply: the
    callback is not called and [accept_connection] returns [None]. *)
Theorem accept_connection_empty_request
  (callback : option (PyVal -> M PyVal)) (p : Process)
  (a data : bytes) (rest : list Outcome) :
  script (env p) = Ok a :: Ok data :: rest ->
  at_most 4096 data = [] ->
  exists p',
    accept_connection callback p = (Ret PNone, p')
    /\ trace (env p') =
       (trace (env p) ++
          [(Listener_accept, Ok a); (Conn_recv 4096, Ok data);
           (Conn_close, hd (Ok []) rest)])%list.
Proof.
  intros Hs He.
  destruct p as [[sc tr] m dir cfg mw out term]. simpl in *. subst sc.
  unfold accept_connection. run. rewrite He. run.
  destruct (hd (Ok []) rest) as [d'|e'] eqn:Eh; run; split_on_class; run;
    (eexists; split; [reflexivity|]; unfold record_call, next_outcome; simpl;
     rewrite <- !app_assoc; simpl; rewrite ?Eh; reflexivity).
Qed.

(** X11.  A request that decodes is handed to the callback, and what the
    callback returns is serialised and written back before the connection
    is closed; [accept_connection] returns the command.  Without a
    callback the reply is the two bytes [OK]. *)
Theorem accept_connection_replies
  (callback : option (PyVal -> M PyVal)) (p p3 : Process)
  (a data : bytes) (rest : list Outcome) (command response : PyVal) :
  script (env p) = Ok a :: Ok data :: rest ->
  at_most 4096 data <> [] ->
  loads (at_most 4096 data) = Ret command ->
  match callback with
  | Some handler => handler command (after_request p) = (Ret response, p3)
  | None => p3 = after_request p
  end ->
  exists r p',
    accept_connection callback p = (r, p')
    /\ trace (env p') =
       (trace (env p3) ++
          [(Conn_sendall match callback with
                         | Some _ => dumps response
                         | None => b_OK
                         end,
            next_outcome (env p3));
           (Conn_close, hd (Ok []) (tl (script (env p3))))])%list
    /\ ((forall e, next_outcome (env p3) <> Err e) ->
        (forall e, hd (Ok []) (tl (script (env p3))) <> Err e) ->
        r = Ret command).
Proof.
  intros Hs Hne Hl Hcb.
  destruct p as [[sc tr] m dir cfg mw out term]. simpl in Hs. subst sc.
  unfold accept_connection. run. rewrite (nonempty_true _ Hne), Hl. run.
  destruct callback as [handler|].
  - match goal with
    | |- context [handler command ?q] =>
        change q with
          (after_request
             {| env := {| script := Ok a :: Ok data :: rest; trace := tr |};
                rpc := m; profiles_dir := dir; config := cfg;
                main_window := mw; sys_stdout := out; terminal := term |})
    end.
    rewrite Hcb. run.
    destruct p3 as [[sc3 tr3] m3 dir3 cfg3 mw3 out3 term3]. run.
    next_outcome_cases; split_on_class; run;
      (do 2 eexists; split; [reflexivity|]; unfold record_call, next_outcome;
       simpl; rewrite <- ?app_assoc; simpl; split; [reflexivity|];
       intros H1 H2; try reflexivity;
       first [now elim (H1 _ eq_refl) | now elim (H2 _ eq_refl)]).
  - subst p3. unfold after_request. run.
    destruct rest as [|[?|?] rest]; run; split_on_class; run;
      try (destruct rest as [|[?|?] rest]; run; split_on_class; run);
      (do 2 eexists; split; [reflexivity|]; unfold record_call, next_outcome;
       simpl; rewrite <- ?app_assoc; simpl; split; [reflexivity|];
       intros H1 H2; try reflexivity;
       first [now elim (H1 _ eq_refl) | now elim (H2 _ eq_refl)]).
Qed.

(** X12.  When the exchange goes through and the reply decodes, [send_command]
    returns the decoded reply; what it wrote to the socket connected to
    [port] is the serialised command. *)
Theorem send_command_returns_reply
  (port : Z) (command r : PyVal) (p : Process)
  (a1 a2 a3 a4 reply a6 : bytes) (rest : list Outcome) :
  script (env p) = Ok a1 :: Ok a2 :: Ok a3 :: Ok a4 :: Ok reply :: Ok a6 :: rest ->
  at_most 4096 reply <> [] ->
  loads (at_most 4096 reply) = Ret r ->
  exists p',
    send_command port command p = (Ret r, p')
    /\ trace (env p') =
       (trace (env p) ++
          [(Socket_new, Ok a1); (Socket_settimeout 5, Ok a2);
           (Socket_connect port, Ok a3);
           (Socket_sendall (dumps command), Ok a4);
           (Socket_recv 4096, Ok reply); (Socket_close, Ok a6)])%list.
Proof.
  intros Hs Hne Hl.
  destruct p as [[sc tr] m dir cfg mw out term]. simpl in Hs. subst sc.
  unfold send_command. run. rewrite (nonempty_true _ Hne), Hl. run.
  eexists. split; [reflexivity|]. unfold record_call, next_outcome. simpl.
  rewrite <- !app_assoc. reflexivity.
Qed.
End ChannelMore.

Lemma accept_connection_nothing_pending_witness :
  fst (accept_connection (codec := ref_codec) (Some _handle_ipc_command)
         (process_of
            (world_of [Err (mkExn BlockingIOError "Resource temporarily unavailable")])
            RPCManager_init []))
  = Ret PNone.
Proof.
  rewrite (accept_connection_nothing_pending (codec := ref_codec)
             (Some _handle_ipc_command) _
             (mkExn BlockingIOError "Resource temporarily unavailable"));
    reflexivity.
Defined.

Lemma accept_connection_empty_request_witness :
  exists p',
    accept_connection (codec := ref_codec) (Some _handle_ipc_command)
      (server_with_request []) = (Ret PNone, p').
Proof.
  destruct (accept_connection_empty_request (codec := ref_codec)
              (Some _handle_ipc_command) (server_with_request []) [] [] []
              eq_refl eq_refl) as [p' [H _]].
  exists p'. exact H.
Defined.

Lemma accept_connection_replies_witness :
  exists r p',
    accept_connection (codec := ref_codec) (Some _handle_ipc_command)
      (server_with_request (ref_dumps list_profiles_command)) = (r, p')
    /\ r = Ret list_profiles_command.
Proof.
  destruct (accept_connection_replies (codec := ref_codec)
              (Some _handle_ipc_command)
              (server_with_request (ref_dumps list_profiles_command))
              (after_request (server_with_request (ref_dumps list_profiles_command)))
              [] (ref_dumps list_profiles_command) []
              list_profiles_command
              (PDict [("success", PBool true);
                      ("output", PStr ("No profiles found." ++ nl))]))
    as [r [p' [H [_ Hr]]]].
  - reflexivity.
  - vm_compute. discriminate.
  - vm_compute. reflexivity.
  - vm_compute. reflexivity.
  - exists r, p'. split; [exact H|].
    apply Hr; vm_compute; discriminate.
Defined.

Lemma send_command_returns_reply_witness :
  exists p',
    send_command (codec := ref_codec) 50123 list_profiles_command
      (process_of
         (world_of [Ok []; Ok []; Ok []; Ok [];
                    Ok (ref_dumps (PDict [("success", PBool true)])); Ok []])
         RPCManager_init [])
    = (Ret (PDict [("success", PBool true)]), p').
Proof.
  destruct (send_command_returns_reply (codec := ref_codec) 50123
              list_profiles_command (PDict [("success", PBool true)])
              (process_of
                 (world_of [Ok []; Ok []; Ok []; Ok [];
                            Ok (ref_dumps (PDict [("success", PBool true)])); Ok []])
                 RPCManager_init [])
              [] [] [] [] (ref_dumps (PDict [("success", PBool true)])) [] [])
    as [p' [H _]].
  - reflexivity.
  - vm_compute. discriminate.
  - vm_compute. reflexivity.
  - exists p'. exact H.
Defined.

(* ================================================================== *)
(** * More on the command handler *)
(* ================================================================== *)

Lemma append_assoc_str (a b c : string) : (a ++ b) ++ c = a ++ (b ++ c).
Proof. induction a; simpl; congruence. Qed.

Lemma append_nil_str (s : string) : s ++ "" = s.
Proof. induction s; simpl; congruence. Qed.

Lemma emit_nothing (p : Process) : emit "" p = p.
Proof.
  destruct p as [w m dir cfg mw [|v] term]; unfold emit; simpl;
    now rewrite append_nil_str.
Qed.

Lemma emit_emit (a b : string) (p : Process) : emit b (emit a p) = emit (a ++ b) p.
Proof.
  destruct p as [w m dir cfg mw [|v] term]; unfold emit; simpl;
    now rewrite append_assoc_str.
Qed.

Lemma print_emits (s : string) (p : Process) :
  print s p = (Ret tt, emit (s ++ nl) p).
Proof. reflexivity. Qed.

Lemma print_numbered_emits (l : list PyVal) (i : nat) (p : Process) :
  print_numbered i l p = (Ret tt, emit (numbered_lines i l) p).
Proof.
  revert i p. induction l as [|x l IH]; intros i p;
    cbn [print_numbered numbered_lines].
  - now rewrite emit_nothing.
  - unfold bind. rewrite print_emits, IH, emit_emit, append_assoc_str.
    reflexivity.
Qed.

Lemma list_profiles_returns (p : Process) :
  list_profiles p = (Ret (listed_names (profiles_dir p)), p).
Proof.
  unfold list_profiles, listed_names, bind, get, try_except, lift.
  destruct (py_sorted (collect_names (profiles_dir p))); reflexivity.
Qed.

Lemma execute_list_profiles_emits (p : Process) :
  execute_list_profiles p
  = (Ret 0%Z, emit (listing (listed_names (profiles_dir p))) p).
Proof.
  unfold execute_list_profiles, bind. rewrite list_profiles_returns.
  destruct (listed_names (profiles_dir p)) as [|x l] eqn:E;
    cbn [nonempty negb listing]; unfold bind.
  - rewrite print_emits. reflexivity.
  - rewrite print_emits, print_numbered_emits, emit_emit, append_assoc_str.
    reflexivity.
Qed.

(** X13.  [--list-profiles] gives the same text whether it is handled in the
    process itself or by a running instance: for every profile store,
    [execute_list_profiles] prints the listing (one line when there is
    no profile, else a header and the names numbered from 1, in the order
    of [list_profiles]), and the [list_profiles] command is answered with
    a success Response whose output is that same text, the process being
    left as it was. *)
Theorem list_profiles_text_local_and_remote (p : Process) :
  sys_stdout p = Terminal ->
  (exists p',
     execute_list_profiles p = (Ret 0%Z, p')
     /\ terminal p' = terminal p ++ listing (listed_names (profiles_dir p))
     /\ env p' = env p /\ rpc p' = rpc p)
  /\ _handle_ipc_command (PDict [("action", PStr "list_profiles")]) p
     = (Ret (PDict [("success", PBool true);
                    ("output", PStr (listing (listed_names (profiles_dir p))))]),
        p).
Proof.
  intros Hout. split.
  - rewrite execute_list_profiles_emits. eexists. split; [reflexivity|].
    unfold emit. rewrite Hout. repeat split.
  - unfold _handle_ipc_command, _process_ipc_command, py_get. run.
    rewrite execute_list_profiles_emits.
    destruct p as [w m dir cfg mw out term]. simpl in Hout. subst out.
    unfold emit, getvalue. run. reflexivity.
Qed.

Lemma list_profiles_text_local_and_remote_witness :
  fst (_handle_ipc_command (PDict [("action", PStr "list_profiles")])
         (owner_with_profiles []))
  = Ret (PDict [("success", PBool true);
                ("output", PStr ("No profiles found." ++ nl))]).
Proof.
  rewrite (proj2 (list_profiles_text_local_and_remote (owner_with_profiles [])
                    eq_refl)).
  reflexivity.
Defined.

(* ================================================================== *)
(** * The second invocation *)
(* ================================================================== *)

Lemma append_empty_r (s : string) : s ++ "" = s.
Proof. induction s; simpl; congruence. Qed.

Lemma truthy_profile_arg (args : Args.t) :
  truthy (profile_arg args) = true ->
  exists name, Args.profile args = Some name /\ name <> ""
               /\ profile_arg args = PStr name.
Proof.
  unfold profile_arg. destruct (Args.profile args) as [name|]; simpl;
    [|discriminate].
  intros H. exists name. repeat split.
  intros ->. discriminate.
Qed.

(** X14.  A headless invocation always has a command to forward, and that
    command is never [load_profile]: its action is [list_profiles],
    [quit], [disconnect], or [connect] together with a non-empty profile
    name.  ([--profile NAME] alone is not headless.) *)
Theorem headless_builds_a_command (args : Args.t) :
  headless args = true ->
  exists action,
    dict_get (_build_command_from_args args) "action" = Some (PStr action)
    /\ In action ["list_profiles"; "quit"; "disconnect"; "connect"]
    /\ nonempty (_build_command_from_args args) = true
    /\ (action = "connect" ->
        exists name,
          Args.profile args = Some name /\ name <> ""
          /\ dict_get (_build_command_from_args args) "profile" = Some (PStr name)).
Proof.
  unfold headless, _build_command_from_args.
  destruct args as [prof c d q l m g]. cbn [Args.list_profiles Args.quit
    Args.disconnect Args.connect].
  destruct l; [intros _; exists "list_profiles"; simpl; intuition discriminate|].
  destruct q; [intros _; exists "quit"; simpl; intuition discriminate|].
  destruct d; [intros _; exists "disconnect"; simpl; intuition discriminate|].
  rewrite !orb_false_r.
  destruct (truthy (profile_arg (Args.mk prof c false false false m g))) eqn:Et.
  - destruct (truthy_profile_arg _ Et) as [name [Hp [Hn Hv]]].
    rewrite Hv. cbn [truthy]. intros Hc. rewrite Hc.
    exists "connect". simpl.
    repeat split; auto. intros _. exists name. repeat split; auto.
  - intros H. rewrite H in Et. discriminate.
Qed.

Lemma headless_nonempty (args : Args.t) :
  headless args = true -> nonempty (_build_command_from_args args) = true.
Proof.
  unfold headless, _build_command_from_args.
  destruct args as [prof c d q l m g]. cbn [Args.list_profiles Args.quit
    Args.disconnect Args.connect].
  destruct l, q, d; try reflexivity. rewrite !orb_false_r.
  destruct (truthy (profile_arg (Args.mk prof c false false false m g))) eqn:Et.
  - cbn [truthy]. intros ->. reflexivity.
  - intros H. rewrite H in Et. discriminate.
Qed.

Lemma headless_builds_a_command_witness :
  exists action,
    dict_get (_build_command_from_args
                (Args.mk (Some "Gaming") true false false false false false))
      "action" = Some (PStr action)
    /\ In action ["list_profiles"; "quit"; "disconnect"; "connect"].
Proof.
  destruct (headless_builds_a_command
              (Args.mk (Some "Gaming") true false false false false false)
              eq_refl) as [action [H1 [H2 _]]].
  exists action. split; [exact H1|exact H2].
Defined.

Section SecondInstanceFacts.
Context {codec : JsonCodec}.

(** X15.  When the running instance answers with a Response whose [success] is
    true, the second invocation writes the [output] of the Response to
    its terminal, unchanged and without a newline of its own, and exits
    with status 0. *)
Theorem second_instance_prints_output
  (args : Args.t) (port : Z) (p : Process) (d : dict) (success : PyVal)
  (a1 a2 a3 a4 reply a6 : bytes) (rest : list Outcome) :
  headless args = true ->
  port <> 0%Z ->
  sys_stdout p = Terminal ->
  script (env p) = Ok a1 :: Ok a2 :: Ok a3 :: Ok a4 :: Ok reply :: Ok a6 :: rest ->
  at_most 4096 reply <> [] ->
  loads (at_most 4096 reply) = Ret (PDict d) ->
  dict_get d "success" = Some success ->
  truthy success = true ->
  exists p',
    run_without_lock args true (Some port) p = (Ret 0%Z, p')
    /\ terminal p' =
       terminal p ++
       match dict_get d "output" with
       | Some output => py_str output
       | None => ""
       end
    /\ In (Socket_sendall (dumps (PDict (_build_command_from_args args))), Ok a4)
         (trace (env p')).
Proof.
  intros Hh Hport Hout Hs Hne Hl Hsucc Ht.
  pose proof (headless_nonempty args Hh) as Hc.
  destruct p as [[sc tr] m dir cfg mw out term]. simpl in Hs, Hout. subst sc out.
  unfold run_without_lock.
  apply Z.eqb_neq in Hport. rewrite Hport, Hc. cbn [negb].
  unfold send_command. run. rewrite (nonempty_true _ Hne), Hl. run.
  unfold dict_get_default, dict_mem. rewrite Hsucc. run. rewrite Ht. run.
  destruct (dict_get d "output") as [output|]; run; unfold print_end; run;
    eexists; (split; [reflexivity|]); simpl;
    (split; [now rewrite ?append_empty_r|]);
    unfold record_call; simpl; rewrite !in_app_iff; simpl; tauto.
Qed.

(** X16.  A reply that decodes to something other than a dict makes the second
    invocation raise: [send_command] hands the value over and
    [response.get] fails with [AttributeError], which nothing catches. *)
Theorem second_instance_raises_on_non_dict_reply
  (args : Args.t) (port : Z) (p : Process) (r : PyVal)
  (a1 a2 a3 a4 reply a6 : bytes) (rest : list Outcome) :
  headless args = true ->
  port <> 0%Z ->
  script (env p) = Ok a1 :: Ok a2 :: Ok a3 :: Ok a4 :: Ok reply :: Ok a6 :: rest ->
  at_most 4096 reply <> [] ->
  loads (at_most 4096 reply) = Ret r ->
  (forall d, r <> PDict d) ->
  fst (run_without_lock args true (Some port) p) = Raise (no_attribute r "get").
Proof.
  intros Hh Hport Hs Hne Hl Hr.
  pose proof (headless_nonempty args Hh) as Hc.
  destruct p as [[sc tr] m dir cfg mw out term]. simpl in Hs. subst sc.
  unfold run_without_lock.
  apply Z.eqb_neq in Hport. rewrite Hport, Hc. cbn [negb].
  unfold send_command. run. rewrite (nonempty_true _ Hne), Hl. run.
  destruct r; try reflexivity. now elim (Hr d).
Qed.

(** When the connection to the recorded port is refused (or times out),
    the second invocation exits with status 1 without a [print]. *)
Theorem second_instance_reports_refused_connection
  (args : Args.t) (port : Z) (p : Process) (e : Exn)
  (a1 a2 : bytes) (rest : list Outcome) :
  headless args = true ->
  port <> 0%Z ->
  script (env p) = Ok a1 :: Ok a2 :: Err e :: rest ->
  exists p',
    run_without_lock args true (Some port) p = (Ret 1%Z, p')
    /\ terminal p' = terminal p
    /\ sys_stdout p' = sys_stdout p.
Proof.
  intros Hh Hport Hs.
  pose proof (headless_nonempty args Hh) as Hc.
  destruct p as [[sc tr] m dir cfg mw out term]. simpl in Hs. subst sc.
  unfold run_without_lock.
  apply Z.eqb_neq in Hport. rewrite Hport, Hc. cbn [negb].
  unfold send_command. run.
  destruct rest as [|[?|?] rest]; run; eexists; repeat split.
Qed.
End SecondInstanceFacts.

Lemma second_instance_prints_output_witness :
  exists p',
    run_without_lock (codec := ref_codec)
      (Args.mk None false false false true false false) true (Some 50123%Z)
      (process_of
         (world_of [Ok []; Ok []; Ok []; Ok [];
                    Ok (ref_dumps (PDict [("success", PBool true);
                                          ("output", PStr "No profiles found.")]));
                    Ok []])
         RPCManager_init [])
    = (Ret 0%Z, p')
    /\ terminal p' = "No profiles found.".
Proof.
  destruct (second_instance_prints_output (codec := ref_codec)
              (Args.mk None false false false true false false) 50123
              (process_of
                 (world_of [Ok []; Ok []; Ok []; Ok [];
                            Ok (ref_dumps (PDict [("success", PBool true);
                                                  ("output", PStr "No profiles found.")]));
                            Ok []])
                 RPCManager_init [])
              [("success", PBool true); ("output", PStr "No profiles found.")]
              (PBool true) [] [] [] []
              (ref_dumps (PDict [("success", PBool true);
                                 ("output", PStr "No profiles found.")]))
              [] [] eq_refl) as [p' [H [Ht _]]];
    try reflexivity; try discriminate.
  exists p'. split; [exact H|exact Ht].
Defined.

Lemma second_instance_raises_on_non_dict_reply_witness :
  fst (run_without_lock (codec := ref_codec)
         (Args.mk None false false false true false false) true (Some 50123%Z)
         (process_of
            (world_of [Ok []; Ok []; Ok []; Ok [];
                       Ok (list_byte_of_string "[]"); Ok []])
            RPCManager_init []))
  = Raise (mkExn AttributeError "'list' object has no attribute 'get'").
Proof.
  apply (second_instance_raises_on_non_dict_reply (codec := ref_codec)
           (Args.mk None false false false true false false) 50123
           (process_of
              (world_of [Ok []; Ok []; Ok []; Ok [];
                         Ok (list_byte_of_string "[]"); Ok []])
              RPCManager_init [])
           (PList []) [] [] [] [] (list_byte_of_string "[]") [] []);
    try reflexivity; try discriminate.
Defined.

Lemma second_instance_reports_refused_connection_witness :
  exists p',
    run_without_lock (codec := ref_codec)
      (Args.mk None false true false false false false) true (Some 50123%Z)
      (process_of (world_of [Ok []; Ok []; Err pipe_closed]) RPCManager_init [])
    = (Ret 1%Z, p')
    /\ terminal p' = "".
Proof.
  destruct (second_instance_reports_refused_connection (codec := ref_codec)
              (Args.mk None false true false false false false) 50123
              (process_of (world_of [Ok []; Ok []; Err pipe_closed])
                 RPCManager_init [])
              pipe_closed [] [] [] eq_refl) as [p' [H [Ht _]]];
    try reflexivity; try discriminate.
  exists p'. split; [exact H|exact Ht].
Defined.

(* ================================================================== *)
(** * The port file *)
(* ================================================================== *)

Section DecimalText.
Import Decimal.

(** The characters of a decimal numeral are digits. *)
Lemma numeral_chars_are_digits (d : uint) :
  Forall (fun c => is_digit c = true)
    (list_ascii_of_string (NilEmpty.string_of_uint d)).
Proof. induction d; simpl; constructor; auto. Qed.

Lemma scan_digits_from_positive (d : uint) (v : Z) (count : N) :
  (0 < v)%Z ->
  scan_digits (list_ascii_of_string (NilEmpty.string_of_uint d))
    v count AfterDigit
  = Some (Z.pos (Pos.of_uint_acc d (Z.to_pos v)),
          (count + N.of_nat (String.length (NilEmpty.string_of_uint d)))%N).
Proof.
  revert v count.
  induction d; intros v count Hv;
    cbn [NilEmpty.string_of_uint list_ascii_of_string scan_digits String.length
           Pos.of_uint_acc];
    [rewrite Z2Pos.id by lia; f_equal; f_equal; lia|..];
    (change (is_digit _) with true; cbv iota;
     rewrite IHd by (vm_compute (Z.of_N _); lia);
     f_equal; f_equal; [|lia];
     f_equal; f_equal; apply Pos2Z.inj;
     rewrite ?Pos2Z.inj_add, ?Pos2Z.inj_mul, !Z2Pos.id
       by (vm_compute (Z.of_N _); lia);
     vm_compute (Z.of_N _); lia).
Qed.

Lemma scan_digits_numeral (d : uint) (count : N) :
  scan_digits (list_ascii_of_string (NilEmpty.string_of_uint d)) 0 count AfterDigit
  = Some (Z.of_N (Pos.of_uint d),
          (count + N.of_nat (String.length (NilEmpty.string_of_uint d)))%N).
Proof.
  revert count.
  induction d; intros count;
    cbn [NilEmpty.string_of_uint list_ascii_of_string scan_digits String.length
           Pos.of_uint];
    [f_equal; f_equal; lia|..].
  1: { change (is_digit _) with true. cbv iota.
       change (10 * 0 + Z.of_N (code "0" - 48))%Z with 0%Z.
       rewrite IHd. f_equal. f_equal. lia. }
  all: change (is_digit _) with true; cbv iota;
    rewrite scan_digits_from_positive by (vm_compute; reflexivity);
    f_equal; f_equal; lia.
Qed.

Lemma scan_digits_start (s : list ascii) (c : ascii) (v : Z) (count : N) :
  is_digit c = true ->
  scan_digits (c :: s) v count AtStart = scan_digits (c :: s) v count AfterDigit.
Proof. intros H. simpl. now rewrite H. Qed.
End DecimalText.

Lemma digit_is_no_space (c : ascii) :
  is_digit c = true -> int_space c = false /\ isspace_char c = false.
Proof.
  destruct c as [[] [] [] [] [] [] [] []]; vm_compute; intros H;
    try discriminate H; split; reflexivity.
Qed.

Lemma strip_int_no_space (l : list ascii) :
  Forall (fun c => int_space c = false) l -> strip_int l = l.
Proof.
  intros H. unfold strip_int.
  assert (E : forall m, Forall (fun c => int_space c = false) m -> lstrip_int m = m).
  { intros m Hm. destruct Hm as [|c m Hc Hm]; simpl; [reflexivity|now rewrite Hc]. }
  rewrite (E l H), (E (rev l)) by now apply Forall_rev.
  apply rev_involutive.
Qed.

Lemma rstrip_no_space (s : string) :
  Forall (fun c => isspace_char c = false) (list_ascii_of_string s) ->
  rstrip s = s.
Proof.
  induction s as [|c s IH]; simpl; intros H; [reflexivity|].
  inversion H as [|? ? Hc Hs]; subst. rewrite (IH Hs).
  destruct s; [now rewrite Hc|reflexivity].
Qed.

Lemma strip_no_space (s : string) :
  Forall (fun c => isspace_char c = false) (list_ascii_of_string s) ->
  strip s = s.
Proof.
  intros H. unfold strip.
  assert (E : lstrip s = s).
  { destruct s as [|c s]; simpl; [reflexivity|].
    inversion H as [|? ? Hc Hs]; subst. now rewrite Hc. }
  rewrite E. now apply rstrip_no_space.
Qed.

(** [int(str(n))] is [n], for a natural number of at most 4300 digits. *)
Lemma py_int_str_Z (n : Z) :
  (0 <= n)%Z ->
  (N.of_nat (String.length (str_Z n)) <= max_str_digits)%N ->
  strip (str_Z n) = str_Z n /\ py_int (str_Z n) = Ret n.
Proof.
  intros Hn Hlen.
  assert (Hd : exists d, d <> Decimal.Nil /\ str_Z n = NilEmpty.string_of_uint d
                        /\ Z.of_N (Pos.of_uint d) = n).
  { destruct n as [|p|p]; [| |lia].
    - exists (Decimal.D0 Decimal.Nil). repeat split. discriminate.
    - exists (Pos.to_uint p). split; [apply DecimalPos.Unsigned.to_uint_nonnil|].
      split.
      + unfold str_Z. simpl. unfold NilZero.string_of_uint.
        pose proof (DecimalPos.Unsigned.to_uint_nonnil p) as Hnil.
        destruct (Pos.to_uint p); congruence.
      + now rewrite DecimalPos.Unsigned.of_to. }
  destruct Hd as [d [Hnil [Hs Hv]]]. rewrite Hs in *.
  pose proof (numeral_chars_are_digits d) as Hdig.
  split.
  - apply strip_no_space. eapply Forall_impl; [|exact Hdig].
    intros c Hc. now apply digit_is_no_space.
  - unfold py_int. rewrite strip_int_no_space
      by (eapply Forall_impl; [|exact Hdig]; intros c Hc; now apply digit_is_no_space).
    destruct (list_ascii_of_string (NilEmpty.string_of_uint d)) as [|c r] eqn:E.
    { destruct d; discriminate || congruence. }
    inversion Hdig as [|? ? Hc Hr]; subst.
    assert (Hm : Ascii.eqb c "-" = false /\ Ascii.eqb c "+" = false).
    { destruct c as [[] [] [] [] [] [] [] []]; vm_compute in Hc;
        try discriminate Hc; split; reflexivity. }
    destruct Hm as [-> ->].
    rewrite (scan_digits_start r c 0 0 Hc), <- E, scan_digits_numeral.
    rewrite N.add_0_l.
    destruct (max_str_digits <? _)%N eqn:El;
      [apply N.ltb_lt in El; lia|reflexivity].
Qed.

(** X17.  What [save_port] wrote is what [get_port] reads: a port number (of
    at most 4300 digits, as every number that [int()] converts) comes
    back unchanged, whatever the port file held before. *)
Theorem saved_port_is_read_back (port : Z) (port_file : TextFile) :
  (0 <= port)%Z ->
  (N.of_nat (String.length (str_Z port)) <= max_str_digits)%N ->
  get_port (save_port Written port port_file) = Some port.
Proof.
  intros Hp Hlen. destruct (py_int_str_Z port Hp Hlen) as [Hs Hi].
  unfold get_port, save_port, rbind. now rewrite Hs, Hi.
Qed.

Lemma saved_port_is_read_back_witness :
  get_port (save_port Written 50123 (Some (Ret "garbage"))) = Some 50123%Z.
Proof.
  apply (saved_port_is_read_back 50123 (Some (Ret "garbage"))).
  - lia.
  - vm_compute. discriminate.
Defined.

(** Without a usable port file there is no port: a missing file, a file
    that cannot be read and a blank file all give [None], and so does a
    write that failed after opening the file. *)
Theorem get_port_without_number (port : Z) (e : Exn) :
  get_port None = None
  /\ get_port (Some (Raise e)) = None
  /\ (forall text, strip text = "" -> get_port (Some (Ret text)) = None)
  /\ (forall port_file, get_port (save_port (WriteFailed e) port port_file) = None)
  /\ (forall port_file,
        get_port (save_port (OpenFailed e) port port_file) = get_port port_file).
Proof.
  repeat split; try reflexivity.
  intros text H. unfold get_port, rbind. now rewrite H.
Qed.

(* ================================================================== *)
(** * The profile store *)
(* ================================================================== *)

(** ** Sorting the names *)

Lemma insert_sorted_str (x : string) (l : list string) :
  insert_sorted (PStr x) (map PStr l) = Ret (map PStr (insert_str x l)).
Proof.
  induction l as [|y l IH]; simpl; [reflexivity|].
  destruct (String.ltb x y); simpl; [reflexivity|].
  now rewrite IH.
Qed.

Lemma py_sorted_from (l acc : list string) :
  fold_left (fun a x => rbind a (insert_sorted x)) (map PStr l)
    (Ret (map PStr acc))
  = Ret (map PStr (fold_left (fun a x => insert_str x a) l acc)).
Proof.
  revert acc. induction l as [|x l IH]; intros acc; simpl; [reflexivity|].
  now rewrite insert_sorted_str, IH.
Qed.

Lemma py_sorted_str (l : list string) :
  py_sorted (map PStr l) = Ret (map PStr (sort_str l)).
Proof. apply (py_sorted_from l []). Qed.

Lemma insert_str_perm (x : string) (l : list string) :
  Permutation (x :: l) (insert_str x l).
Proof.
  induction l as [|y l IH]; simpl; [reflexivity|].
  destruct (String.ltb x y); [reflexivity|].
  rewrite perm_swap. now constructor.
Qed.

Lemma sort_str_perm (l : list string) : Permutation l (sort_str l).
Proof.
  unfold sort_str.
  assert (H : forall acc,
             Permutation (l ++ acc) (fold_left (fun a x => insert_str x a) l acc)).
  { induction l as [|x l IH]; intros acc; simpl; [reflexivity|].
    rewrite <- IH. rewrite <- insert_str_perm.
    now rewrite Permutation_middle. }
  specialize (H []). now rewrite app_nil_r in H.
Qed.

Lemma ltb_asym (a b : string) : String.ltb a b = true -> String.ltb b a = false.
Proof.
  unfold String.ltb. rewrite (String.compare_antisym b a).
  destruct (String.compare a b); simpl; congruence.
Qed.

Lemma insert_str_sorted (x : string) (l : list string) :
  Sorted str_le l -> Sorted str_le (insert_str x l).
Proof.
  induction l as [|y l IH]; simpl; intros H.
  - repeat constructor.
  - destruct (String.ltb x y) eqn:E.
    + constructor; [assumption|]. constructor. now apply ltb_asym.
    + inversion H as [|? ? Hs Hh]; subst.
      constructor; [now apply IH|].
      destruct l as [|z l]; simpl.
      * constructor. exact E.
      * destruct (String.ltb x z); constructor; [exact E|].
        now inversion Hh.
Qed.

Lemma sort_str_sorted (l : list string) : Sorted str_le (sort_str l).
Proof.
  unfold sort_str.
  assert (H : forall acc, Sorted str_le acc ->
             Sorted str_le (fold_left (fun a x => insert_str x a) l acc)).
  { induction l as [|x l IH]; intros acc Hacc; simpl; [assumption|].
    apply IH. now apply insert_str_sorted. }
  apply H. constructor.
Qed.

(** X18.  When every name found in the store is a [str], [list_profiles]
    returns those names, each as often as it was found, in ascending
    order; it reads the store and changes nothing. *)
Theorem list_profiles_sorts_names (p : Process) (names : list string) :
  collect_names (profiles_dir p) = map PStr names ->
  exists sorted,
    list_profiles p = (Ret (map PStr sorted), p)
    /\ Permutation names sorted
    /\ Sorted str_le sorted.
Proof.
  intros H. exists (sort_str names).
  unfold list_profiles, bind, get, try_except, lift.
  rewrite H, py_sorted_str.
  split; [reflexivity|]. split; [apply sort_str_perm|apply sort_str_sorted].
Qed.

Lemma list_profiles_sorts_names_witness :
  exists sorted,
    list_profiles (owner_with_profiles Gaming_and_Work)
    = (Ret (map PStr sorted), owner_with_profiles Gaming_and_Work)
    /\ Permutation ["Work"; "Gaming"] sorted.
Proof.
  destruct (list_profiles_sorts_names (owner_with_profiles Gaming_and_Work)
              ["Work"; "Gaming"] eq_refl) as [sorted [H [Hp _]]].
  exists sorted. split; [exact H|exact Hp].
Defined.

(** ** Lookup after a write or a removal *)

Lemma dir_lookup_write_same (d : Dir) (n : string) (b : FileBody) :
  dir_lookup (dir_write d n b) n = Some b.
Proof.
  induction d as [|[k v] d IH]; simpl.
  - now rewrite String.eqb_refl.
  - destruct (String.eqb n k) eqn:E; simpl; rewrite E; [reflexivity|exact IH].
Qed.

Lemma dir_lookup_write_other (d : Dir) (n m : string) (b : FileBody) :
  m <> n -> dir_lookup (dir_write d n b) m = dir_lookup d m.
Proof.
  intros Hne. induction d as [|[k v] d IH]; simpl.
  - apply String.eqb_neq in Hne. now rewrite Hne.
  - destruct (String.eqb n k) eqn:E; simpl.
    + apply String.eqb_eq in E. subst k.
      apply String.eqb_neq in Hne. now rewrite Hne.
    + now rewrite IH.
Qed.

Lemma dir_lookup_remove_same (d : Dir) (n : string) :
  dir_lookup (dir_remove d n) n = None.
Proof.
  induction d as [|[k v] d IH]; simpl; [reflexivity|].
  destruct (String.eqb n k) eqn:E; simpl; [exact IH|].
  now rewrite E.
Qed.

Lemma dir_lookup_remove_other (d : Dir) (n m : string) :
  m <> n -> dir_lookup (dir_remove d n) m = dir_lookup d m.
Proof.
  intros Hne. induction d as [|[k v] d IH]; simpl; [reflexivity|].
  destruct (String.eqb n k) eqn:E; simpl.
  - apply String.eqb_eq in E. subst k.
    apply String.eqb_neq in Hne. now rewrite Hne.
  - now rewrite IH.
Qed.

Ltac on_path Hpath :=
  unfold_monad; rewrite ?Hpath; simpl.

(** ** Creating, loading, deleting *)

(** X19.  A profile created under a free name is loaded back as the data given,
    with the name and the two clock readings added; no other file of the
    store changes, and nothing outside the store does. *)
Theorem create_profile_then_load (now1 now2 : string) (name : PyVal)
  (data : dict) (path : string) (p : Process) :
  _get_profile_path name = Ret path ->
  dir_lookup (profiles_dir p) path = None ->
  exists p',
    create_profile now1 now2 Written name (PDict data) p = (Ret true, p')
    /\ load_profile name p'
       = (Ret (PDict (with_metadata data name (PStr now1) (PStr now2))), p')
    /\ (forall other, other <> path ->
          dir_lookup (profiles_dir p') other = dir_lookup (profiles_dir p) other)
    /\ env p' = env p /\ rpc p' = rpc p /\ config p' = config p.
Proof.
  intros Hpath Hfree.
  eexists. split; [|split; [|split]].
  - unfold create_profile, path_exists. on_path Hpath.
    rewrite Hfree. simpl. reflexivity.
  - unfold load_profile. on_path Hpath.
    rewrite dir_lookup_write_same. reflexivity.
  - intros other Hne. simpl. now apply dir_lookup_write_other.
  - simpl. auto.
Qed.

Lemma create_profile_then_load_witness :
  exists p',
    create_profile "2024-05-01T10:00:00" "2024-05-01T10:00:01" Written
      (PStr "Chill") (PDict [("app_id", PStr "333333333333333333")])
      (owner_with_profiles Gaming_and_Work) = (Ret true, p')
    /\ load_profile (PStr "Chill") p'
       = (Ret (PDict [("app_id", PStr "333333333333333333");
                      ("name", PStr "Chill");
                      ("created_at", PStr "2024-05-01T10:00:00");
                      ("updated_at", PStr "2024-05-01T10:00:01")]), p').
Proof.
  destruct (create_profile_then_load "2024-05-01T10:00:00" "2024-05-01T10:00:01"
              (PStr "Chill") [("app_id", PStr "333333333333333333")]
              "Chill.json" (owner_with_profiles Gaming_and_Work)
              eq_refl eq_refl) as [p' [H1 [H2 _]]].
  exists p'. split; [exact H1|exact H2].
Defined.

(** X20.  [create_profile] never overwrites: when the file that the name stands
    for exists, it returns [False] and changes nothing, whatever the data
    and whether or not the name stored in that file is the same. *)
Theorem create_profile_never_overwrites (now1 now2 : string) (io : WriteOutcome)
  (name data : PyVal) (path : string) (body : FileBody) (p : Process) :
  _get_profile_path name = Ret path ->
  dir_lookup (profiles_dir p) path = Some body ->
  create_profile now1 now2 io name data p = (Ret false, p).
Proof.
  intros Hpath Hthere.
  unfold create_profile, path_exists. on_path Hpath.
  now rewrite Hthere.
Qed.

Lemma create_profile_never_overwrites_witness :
  create_profile "2024-05-01T10:00:00" "2024-05-01T10:00:01" Written
    (PStr "Gam/ing") (PDict []) (owner_with_profiles Gaming_and_Work)
  = (Ret false, owner_with_profiles Gaming_and_Work).
Proof.
  apply (create_profile_never_overwrites _ _ _ _ _ "Gaming.json"
           (profile_doc "Gaming" "111111111111111111"));
    reflexivity.
Defined.

(** X21.  After [delete_profile] removed a profile, it cannot be loaded, a
    second delete returns [False], and no other file changed. *)
Theorem delete_profile_removes (name : PyVal) (path : string) (body : FileBody)
  (p : Process) :
  _get_profile_path name = Ret path ->
  dir_lookup (profiles_dir p) path = Some body ->
  exists p',
    delete_profile None name p = (Ret true, p')
    /\ load_profile name p' = (Ret PNone, p')
    /\ delete_profile None name p' = (Ret false, p')
    /\ (forall other, other <> path ->
          dir_lookup (profiles_dir p') other = dir_lookup (profiles_dir p) other).
Proof.
  intros Hpath Hthere.
  eexists. split; [|split; [|split]].
  - unfold delete_profile, path_exists, unlink. on_path Hpath.
    rewrite Hthere. simpl. reflexivity.
  - unfold load_profile. on_path Hpath.
    now rewrite dir_lookup_remove_same.
  - unfold delete_profile, path_exists. on_path Hpath.
    now rewrite dir_lookup_remove_same.
  - intros other Hne. simpl. now apply dir_lookup_remove_other.
Qed.

Lemma delete_profile_removes_witness :
  exists p',
    delete_profile None (PStr "Work") (owner_with_profiles Gaming_and_Work)
    = (Ret true, p')
    /\ load_profile (PStr "Work") p' = (Ret PNone, p')
    /\ dir_lookup (profiles_dir p') "Gaming.json"
       = Some (profile_doc "Gaming" "111111111111111111").
Proof.
  destruct (delete_profile_removes (PStr "Work") "Work.json"
              (profile_doc "Work" "222222222222222222")
              (owner_with_profiles Gaming_and_Work) eq_refl eq_refl)
    as [p' [H1 [H2 [_ H4]]]].
  exists p'. split; [exact H1|]. split; [exact H2|].
  rewrite H4; [reflexivity|discriminate].
Defined.

(** ** Renaming *)

Lemma nonempty_dict_is_truthy (data : dict) :
  data <> [] -> match data with [] => false | _ :: _ => true end = true.
Proof. destruct data; congruence. Qed.

Lemma free_path_differs (d : Dir) (a b : string) (body : FileBody) :
  dir_lookup d a = Some body -> dir_lookup d b = None -> a <> b.
Proof. intros Ha Hb E. subst. congruence. Qed.

(** X22.  Renaming a readable, non-empty profile to a free name moves it: the
    old name no longer loads, the new name loads the same data with its
    [name] replaced, and no file but these two changed. *)
Theorem rename_profile_moves (old_name new_name : PyVal) (old_path new_path : string)
  (data : dict) (p : Process) :
  _get_profile_path old_name = Ret old_path ->
  _get_profile_path new_name = Ret new_path ->
  dir_lookup (profiles_dir p) old_path = Some (Doc (PDict data)) ->
  data <> [] ->
  dir_lookup (profiles_dir p) new_path = None ->
  exists p',
    rename_profile Written None old_name new_name p = (Ret true, p')
    /\ load_profile old_name p' = (Ret PNone, p')
    /\ load_profile new_name p'
       = (Ret (PDict (dict_set data "name" new_name)), p')
    /\ (forall other, other <> old_path -> other <> new_path ->
          dir_lookup (profiles_dir p') other = dir_lookup (profiles_dir p) other).
Proof.
  intros Hold Hnew Hthere Hdata Hfree.
  pose proof (free_path_differs _ _ _ _ Hthere Hfree) as Hne.
  eexists. split; [|split; [|split]].
  - unfold rename_profile, path_exists, load_profile, unlink.
    on_path Hold. on_path Hnew. rewrite Hthere. simpl. rewrite Hfree. simpl.
    on_path Hold. rewrite Hthere.
    cbn [truthy]. rewrite (nonempty_dict_is_truthy data Hdata). reflexivity.
  - unfold load_profile. on_path Hold.
    now rewrite dir_lookup_remove_same.
  - unfold load_profile. on_path Hnew.
    rewrite dir_lookup_remove_other by congruence.
    now rewrite dir_lookup_write_same.
  - intros other H1 H2. simpl.
    rewrite dir_lookup_remove_other by assumption.
    now apply dir_lookup_write_other.
Qed.

Lemma rename_profile_moves_witness :
  exists p',
    rename_profile Written None (PStr "Work") (PStr "Office")
      (owner_with_profiles Gaming_and_Work) = (Ret true, p')
    /\ load_profile (PStr "Work") p' = (Ret PNone, p')
    /\ load_profile (PStr "Office") p'
       = (Ret (PDict [("app_id", PStr "222222222222222222");
                      ("details", PStr "In a match");
                      ("name", PStr "Office")]), p').
Proof.
  destruct (rename_profile_moves (PStr "Work") (PStr "Office")
              "Work.json" "Office.json"
              [("app_id", PStr "222222222222222222");
               ("details", PStr "In a match"); ("name", PStr "Work")]
              (owner_with_profiles Gaming_and_Work)
              eq_refl eq_refl eq_refl ltac:(discriminate) eq_refl)
    as [p' [H1 [H2 [H3 _]]]].
  exists p'. split; [exact H1|]. split; [exact H2|exact H3].
Defined.

(** X23.  When the new file was written but removing the old one fails,
    [rename_profile] returns [False] and leaves the profile under both
    names. *)
Theorem rename_profile_failed_unlink_leaves_both (e : Exn)
  (old_name new_name : PyVal) (old_path new_path : string)
  (data : dict) (p : Process) :
  _get_profile_path old_name = Ret old_path ->
  _get_profile_path new_name = Ret new_path ->
  dir_lookup (profiles_dir p) old_path = Some (Doc (PDict data)) ->
  data <> [] ->
  dir_lookup (profiles_dir p) new_path = None ->
  exists p',
    rename_profile Written (Some e) old_name new_name p = (Ret false, p')
    /\ load_profile old_name p' = (Ret (PDict data), p')
    /\ load_profile new_name p'
       = (Ret (PDict (dict_set data "name" new_name)), p').
Proof.
  intros Hold Hnew Hthere Hdata Hfree.
  pose proof (free_path_differs _ _ _ _ Hthere Hfree) as Hne.
  eexists. split; [|split].
  - unfold rename_profile, path_exists, load_profile, unlink.
    on_path Hold. on_path Hnew. rewrite Hthere. simpl. rewrite Hfree. simpl.
    on_path Hold. rewrite Hthere.
    cbn [truthy]. rewrite (nonempty_dict_is_truthy data Hdata). reflexivity.
  - unfold load_profile. on_path Hold.
    rewrite dir_lookup_write_other by assumption.
    now rewrite Hthere.
  - unfold load_profile. on_path Hnew.
    now rewrite dir_lookup_write_same.
Qed.

Lemma rename_profile_failed_unlink_leaves_both_witness :
  exists p',
    rename_profile Written (Some (mkExn OtherError "Access is denied"))
      (PStr "Work") (PStr "Office")
      (owner_with_profiles Gaming_and_Work) = (Ret false, p')
    /\ load_profile (PStr "Work") p'
       = (Ret (PDict [("app_id", PStr "222222222222222222");
                      ("details", PStr "In a match");
                      ("name", PStr "Work")]), p').
Proof.
  destruct (rename_profile_failed_unlink_leaves_both
              (mkExn OtherError "Access is denied")
              (PStr "Work") (PStr "Office") "Work.json" "Office.json"
              [("app_id", PStr "222222222222222222");
               ("details", PStr "In a match"); ("name", PStr "Work")]
              (owner_with_profiles Gaming_and_Work)
              eq_refl eq_refl eq_refl ltac:(discriminate) eq_refl)
    as [p' [H1 [H2 _]]].
  exists p'. split; [exact H1|exact H2].
Defined.

(** ** Updating *)

(** X24.  [update_profile] on a readable profile replaces the data and keeps
    the creation time of the file it replaces (the first clock reading
    only when that file has none); the second clock reading becomes the
    modification time. *)
Theorem update_profile_keeps_created_at (now1 now2 : string) (name : PyVal)
  (old data : dict) (path : string) (p : Process) :
  _get_profile_path name = Ret path ->
  dir_lookup (profiles_dir p) path = Some (Doc (PDict old)) ->
  exists p',
    update_profile now1 now2 Written name (PDict data) p = (Ret true, p')
    /\ load_profile name p'
       = (Ret (PDict (with_metadata data name
                        (dict_get_default old "created_at" (PStr now1))
                        (PStr now2))), p')
    /\ (forall other, other <> path ->
          dir_lookup (profiles_dir p') other = dir_lookup (profiles_dir p) other).
Proof.
  intros Hpath Hthere.
  eexists. split; [|split].
  - unfold update_profile, path_exists, load_profile. on_path Hpath.
    rewrite Hthere. simpl. on_path Hpath. rewrite Hthere. simpl. reflexivity.
  - unfold load_profile. on_path Hpath.
    now rewrite dir_lookup_write_same.
  - intros other Hne. simpl. now apply dir_lookup_write_other.
Qed.

Lemma update_profile_keeps_created_at_witness :
  exists p',
    update_profile "2024-06-01T08:00:00" "2024-06-01T08:00:01" Written
      (PStr "Work") (PDict [("app_id", PStr "444444444444444444")])
      (owner_with_profiles
         [("Work.json",
           Doc (PDict [("app_id", PStr "222222222222222222");
                       ("name", PStr "Work");
                       ("created_at", PStr "2024-05-01T10:00:00");
                       ("updated_at", PStr "2024-05-01T10:00:01")]))])
    = (Ret true, p')
    /\ load_profile (PStr "Work") p'
       = (Ret (PDict [("app_id", PStr "444444444444444444");
                      ("name", PStr "Work");
                      ("created_at", PStr "2024-05-01T10:00:00");
                      ("updated_at", PStr "2024-06-01T08:00:01")]), p').
Proof.
  destruct (update_profile_keeps_created_at
              "2024-06-01T08:00:00" "2024-06-01T08:00:01" (PStr "Work")
              [("app_id", PStr "222222222222222222");
               ("name", PStr "Work");
               ("created_at", PStr "2024-05-01T10:00:00");
               ("updated_at", PStr "2024-05-01T10:00:01")]
              [("app_id", PStr "444444444444444444")]
              "Work.json"
              (owner_with_profiles
                 [("Work.json",
                   Doc (PDict [("app_id", PStr "222222222222222222");
                               ("name", PStr "Work");
                               ("created_at", PStr "2024-05-01T10:00:00");
                               ("updated_at", PStr "2024-05-01T10:00:01")]))])
              eq_refl eq_refl) as [p' [H1 [H2 _]]].
  exists p'. split; [exact H1|exact H2].
Defined.

(** X25.  [update_profile] neither creates a missing profile nor repairs one
    whose file cannot be parsed: in both cases it returns [False] and
    writes nothing, whatever the new data. *)
Theorem update_profile_needs_readable_file (now1 now2 : string) (io : WriteOutcome)
  (name data : PyVal) (path : string) (p : Process) :
  _get_profile_path name = Ret path ->
  (dir_lookup (profiles_dir p) path = None
   \/ exists e, dir_lookup (profiles_dir p) path = Some (Unreadable e)) ->
  update_profile now1 now2 io name data p = (Ret false, p).
Proof.
  intros Hpath [Hnone | [e Hbad]].
  - unfold update_profile, path_exists. on_path Hpath. now rewrite Hnone.
  - unfold update_profile, path_exists, load_profile. on_path Hpath.
    rewrite Hbad. simpl. on_path Hpath. rewrite Hbad. simpl.
    destruct data; reflexivity.
Qed.

Lemma update_profile_needs_readable_file_witness :
  update_profile "2024-06-01T08:00:00" "2024-06-01T08:00:01" Written
    (PStr "Work") (PDict [("app_id", PStr "444444444444444444")])
    (owner_with_profiles [("Work.json", truncated_file)])
  = (Ret false, owner_with_profiles [("Work.json", truncated_file)]).
Proof.
  apply (update_profile_needs_readable_file _ _ _ _ _ "Work.json");
    [reflexivity|].
  right. eexists. reflexivity.
Defined.

(** ** Duplicating and importing *)

(** Duplicating a readable, non-empty profile under a free name gives a
    profile with the same data, the new name and fresh times, and leaves
    the source as it was. *)
Theorem duplicate_profile_copies (now1 now2 : string) (source_name new_name : PyVal)
  (source_path new_path : string) (data : dict) (p : Process) :
  _get_profile_path source_name = Ret source_path ->
  _get_profile_path new_name = Ret new_path ->
  dir_lookup (profiles_dir p) source_path = Some (Doc (PDict data)) ->
  data <> [] ->
  dir_lookup (profiles_dir p) new_path = None ->
  exists p',
    duplicate_profile now1 now2 Written source_name new_name p = (Ret true, p')
    /\ load_profile new_name p'
       = (Ret (PDict (with_metadata data new_name (PStr now1) (PStr now2))), p')
    /\ load_profile source_name p' = (Ret (PDict data), p').
Proof.
  intros Hsrc Hnew Hthere Hdata Hfree.
  pose proof (free_path_differs _ _ _ _ Hthere Hfree) as Hne.
  eexists. split; [|split].
  - unfold duplicate_profile, create_profile, path_exists, load_profile.
    on_path Hsrc. rewrite Hthere.
    cbn [truthy]. rewrite (nonempty_dict_is_truthy data Hdata). simpl.
    on_path Hnew. rewrite Hfree. simpl. reflexivity.
  - unfold load_profile. on_path Hnew.
    now rewrite dir_lookup_write_same.
  - unfold load_profile. on_path Hsrc.
    rewrite dir_lookup_write_other by assumption.
    now rewrite Hthere.
Qed.

Lemma duplicate_profile_copies_witness :
  exists p',
    duplicate_profile "2024-06-01T08:00:00" "2024-06-01T08:00:01" Written
      (PStr "Work") (PStr "Work 2") (owner_with_profiles Gaming_and_Work)
    = (Ret true, p')
    /\ load_profile (PStr "Work 2") p'
       = (Ret (PDict [("app_id", PStr "222222222222222222");
                      ("details", PStr "In a match");
                      ("name", PStr "Work 2");
                      ("created_at", PStr "2024-06-01T08:00:00");
                      ("updated_at", PStr "2024-06-01T08:00:01")]), p').
Proof.
  destruct (duplicate_profile_copies
              "2024-06-01T08:00:00" "2024-06-01T08:00:01"
              (PStr "Work") (PStr "Work 2") "Work.json" "Work 2.json"
              [("app_id", PStr "222222222222222222");
               ("details", PStr "In a match"); ("name", PStr "Work")]
              (owner_with_profiles Gaming_and_Work)
              eq_refl eq_refl eq_refl ltac:(discriminate) eq_refl)
    as [p' [H1 [H2 _]]].
  exists p'. split; [exact H1|exact H2].
Defined.

(** [import_profile] without a name takes the name stored in the
    imported document, or the stem of the imported file when the document
    has none, and creates the profile under it. *)
Theorem import_profile_takes_stored_name (now1 now2 import_stem : string)
  (data : dict) (path : string) (p : Process) :
  let name := dict_get_default data "name" (PStr import_stem) in
  _get_profile_path name = Ret path ->
  dir_lookup (profiles_dir p) path = None ->
  exists p',
    import_profile now1 now2 Written (Doc (PDict data)) import_stem PNone p
    = (Ret true, p')
    /\ load_profile name p'
       = (Ret (PDict (with_metadata data name (PStr now1) (PStr now2))), p').
Proof.
  intros name Hpath Hfree.
  eexists. split.
  - unfold import_profile, create_profile, path_exists. on_path Hpath.
    fold name. on_path Hpath. rewrite Hfree. simpl.
    on_path Hpath. rewrite Hfree. simpl. reflexivity.
  - unfold load_profile. on_path Hpath.
    now rewrite dir_lookup_write_same.
Qed.

Lemma import_profile_takes_stored_name_witness :
  exists p',
    import_profile "2024-06-01T08:00:00" "2024-06-01T08:00:01" Written
      (Doc (PDict [("app_id", PStr "555555555555555555")])) "shared" PNone
      (owner_with_profiles Gaming_and_Work)
    = (Ret true, p')
    /\ load_profile (PStr "shared") p'
       = (Ret (PDict [("app_id", PStr "555555555555555555");
                      ("name", PStr "shared");
                      ("created_at", PStr "2024-06-01T08:00:00");
                      ("updated_at", PStr "2024-06-01T08:00:01")]), p').
Proof.
  destruct (import_profile_takes_stored_name
              "2024-06-01T08:00:00" "2024-06-01T08:00:01" "shared"
              [("app_id", PStr "555555555555555555")] "shared.json"
              (owner_with_profiles Gaming_and_Work) eq_refl eq_refl)
    as [p' [H1 H2]].
  exists p'. split; [exact H1|exact H2].
Defined.

(** ** The file name of a profile *)

Lemma keep_in_name_char (c : ascii) :
  keep_in_name (PStr (String c "")) = Ret (name_char c).
Proof.
  unfold keep_in_name, isalnum, name_char. simpl.
  rewrite andb_true_r.
  destruct (isalnum_char c); simpl; [reflexivity|].
  destruct (Ascii.eqb c " "), (Ascii.eqb c "-"), (Ascii.eqb c "_"); reflexivity.
Qed.

Lemma join_kept_chars (l : list ascii) :
  join_kept (map (fun c => PStr (String c "")) l)
  = Ret (string_of_list_ascii (filter name_char l)).
Proof.
  induction l as [|c l IH]; [reflexivity|].
  cbn [map join_kept]. rewrite keep_in_name_char, IH. cbn [rbind].
  cbn [filter]. destruct (name_char c); reflexivity.
Qed.

Lemma lstrip_keeps (P : ascii -> bool) (s : string) :
  forallb P (list_ascii_of_string s) = true ->
  forallb P (list_ascii_of_string (lstrip s)) = true.
Proof.
  induction s as [|c s IH]; simpl; [auto|].
  intros H. apply andb_true_iff in H. destruct H as [Hc Hs].
  destruct (isspace_char c); [now apply IH|].
  simpl. now rewrite Hc, Hs.
Qed.

Lemma rstrip_keeps (P : ascii -> bool) (s : string) :
  forallb P (list_ascii_of_string s) = true ->
  forallb P (list_ascii_of_string (rstrip s)) = true.
Proof.
  induction s as [|c s IH]; simpl; [auto|].
  intros H. apply andb_true_iff in H. destruct H as [Hc Hs].
  specialize (IH Hs).
  destruct (rstrip s) as [|c' r].
  - destruct (isspace_char c); simpl; [reflexivity|now rewrite Hc].
  - cbn [list_ascii_of_string forallb]. rewrite Hc. exact IH.
Qed.

Lemma get_profile_path_str (s : string) :
  _get_profile_path (PStr s)
  = Ret (strip (string_of_list_ascii (filter name_char (list_ascii_of_string s)))
           ++ ".json").
Proof.
  unfold _get_profile_path. cbn [py_iter rbind].
  now rewrite join_kept_chars.
Qed.

(** X26.  For every [str] name the file name of the profile is a text of
    letters, digits, spaces, hyphens and underscores followed by
    [.json]: no separator and no dot of the name reaches the file
    system. *)
Theorem get_profile_path_is_sanitised (s : string) :
  exists safe,
    _get_profile_path (PStr s) = Ret (safe ++ ".json")
    /\ forallb name_char (list_ascii_of_string safe) = true.
Proof.
  eexists. split; [apply get_profile_path_str|].
  unfold strip. apply rstrip_keeps, lstrip_keeps.
  rewrite list_ascii_of_string_of_list_ascii.
  apply forallb_forall. intros c Hc. now apply filter_In in Hc.
Qed.

(** With [str] names, the operations that write report every failure by
    [False]: none of them raises, whatever the data, the state of the
    store and the answers of the file system. *)
Theorem profile_writes_never_raise (now1 now2 : string) (io : WriteOutcome)
  (unlink_error : option Exn) (s s' : string) (data : PyVal) (p : Process) :
  (exists b p', create_profile now1 now2 io (PStr s) data p = (Ret b, p'))
  /\ (exists b p', update_profile now1 now2 io (PStr s) data p = (Ret b, p'))
  /\ (exists b p', delete_profile unlink_error (PStr s) p = (Ret b, p'))
  /\ (exists b p',
        rename_profile io unlink_error (PStr s) (PStr s') p = (Ret b, p')).
Proof.
  pose proof (get_profile_path_str s) as Hs.
  pose proof (get_profile_path_str s') as Hs'.
  repeat split.
  - unfold create_profile, path_exists. unfold bind at 1, lift at 1.
    rewrite Hs. unfold bind at 1, bind at 1, get at 1, ret at 1.
    destruct (is_some _); [now eexists; eexists|].
    unfold try_except.
    match goal with |- context [match ?m p with _ => _ end] =>
      destruct (m p) as [[b|e] q] end; now eexists; eexists.
  - unfold update_profile, path_exists. unfold bind at 1, lift at 1.
    rewrite Hs. unfold bind at 1, bind at 1, get at 1, ret at 1.
    destruct (is_some _); cbn [negb]; [|now eexists; eexists].
    unfold try_except.
    match goal with |- context [match ?m p with _ => _ end] =>
      destruct (m p) as [[b|e] q] end; now eexists; eexists.
  - unfold delete_profile, path_exists. unfold bind at 1, lift at 1.
    rewrite Hs. unfold bind at 1, bind at 1, get at 1, ret at 1.
    destruct (is_some _); cbn [negb]; [|now eexists; eexists].
    unfold try_except.
    match goal with |- context [match ?m p with _ => _ end] =>
      destruct (m p) as [[b|e] q] end; now eexists; eexists.
  - unfold rename_profile, path_exists. unfold bind at 1, lift at 1.
    rewrite Hs. unfold bind at 1, lift at 1. rewrite Hs'.
    unfold bind at 1, bind at 1, get at 1, ret at 1.
    destruct (is_some _); cbn [negb]; [|now eexists; eexists].
    unfold bind at 1, bind at 1, get at 1, ret at 1.
    destruct (is_some _); [now eexists; eexists|].
    unfold try_except.
    match goal with |- context [match ?m p with _ => _ end] =>
      destruct (m p) as [[b|e] q] end; now eexists; eexists.
Qed.

(* ================================================================== *)
(** * The two activity builders and [execute_connect] *)
(* ================================================================== *)

Lemma count_cases (profile : dict) (key : string) :
  count_or_absent profile key = true ->
  dict_get profile key = None
  \/ dict_get profile key = Some (PInt 0)
  \/ exists n, dict_get profile key = Some (PInt n) /\ (0 < n)%Z.
Proof.
  unfold count_or_absent.
  destruct (dict_get profile key) as [[| | n | | |]|]; try discriminate; auto.
  intros H. apply Z.leb_le in H.
  destruct (Z.eq_dec n 0) as [->|Hn]; [auto|].
  right; right. exists n. split; [reflexivity|lia].
Qed.

Lemma positive_is_truthy (n : Z) : (0 < n)%Z -> negb (n =? 0)%Z = true.
Proof. intros H. destruct (Z.eqb_spec n 0); [lia|reflexivity]. Qed.

Lemma positive_gtb (n : Z) : (0 < n)%Z -> (n >? 0)%Z = true.
Proof. intros H. apply Z.gtb_lt. exact H. Qed.

(** X27.  On a profile whose party fields are absent or counts, the builder of
    the command line gives the activity that the builder of the
    application gives. *)
Theorem cli_builder_agrees_on_counts (profile : dict) :
  count_or_absent profile "party_size" = true ->
  count_or_absent profile "party_max" = true ->
  cli_build_activity profile = Ret (_build_activity profile).
Proof.
  intros Hsize Hmax.
  unfold cli_build_activity, _build_activity. cbv zeta.
  match goal with
  | |- context [copy_if_truthy profile "small_image_text" "small_text" ?a] =>
      generalize (copy_if_truthy profile "small_image_text" "small_text" a)
  end.
  intros activity. unfold dict_get_default.
  destruct (count_cases _ _ Hsize) as [Hs | [Hs | [n [Hs Hn]]]];
    destruct (count_cases _ _ Hmax) as [Hm | [Hm | [m [Hm Hpos]]]];
    rewrite Hs, Hm; cbn [truthy orb andb py_gt as_number rbind negb Z.eqb Z.gtb
                           Z.compare];
    rewrite ?(positive_is_truthy _ Hn), ?(positive_is_truthy _ Hpos),
      ?(positive_gtb _ Hn), ?(positive_gtb _ Hpos);
    cbn [orb andb rbind]; reflexivity.
Qed.

Lemma cli_builder_agrees_on_counts_witness :
  cli_build_activity
    [("name", PStr "Work"); ("party_size", PInt 2); ("party_max", PInt 4)]
  = Ret [("name", PStr "Work"); ("party_size", PList [PInt 2; PInt 4])].
Proof.
  apply (cli_builder_agrees_on_counts
           [("name", PStr "Work"); ("party_size", PInt 2); ("party_max", PInt 4)]);
    reflexivity.
Defined.

Lemma dict_get_set_other (d : dict) (k k' : string) (v : PyVal) :
  k' <> k -> dict_get (dict_set d k v) k' = dict_get d k'.
Proof.
  intros Hne. induction d as [|[j w] d IH]; simpl.
  - apply String.eqb_neq in Hne. now rewrite Hne.
  - destruct (String.eqb k j) eqn:E; simpl.
    + apply String.eqb_eq in E. subst j.
      apply String.eqb_neq in Hne. now rewrite Hne.
    + now rewrite IH.
Qed.

Lemma dict_get_copy_other (data : dict) (src dst k : string) (activity : dict) :
  k <> dst ->
  dict_get (copy_if_truthy data src dst activity) k = dict_get activity k.
Proof.
  intros Hne. unfold copy_if_truthy.
  destruct (truthy _); [now apply dict_get_set_other|reflexivity].
Qed.

(** X28.  A profile that stores [None] for [party_size] beside a party maximum
    makes the builder of the command line raise [TypeError], where the
    builder of the application leaves the party out. *)
Theorem cli_builder_rejects_None_size (profile : dict) :
  dict_get profile "party_size" = Some PNone ->
  truthy (dict_get_default profile "party_max" PNone) = true ->
  cli_build_activity profile = Raise (gt_TypeError PNone (PInt 0))
  /\ dict_get (_build_activity profile) "party_size" = None.
Proof.
  intros Hsize Hmax.
  assert (Hget : forall default,
             dict_get_default profile "party_size" default = PNone).
  { intros default. unfold dict_get_default. now rewrite Hsize. }
  split.
  - unfold cli_build_activity. cbv zeta.
    rewrite Hmax, !Hget. cbn [truthy orb]. reflexivity.
  - unfold _build_activity. cbv zeta.
    rewrite !Hget. cbn [truthy andb].
    repeat match goal with
           | |- context [if ?b then dict_set _ _ _ else _] => destruct b
           end;
      rewrite ?dict_get_set_other by discriminate;
      rewrite ?dict_get_copy_other by discriminate; reflexivity.
Qed.

Lemma cli_builder_rejects_None_size_witness :
  cli_build_activity
    [("name", PStr "Work"); ("party_size", PNone); ("party_max", PInt 4)]
  = Raise (gt_TypeError PNone (PInt 0)).
Proof.
  apply (cli_builder_rejects_None_size
           [("name", PStr "Work"); ("party_size", PNone); ("party_max", PInt 4)]);
    reflexivity.
Defined.

(** ** [execute_connect] *)









(** X30.  An exception of the activity builder escapes [execute_connect] after
    the connection was made: the call raises in the state that [connect]
    left, without a message and without an exit code. *)
Theorem execute_connect_lets_builder_error_escape (profile_name : PyVal)
  (data : dict) (e : Exn) (p p' : Process) :
  truthy profile_name = true ->
  load_profile profile_name p = (Ret (PDict data), p) ->
  truthy (dict_get_default data "app_id" PNone) = true ->
  connect (dict_get_default data "app_id" PNone) p = (Ret true, p') ->
  cli_build_activity data = Raise e ->
  execute_connect profile_name p = (Raise e, p').
Proof.
  intros Hname Hload Happ Hconnect Hbuild.
  assert (Hdata : truthy (PDict data) = true).
  { destruct data; [discriminate Happ|reflexivity]. }
  unfold execute_connect. rewrite Hname.
  unfold bind at 1. unfold bind at 1. rewrite Hload. rewrite Hdata.
  cbn [negb]. unfold ret at 1.
  unfold bind at 1. unfold py_get, py_get_default, lift at 1.
  rewrite Happ. cbn [negb].
  unfold bind at 1. rewrite Hconnect.
  unfold bind at 1. unfold lift at 1. rewrite Hbuild. reflexivity.
Qed.


Lemma execute_connect_lets_builder_error_escape_witness :
  fst (execute_connect (PStr "Raid")
         (owner_with_profiles
            [("Raid.json",
              Doc (PDict [("app_id", PStr "111111111111111111");
                          ("name", PStr "Raid");
                          ("party_size", PNone); ("party_max", PInt 4)]))]))
  = Raise (gt_TypeError PNone (PInt 0)).
Proof.
  rewrite (execute_connect_lets_builder_error_escape (PStr "Raid")
             [("app_id", PStr "111111111111111111"); ("name", PStr "Raid");
              ("party_size", PNone); ("party_max", PInt 4)]
             (gt_TypeError PNone (PInt 0))
             (owner_with_profiles
                [("Raid.json",
                  Doc (PDict [("app_id", PStr "111111111111111111");
                              ("name", PStr "Raid");
                              ("party_size", PNone); ("party_max", PInt 4)]))])
             (snd (connect (PStr "111111111111111111")
                     (owner_with_profiles
                        [("Raid.json",
                          Doc (PDict [("app_id", PStr "111111111111111111");
                                      ("name", PStr "Raid");
                                      ("party_size", PNone);
                                      ("party_max", PInt 4)]))]))));
    vm_compute; reflexivity.
Defined.
